(** * PlexBot feedback pipeline: a shallow embedding and its properties

    The development follows the TypeScript sources of the repository:
    - the quota tracker [FreeTierManager] (free-tier-optimizations),
    - the rule-based classifier and the cache-or-compute orchestration of
      [FeedbackAggregator] (feedback-aggregator),
    - the layer health scorer [NetworkVisualizer] (network-visualizer).

    JavaScript numbers that the code only ever uses as integers (counters,
    token estimates, scores, epoch milliseconds) are modelled as [Z];
    strings are byte strings, and [toLowerCase] acts on ASCII letters.

    A feedback record is read at two types: [FeedbackItem], whose metadata
    has the shape that the records of the repository have, and [RawItem],
    whose metadata is any JSON value, as [JSON.parse] may return it for a
    stored row.  The classifier is given on both, and the two readings
    agree on the records of the declared shape. *)

From Stdlib Require Import ZArith Ascii String.
From stdpp Require Import base option list sorting strings pretty gmap.

Local Open Scope string_scope.
Local Open Scope Z_scope.

(** ** JavaScript string and array helpers *)

Module Js.

Definition lower_ascii (c : ascii) : ascii :=
  let n := N_of_ascii c in
  if ((65 <=? n) && (n <=? 90))%N then ascii_of_N (n + 32) else c.

(** [s.toLowerCase()], on ASCII. *)
Fixpoint toLowerCase (s : string) : string :=
  match s with
  | EmptyString => EmptyString
  | String c s' => String (lower_ascii c) (toLowerCase s')
  end.

(** [hay.startsWith(needle)] *)
Fixpoint startsWith (needle hay : string) : bool :=
  match needle, hay with
  | EmptyString, _ => true
  | String _ _, EmptyString => false
  | String a n', String b h' => if Ascii.eqb a b then startsWith n' h' else false
  end.

(** [hay.includes(needle)] on strings: substring search. *)
Fixpoint includes (needle hay : string) : bool :=
  startsWith needle hay ||
  match hay with
  | EmptyString => false
  | String _ h' => includes needle h'
  end.

(** [arr.includes(x)] on arrays of strings: exact element match. *)
Definition Array_includes (x : string) (arr : list string) : bool :=
  bool_decide (x ∈ arr).

(** [arr.some(p)] *)
Definition some {A} (p : A → bool) (arr : list A) : bool := existsb p arr.

(** [arr.slice(0, n)] *)
Definition slice0 {A} (n : nat) (arr : list A) : list A := take n arr.

(** [arr.slice(-n)] *)
Definition sliceLast {A} (n : nat) (arr : list A) : list A :=
  drop (length arr - n) arr.

(** [arr.join(sep)] *)
Fixpoint join (sep : string) (arr : list string) : string :=
  match arr with
  | [] => EmptyString
  | [x] => x
  | x :: rest => x +:+ sep +:+ join sep rest
  end.

(** [x || fallback] on a possibly undefined string: the empty string is
    falsy as well. *)
Definition or_default (x : option string) (fallback : string) : string :=
  match x with
  | Some s => if bool_decide (s = EmptyString) then fallback else s
  | None => fallback
  end.

(** [[...new Set(arr)]]: first occurrences, in order. *)
Definition unique (arr : list string) : list string :=
  foldl (λ acc x, if Array_includes x acc then acc else (acc ++ [x])%list) [] arr.

Definition newline : ascii := ascii_of_nat 10.

(** [s.split(sep)] for a one-character separator. *)
Fixpoint split (sep : ascii) (s : string) : list string :=
  match s with
  | EmptyString => [EmptyString]
  | String c s' =>
      if Ascii.eqb c sep then EmptyString :: split sep s'
      else match split sep s' with
           | [] => [String c EmptyString]
           | piece :: pieces => String c piece :: pieces
           end
  end.

(** White space that [trim] strips, among the ASCII characters. *)
Definition is_space (c : ascii) : bool :=
  let n := nat_of_ascii c in
  (Nat.eqb n 32 || (Nat.leb 9 n && Nat.leb n 13))%bool.

Fixpoint trimStart (s : string) : string :=
  match s with
  | EmptyString => EmptyString
  | String c s' => if is_space c then trimStart s' else s
  end.

Fixpoint trimEnd (s : string) : string :=
  match s with
  | EmptyString => EmptyString
  | String c s' =>
      match trimEnd s' with
      | EmptyString => if is_space c then EmptyString else String c EmptyString
      | r => String c r
      end
  end.

Definition trim (s : string) : string := trimEnd (trimStart s).

(** [Array.prototype.sort(cmp)]: the sort is stable, and for a comparator
    that is a consistent ordering its result is the unique stable sorted
    arrangement, which insertion from the right computes.  [cmp a b <= 0]
    keeps [a] in front of [b].  For a comparator that is not consistent
    (one that answers [NaN], read as [+0], next to an invalid date) the
    arrangement is left to the engine; when every comparison that is made
    answers 0 the array stays as it is, here as in the engine. *)
Section Sort.
Context {A : Type} (cmp : A → A → Z).

Fixpoint sort_insert (x : A) (l : list A) : list A :=
  match l with
  | [] => [x]
  | y :: l' => if cmp x y <=? 0 then x :: y :: l' else y :: sort_insert x l'
  end.

Definition sort (l : list A) : list A := foldr sort_insert [] l.
End Sort.

Fixpoint decimal (acc : Z) (s : string) : option Z :=
  match s with
  | EmptyString => Some acc
  | String c s' =>
      let n := Z.of_nat (nat_of_ascii c) in
      if (48 <=? n) && (n <=? 57) then decimal (acc * 10 + (n - 48)) s' else None
  end.

(** The number of a property key that is an array index: a canonical
    decimal numeral below [2^32 - 1]. *)
Definition arrayIndex (key : string) : option Z :=
  match key with
  | EmptyString => None
  | _ =>
      match decimal 0 key with
      | Some n =>
          if String.eqb (pretty n) key && (n <? 4294967295) then Some n else None
      | None => None
      end
  end.

(** [Object.entries(obj)] of an object whose properties are listed in
    order of creation: the array indices first, ascending, then the other
    keys in order of creation. *)
Definition entries {A} (obj : list (string * A)) : list (string * A) :=
  let isIndex (p : string * A) := bool_decide (is_Some (arrayIndex p.1)) in
  (sort (λ a b : string * A, default 0 (arrayIndex a.1) - default 0 (arrayIndex b.1))
        (List.filter isIndex obj)
   ++ List.filter (λ p, negb (isIndex p)) obj)%list.

End Js.

(** ** The quota tracker [FreeTierManager] *)

Module FreeTier.

Module CLOUDFLARE_LIMITS.
Definition AI_TOKENS_PER_DAY : Z := 100000.
Definition AI_RESERVED_TOKENS : Z := 10000.
Definition D1_ROWS_READ_MONTHLY : Z := 500000.
Definition D1_ROWS_WRITTEN_MONTHLY : Z := 100000.
Definition D1_RESERVED_READS : Z := 50000.
Definition D1_RESERVED_WRITES : Z := 10000.
Definition KV_READS_DAILY : Z := 100000.
Definition KV_WRITES_DAILY : Z := 1000.
Definition KV_RESERVED_READS : Z := 10000.
Definition KV_RESERVED_WRITES : Z := 100.
End CLOUDFLARE_LIMITS.
Import CLOUDFLARE_LIMITS.

(** One entry of [usageCache : Map<string, { count, resetTime }>]. *)
Record UsageEntry := { count : Z; resetTime : Z }.

(** What a call reads from the wall clock: [Date.now()] and the local
    midnight [new Date().setHours(0, 0, 0, 0)] of that instant. *)
Record Clock := { now : Z; dayStart : Z }.

Definition monthStart (clk : Clock) : Z :=
  now clk - now clk `mod` (30 * 24 * 60 * 60 * 1000).

Definition ai_key : string := "ai:tokens:used".
Definition d1_reads_key : string := "d1:reads:used".
Definition d1_writes_key : string := "d1:writes:used".
Definition kv_reads_key : string := "kv:reads:used".
Definition kv_writes_key : string := "kv:writes:used".

(** [this.usageCache.get(key)?.count || 0] *)
Definition usage (key : string) (m : gmap string UsageEntry) : Z :=
  match m !! key with
  | Some e => count e
  | None => 0
  end.

(** [if (this.usageCache.get(key)?.resetTime !== start)
       this.usageCache.set(key, { count: 0, resetTime: start })] *)
Definition resetIfNewWindow (key : string) (start : Z)
    (m : gmap string UsageEntry) : gmap string UsageEntry :=
  match m !! key with
  | Some e =>
      if bool_decide (resetTime e = start) then m
      else <[key := {| count := 0; resetTime := start |}]> m
  | None => <[key := {| count := 0; resetTime := start |}]> m
  end.

Definition canMakeAIRequest (clk : Clock) (estimatedTokens : Z)
    (m : gmap string UsageEntry) : bool * gmap string UsageEntry :=
  let m := resetIfNewWindow ai_key (dayStart clk) m in
  let currentUsage := usage ai_key m in
  (currentUsage + estimatedTokens <? AI_TOKENS_PER_DAY - AI_RESERVED_TOKENS, m).

Definition recordAITokensUsed (clk : Clock) (tokens : Z)
    (m : gmap string UsageEntry) : gmap string UsageEntry :=
  match m !! ai_key with
  | Some current =>
      if bool_decide (resetTime current = dayStart clk)
      then <[ai_key := {| count := count current + tokens;
                          resetTime := resetTime current |}]> m
      else <[ai_key := {| count := tokens; resetTime := dayStart clk |}]> m
  | None => <[ai_key := {| count := tokens; resetTime := dayStart clk |}]> m
  end.

Definition canReadFromD1 (clk : Clock) (estimatedRows : Z)
    (m : gmap string UsageEntry) : bool * gmap string UsageEntry :=
  let m := resetIfNewWindow d1_reads_key (monthStart clk) m in
  (usage d1_reads_key m + estimatedRows <? D1_ROWS_READ_MONTHLY - D1_RESERVED_READS, m).

Definition canWriteToD1 (clk : Clock) (estimatedRows : Z)
    (m : gmap string UsageEntry) : bool * gmap string UsageEntry :=
  let m := resetIfNewWindow d1_writes_key (monthStart clk) m in
  (usage d1_writes_key m + estimatedRows <? D1_ROWS_WRITTEN_MONTHLY - D1_RESERVED_WRITES, m).

Definition canReadFromKV (clk : Clock)
    (m : gmap string UsageEntry) : bool * gmap string UsageEntry :=
  let m := resetIfNewWindow kv_reads_key (dayStart clk) m in
  (usage kv_reads_key m <? KV_READS_DAILY - KV_RESERVED_READS, m).

Definition canWriteToKV (clk : Clock)
    (m : gmap string UsageEntry) : bool * gmap string UsageEntry :=
  let m := resetIfNewWindow kv_writes_key (dayStart clk) m in
  (usage kv_writes_key m <? KV_WRITES_DAILY - KV_RESERVED_WRITES, m).

(** The methods of the manager that touch [usageCache], as calls. *)
Inductive Call :=
  | CanMakeAIRequest (estimatedTokens : Z)
  | RecordAITokensUsed (tokens : Z)
  | CanReadFromD1 (estimatedRows : Z)
  | CanWriteToD1 (estimatedRows : Z)
  | CanReadFromKV
  | CanWriteToKV
  | GetUsageStats.

(** The effect of one call on [usageCache], at the clock reading [clk]. *)
Definition perform (clk : Clock) (c : Call)
    (m : gmap string UsageEntry) : gmap string UsageEntry :=
  match c with
  | CanMakeAIRequest n => (canMakeAIRequest clk n m).2
  | RecordAITokensUsed n => recordAITokensUsed clk n m
  | CanReadFromD1 n => (canReadFromD1 clk n m).2
  | CanWriteToD1 n => (canWriteToD1 clk n m).2
  | CanReadFromKV => (canReadFromKV clk m).2
  | CanWriteToKV => (canWriteToKV clk m).2
  | GetUsageStats => m
  end.

(** A sequence of calls, each with the clock reading it sees. *)
Definition performAll (cs : list (Clock * Call))
    (m : gmap string UsageEntry) : gmap string UsageEntry :=
  foldl (λ m c, perform c.1 c.2 m) m cs.

(** [conservativeAI] *)
Definition getModelForTask (task : string) : string :=
  "@cf/meta/llama-3.1-8b-instruct".

Definition truncateForAI (text : string) (maxLength : nat) : string :=
  if (maxLength <? String.length text)%nat
  then substring 0 maxLength text +:+ "..." else text.

(** [Math.ceil(text.length / 4)] *)
Definition estimateTokens (text : string) : Z :=
  (Z.of_nat (String.length text) + 3) `div` 4.

(** [conservativeCache] *)
Definition summaryTTL : Z := 300.
Definition insightsTTL : Z := 600.

End FreeTier.

(** ** Feedback records *)

(** The [metadata] object: the fields the classifier reads; [labels], when
    present, is an array of strings. *)
Record Metadata := {
  labels : option (list string);
  priority : option string;
  state : option string
}.

Record FeedbackItem := {
  id : string;
  source_type : string;
  source_id : string;
  title : string;
  content : string;
  author : string;
  created_at : string;
  metadata : Metadata
}.

(** A value as [JSON.parse] returns it.  A number is kept as the text that
    [String(n)] gives for it ([0] and [-0] both give ["0"]); an object as
    its properties, each name once. *)
#[warnings="-register-all"]
Inductive Json :=
  | JNull
  | JBool (b : bool)
  | JNumber (text : string)
  | JString (s : string)
  | JArray (elements : list Json)
  | JObject (properties : list (string * Json)).

(** A record whose [metadata] is whatever [JSON.parse] returned for the
    stored column: the interface declares [metadata: any], and nothing
    checks the shape of what is read back from the store. *)
Record RawItem := {
  raw_id : string;
  raw_source_type : string;
  raw_source_id : string;
  raw_title : string;
  raw_content : string;
  raw_author : string;
  raw_created_at : string;
  raw_metadata : Json
}.

(** What [JSON.parse] of the model's sentiment answer yields, seen through
    the two properties the code reads from it afterwards. *)
Inductive SentimentJson :=
  | SNullish   (* [null]: reading a property of it throws a TypeError *)
  | SObject (overall urgency_level : option string).

(** Builtins of the JavaScript runtime that the code calls and whose
    definition is not part of the repository. *)
Record JsRuntime := {
  (** [new Date(s).getTime()]; [None] stands for [NaN] (Invalid Date). *)
  Date_getTime : string → option Z;
  (** [d.toISOString().split('T')[0]] of a valid date given by its time. *)
  Date_isoDay : Z → string;
  (** [JSON.stringify] of a metadata object. *)
  JSON_stringify : Metadata → string;
  (** [JSON.parse] of a metadata column; [None] stands for a thrown
      [SyntaxError]. *)
  JSON_parse : string → option Json;
  (** [JSON.parse] of the model's sentiment answer. *)
  JSON_parse_sentiment : string → option SentimentJson
}.

(** ** Result objects *)

Record FeedbackSummary := {
  totalItems : Z;
  sources : list string;
  dateRange : string;
  topCategories : list string;
  averageSentiment : string;
  criticalIssueCount : Z;   (* the field [criticalIssues] of the summary *)
  featureRequests : Z
}.

Inductive SentimentAnalysis :=
  (* [{ overall: 'neutral', key_concerns: [], positive_signals: [], urgency_level: 'medium' }] *)
  | SentimentDefaults
  (* [{ overall: 'neutral', trends: [] }] *)
  | SentimentBlocked
  | SentimentFromAI (j : SentimentJson).

Record Category := {
  cat_name : string;
  cat_priority : string;
  cat_count : Z;
  cat_items : list string;
  cat_latestUpdate : string
}.

Record PriorityMatrix := {
  pm_urgent : list Category;
  pm_high : list Category;
  pm_medium : list Category;
  pm_low : list Category
}.

Record JourneyStage := {
  js_stage : string;
  js_feedbackCount : Z;
  js_satisfaction : string
}.

Record FeatureAdoption := {
  fa_feature : string;
  fa_mentions : Z;
  fa_sentiment : string
}.

Record UserJourneyInsights := {
  journeyStages : list JourneyStage;
  painPoints : list string;
  featureAdoption : list FeatureAdoption
}.

Record FeedbackInsights := {
  criticalIssues : list string;
  trendingTopics : list string;
  recommendations : list string;
  priorityActions : list string;
  sentimentAnalysis : SentimentAnalysis;
  priorityMatrix : PriorityMatrix;
  userJourneyInsights : UserJourneyInsights
}.

Inductive Status := healthy | warning | critical.

Record NetworkLayer := {
  name : string;
  status : Status;
  issueCount : Z;
  description : string
}.

Record NetworkVisualization := {
  layerStatus : list NetworkLayer;
  criticalLayers : list string;
  warningLayers : list string;
  issueDistribution : string;
  visualization : string;
  lastUpdated : string;
  healthScore : Z
}.

(** ** The worker environment: gateways, clock and quota state *)

(** A cached value.  [JSON.stringify] on write and [JSON.parse] on a hit
    are the identity on the objects this code stores. *)
Inductive Payload :=
  | PSummary (s : FeedbackSummary)
  | PInsights (i : FeedbackInsights)
  | PVisualization (v : NetworkVisualization).

Record CacheEntry := { payload : Payload; expirationTtl : Z }.

(** A row of the [feedback] table; [metadata] is a nullable TEXT column. *)
Record Row := {
  row_id : string;
  row_source_type : string;
  row_source_id : string;
  row_title : string;
  row_content : string;
  row_author : string;
  row_created_at : string;
  row_metadata : option string;
  row_processed_at : string
}.

Record Message := { role : string; message : string }.

(** The behaviour of the outside world, by the number of the gateway call
    or clock reading that meets it: whether a Cache or Data Gateway call
    throws, what the AI Gateway answers ([None]: it throws; [Some r]: the
    [response] property of its answer, possibly undefined), and what the
    wall clock shows. *)
Record Outside := {
  cacheFault : nat → bool;
  dbFault : nat → bool;
  AI_run : nat → string → list Message → Z → option (option string);
  clockAt : nat → FreeTier.Clock;
  isoNow : nat → string;
  localeNow : nat → string
}.

(** The mutable state: the KV namespace (read within the entries' TTL),
    the [feedback] table in row order, the singleton quota manager's
    [usageCache], and the number of outside interactions so far. *)
Record World := {
  CACHE : gmap string CacheEntry;
  FEEDBACK_DB : list Row;
  usageCache : gmap string FreeTier.UsageEntry;
  steps : nat
}.

Inductive Outcome (A : Type) :=
  | Ok (a : A)
  | Throw (e : string).
Arguments Ok {A} a.
Arguments Throw {A} e.

(** ** Values of any JSON shape

    The operations that the code applies to a [metadata] read back from
    the store, on every JSON value, with the [TypeError]s of the runtime:
    reading a property of [null], and calling a method that the value
    does not have. *)

Module Dynamic.
Import Js.

Definition andThen {A B} (o : Outcome A) (k : A → Outcome B) : Outcome B :=
  match o with
  | Ok a => k a
  | Throw e => Throw e
  end.

Declare Scope outcome_scope.
Delimit Scope outcome_scope with outcome.
Notation "x <~ o ;; k" := (andThen o (λ x, k))
  (at level 100, o at next level, right associativity) : outcome_scope.
Local Open Scope outcome_scope.

(** [arr.filter(p)], [arr.some(p)], [arr.map(f)] and a [forEach] that
    updates a variable, for callbacks that may throw. *)
Fixpoint filterM {A} (p : A → Outcome bool) (arr : list A) : Outcome (list A) :=
  match arr with
  | [] => Ok []
  | x :: rest =>
      keep <~ p x ;;
      kept <~ filterM p rest ;;
      Ok (if keep then x :: kept else kept)
  end.

Fixpoint someM {A} (p : A → Outcome bool) (arr : list A) : Outcome bool :=
  match arr with
  | [] => Ok false
  | x :: rest => found <~ p x ;; if found then Ok true else someM p rest
  end.

Fixpoint mapM {A B} (f : A → Outcome B) (arr : list A) : Outcome (list B) :=
  match arr with
  | [] => Ok []
  | x :: rest => y <~ f x ;; ys <~ mapM f rest ;; Ok (y :: ys)
  end.

Fixpoint foldM {A B} (step : B → A → Outcome B) (init : B) (arr : list A)
    : Outcome B :=
  match arr with
  | [] => Ok init
  | x :: rest => next <~ step init x ;; foldM step next rest
  end.

(** [Array.prototype.sort(cmp)] for a comparator that may throw: as
    [Js.sort], and the first throw of the comparator ends the sort.  An
    array of two or more elements hands each of them to the comparator at
    least once; a shorter one calls it never. *)
Section SortM.
Context {A : Type} (cmp : A → A → Outcome Z).

Fixpoint sort_insertM (x : A) (l : list A) : Outcome (list A) :=
  match l with
  | [] => Ok [x]
  | y :: l' =>
      c <~ cmp x y ;;
      if c <=? 0 then Ok (x :: y :: l')
      else (rest <~ sort_insertM x l' ;; Ok (y :: rest))
  end.

Fixpoint sortM (l : list A) : Outcome (list A) :=
  match l with
  | [] => Ok []
  | x :: l' => sorted <~ sortM l' ;; sort_insertM x sorted
  end.
End SortM.

Definition nullRead : string := "TypeError: cannot read properties of null".

Definition notFunction : string := "TypeError: not a function".

Definition lookup (key : string) (properties : list (string * Json)) : option Json :=
  snd <$> List.find (λ p : string * Json, String.eqb p.1 key) properties.

(** [value.key] for one of the keys [labels], [priority] and [state], which
    no prototype defines: [None] stands for [undefined]. *)
Definition get (key : string) (value : Json) : Outcome (option Json) :=
  match value with
  | JNull => Throw nullRead
  | JObject properties => Ok (lookup key properties)
  | _ => Ok None
  end.

(** [value == null]: [null] or [undefined]. *)
Definition nullish (value : option Json) : bool :=
  match value with
  | None | Some JNull => true
  | _ => false
  end.

Definition truthy (value : option Json) : bool :=
  match value with
  | None | Some JNull => false
  | Some (JBool b) => b
  | Some (JNumber text) => negb (String.eqb text "0")
  | Some (JString s) => negb (String.eqb s EmptyString)
  | Some (JArray _) | Some (JObject _) => true
  end.

(** [value || fallback] *)
Definition or_else (value : option Json) (fallback : Json) : Json :=
  match value with
  | Some v => if truthy value then v else fallback
  | None => fallback
  end.

(** [String(value)], which is also the property key that [obj[value]]
    uses. *)
Fixpoint toString (value : Json) : string :=
  match value with
  | JNull => "null"
  | JBool b => if b then "true" else "false"
  | JNumber text => text
  | JString s => s
  | JArray elements =>
      join "," (map (λ element,
                       match element with
                       | JNull => EmptyString
                       | _ => toString element
                       end) elements)
  | JObject _ => "[object Object]"
  end.

(** [value === x] for a string [x]. *)
Definition isString (x : string) (value : Json) : bool :=
  match value with
  | JString s => String.eqb s x
  | _ => false
  end.

Definition equals (x : string) (value : option Json) : bool :=
  match value with
  | Some v => isString x v
  | None => false
  end.

(** [value.includes(x)] for a string [x]: strings and arrays have the
    method. *)
Definition includes_of (value : Json) (x : string) : Outcome bool :=
  match value with
  | JString s => Ok (includes x s)
  | JArray elements => Ok (existsb (isString x) elements)
  | JNull => Throw nullRead
  | _ => Throw notFunction
  end.

(** [value.toLowerCase()]: strings have the method. *)
Definition toLowerCase_of (value : Json) : Outcome string :=
  match value with
  | JString s => Ok (toLowerCase s)
  | JNull => Throw nullRead
  | _ => Throw notFunction
  end.

(** [value.some(p)]: arrays have the method. *)
Definition some_of (value : Json) (p : Json → Outcome bool) : Outcome bool :=
  match value with
  | JArray elements => someM p elements
  | JNull => Throw nullRead
  | _ => Throw notFunction
  end.

(** [value.forEach(element => { acc = step(acc, element) })]: arrays have
    the method. *)
Definition forEach_of {B} (value : Json) (step : B → Json → B) (init : B)
    : Outcome B :=
  match value with
  | JArray elements => Ok (foldl step init elements)
  | JNull => Throw nullRead
  | _ => Throw notFunction
  end.

(** *** The declared shape

    A metadata object of the shape that the records of the repository
    have: [labels] absent or an array of strings, [priority] and [state]
    absent or strings.  On these the typed reading [Metadata] is what the
    code sees. *)

Fixpoint stringsOf (elements : list Json) : option (list string) :=
  match elements with
  | [] => Some []
  | JString s :: rest => cons s <$> stringsOf rest
  | _ => None
  end.

Definition optionalStrings (value : option Json) : option (option (list string)) :=
  match value with
  | None | Some JNull => Some None
  | Some (JArray elements) => Some <$> stringsOf elements
  | _ => None
  end.

Definition optionalString (value : option Json) : option (option string) :=
  match value with
  | None | Some JNull => Some None
  | Some (JString s) => Some (Some s)
  | _ => None
  end.

Definition metadataOfJson (value : Json) : option Metadata :=
  match value with
  | JObject properties =>
      ls ← optionalStrings (lookup "labels" properties);
      p ← optionalString (lookup "priority" properties);
      st ← optionalString (lookup "state" properties);
      Some {| labels := ls; priority := p; state := st |}
  | _ => None
  end.

Definition property (key : string) (value : option Json) : list (string * Json) :=
  match value with
  | Some v => [(key, v)]
  | None => []
  end.

Definition jsonOfMetadata (m : Metadata) : Json :=
  JObject (property "labels" ((λ ls, JArray (map JString ls)) <$> labels m)
           ++ property "priority" (JString <$> priority m)
           ++ property "state" (JString <$> state m))%list.

(** The record at the declared type, when its metadata has that shape. *)
Definition typed (f : RawItem) : option FeedbackItem :=
  m ← metadataOfJson (raw_metadata f);
  Some {| id := raw_id f; source_type := raw_source_type f;
          source_id := raw_source_id f; title := raw_title f;
          content := raw_content f; author := raw_author f;
          created_at := raw_created_at f; metadata := m |}.

(** The record as the code sees it that reads none of its metadata: a
    metadata of another shape is left out. *)
Definition asDeclared (f : RawItem) : FeedbackItem :=
  {| id := raw_id f; source_type := raw_source_type f;
     source_id := raw_source_id f; title := raw_title f;
     content := raw_content f; author := raw_author f;
     created_at := raw_created_at f;
     metadata := default {| labels := None; priority := None; state := None |}
                         (metadataOfJson (raw_metadata f)) |}.

(** A record of the declared type, among the records of any shape. *)
Definition rawOfItem (f : FeedbackItem) : RawItem :=
  {| raw_id := id f; raw_source_type := source_type f;
     raw_source_id := source_id f; raw_title := title f;
     raw_content := content f; raw_author := author f;
     raw_created_at := created_at f;
     raw_metadata := jsonOfMetadata (metadata f) |}.

End Dynamic.

(** Asynchronous code that may throw: state passing with an outcome. *)
Module Async.

Definition M (A : Type) : Type := World → Outcome A * World.

Definition ret {A} (a : A) : M A := λ w, (Ok a, w).

Definition throw {A} (e : string) : M A := λ w, (Throw e, w).

Definition bind {A B} (m : M A) (k : A → M B) : M B := λ w,
  match m w with
  | (Ok a, w') => k a w'
  | (Throw e, w') => (Throw e, w')
  end.

(** [try { m } catch (error) { handler }] *)
Definition try_catch {A} (m : M A) (handler : string → M A) : M A := λ w,
  match m w with
  | (Ok a, w') => (Ok a, w')
  | (Throw e, w') => handler e w'
  end.

(** Lifting a computation that may throw but has no other effect. *)
Definition lift {A} (o : Outcome A) : M A := λ w, (o, w).

Definition get : M World := λ w, (Ok w, w).

Definition tick : M nat := λ w,
  (Ok (steps w),
   {| CACHE := CACHE w; FEEDBACK_DB := FEEDBACK_DB w;
      usageCache := usageCache w; steps := S (steps w) |}).

Definition setCache (c : gmap string CacheEntry) : M unit := λ w,
  (Ok tt, {| CACHE := c; FEEDBACK_DB := FEEDBACK_DB w;
             usageCache := usageCache w; steps := steps w |}).

Definition setDb (d : list Row) : M unit := λ w,
  (Ok tt, {| CACHE := CACHE w; FEEDBACK_DB := d;
             usageCache := usageCache w; steps := steps w |}).

Definition setUsage (u : gmap string FreeTier.UsageEntry) : M unit := λ w,
  (Ok tt, {| CACHE := CACHE w; FEEDBACK_DB := FEEDBACK_DB w;
             usageCache := u; steps := steps w |}).

Declare Scope async_scope.
Delimit Scope async_scope with async.
Notation "x <- m ;; k" := (bind m (λ x, k))
  (at level 100, m at next level, right associativity) : async_scope.
Notation "m ;;; k" := (bind m (λ _, k))
  (at level 100, right associativity) : async_scope.

End Async.

(** ** Gateway calls, as the worker's [env] offers them *)

Module Gateway.
Import Js Async.
Local Open Scope async_scope.

Section WithOutside.
Context (out : Outside).

(** [env.CACHE.get(key)] *)
Definition CACHE_get (key : string) : M (option Payload) :=
  t <- tick ;; w <- get ;;
  if cacheFault out t then throw "KV get failed"
  else ret (payload <$> CACHE w !! key).

(** [env.CACHE.put(key, JSON.stringify(value), { expirationTtl })] *)
Definition CACHE_put (key : string) (value : Payload) (ttl : Z) : M unit :=
  t <- tick ;; w <- get ;;
  if cacheFault out t then throw "KV put failed"
  else setCache (<[key := {| payload := value; expirationTtl := ttl |}]> (CACHE w)).

(** [env.CACHE.delete(key)] *)
Definition CACHE_delete (key : string) : M unit :=
  t <- tick ;; w <- get ;;
  if cacheFault out t then throw "KV delete failed"
  else setCache (delete key (CACHE w)).

(** [ORDER BY created_at DESC] on a TEXT column: byte order, rows that
    compare equal stay in row order. *)
Definition byCreatedAtDesc (a b : Row) : Z :=
  match String.compare (row_created_at b) (row_created_at a) with
  | Lt => -1
  | Eq => 0
  | Gt => 1
  end.

(** [text LIKE '%keyword%']: SQLite's LIKE ignores ASCII case. *)
Definition like (keyword text : string) : bool :=
  includes keyword (toLowerCase text).

Definition like_null (keyword : string) (text : option string) : bool :=
  match text with
  | Some t => like keyword t
  | None => false
  end.

(** The WHERE clause of [getNetworkFeedback]. *)
Definition networkWhere (r : Row) : bool :=
  like "network" (row_content r) || like "connectivity" (row_content r)
  || like "interface" (row_content r)
  || like_null "network" (row_metadata r)
  || like_null "interface" (row_metadata r).

(** [INSERT OR REPLACE]: a row with the same primary key is dropped and
    the new row is appended. *)
Definition upsert (r : Row) (rows : list Row) : list Row :=
  (List.filter (λ x, negb (String.eqb (row_id x) (row_id r))) rows ++ [r])%list.

(** [SELECT ... FROM feedback ORDER BY created_at DESC], [.all()] *)
Definition DB_selectAll : M (list Row) :=
  t <- tick ;; w <- get ;;
  if dbFault out t then throw "D1 query failed"
  else ret (sort byCreatedAtDesc (FEEDBACK_DB w)).

(** [SELECT * FROM feedback WHERE ... ORDER BY created_at DESC], [.all()] *)
Definition DB_selectNetwork : M (list Row) :=
  t <- tick ;; w <- get ;;
  if dbFault out t then throw "D1 query failed"
  else ret (sort byCreatedAtDesc (List.filter networkWhere (FEEDBACK_DB w))).

(** [stmt.bind(...).run()] of the INSERT OR REPLACE statement. *)
Definition DB_insertOrReplace (r : Row) : M unit :=
  t <- tick ;; w <- get ;;
  if dbFault out t then throw "D1 write failed"
  else setDb (upsert r (FEEDBACK_DB w)).

(** [env.AI.run(model, { messages, max_tokens })]; the result is the
    [response] property of the answer. *)
Definition AI_call (model : string) (messages : list Message)
    (max_tokens : Z) : M (option string) :=
  t <- tick ;;
  match AI_run out t model messages max_tokens with
  | Some response => ret response
  | None => throw "AI run failed"
  end.

(** [this.freeTierManager.canMakeAIRequest(env, estimatedTokens)] *)
Definition canMakeAIRequest (estimatedTokens : Z) : M bool :=
  t <- tick ;; w <- get ;;
  let r := FreeTier.canMakeAIRequest (clockAt out t) estimatedTokens (usageCache w) in
  setUsage r.2 ;;; ret r.1.

(** [this.freeTierManager.recordAITokensUsed(tokens)] *)
Definition recordAITokensUsed (tokens : Z) : M unit :=
  t <- tick ;; w <- get ;;
  setUsage (FreeTier.recordAITokensUsed (clockAt out t) tokens (usageCache w)).

(** [new Date().toISOString()] *)
Definition nowISO : M string := t <- tick ;; ret (isoNow out t).

(** [new Date().toLocaleString()] *)
Definition nowLocale : M string := t <- tick ;; ret (localeNow out t).
End WithOutside.

End Gateway.

(** ** The rule-based classifier of [FeedbackAggregator] *)

Module Aggregator.
Import Js FreeTier.

(** [feedback.metadata.labels || []] *)
Definition labels_or_empty (f : FeedbackItem) : list string :=
  default [] (labels (metadata f)).

(** [f.metadata.labels?.includes(x)] *)
Definition labels_include (x : string) (f : FeedbackItem) : bool :=
  match labels (metadata f) with
  | Some l => Array_includes x l
  | None => false
  end.

(** The time value of [new Date(s)], compared as numbers: a difference
    with [NaN] is [NaN], which a sort comparator's caller reads as [+0]. *)
Definition timeDiff (rt : JsRuntime) (a b : string) : Z :=
  match Date_getTime rt a, Date_getTime rt b with
  | Some x, Some y => x - y
  | _, _ => 0
  end.

(** [new Date(a) > new Date(b)]; false as soon as one side is invalid. *)
Definition laterThan (rt : JsRuntime) (a b : string) : bool :=
  match Date_getTime rt a, Date_getTime rt b with
  | Some x, Some y => y <? x
  | _, _ => false
  end.

Definition calculateSeverity (feedback : FeedbackItem) : Z :=
  let severity := 1 in
  let content := toLowerCase (content feedback +:+ title feedback) in
  let labels := labels_or_empty feedback in
  (* Critical indicators *)
  let severity :=
    if Array_includes "critical" labels || includes "security" content
       || includes "vulnerability" content
    then severity + 3 else severity in
  let severity :=
    if includes "crash" content || includes "data loss" content
    then severity + 2 else severity in
  let severity :=
    if Array_includes "blocking" labels || includes "blocking" content
    then severity + 2 else severity in
  let severity :=
    if bool_decide (priority (metadata feedback) = Some "high")
       || Array_includes "high" labels
    then severity + 1 else severity in
  (* Source-based weighting *)
  let severity :=
    if bool_decide (source_type feedback = "bug-report")
    then severity + 1 else severity in
  let severity :=
    if bool_decide (source_type feedback = "security-researcher")
    then severity + 2 else severity in
  Z.min severity 5.

Definition criticalKeywords : list string :=
  [ "security"; "vulnerability"; "sql-injection"; "crash"; "data loss";
    "memory leak"; "performance degradation"; "blocking"; "critical";
    "emergency"; "breach"; "exploit" ].

(** The filter predicate of [extractCriticalIssues]. *)
Definition isCriticalFeedback (f : FeedbackItem) : bool :=
  let content := toLowerCase (content f) in
  let title := toLowerCase (title f) in
  let labels := labels_or_empty f in
  some (λ keyword,
          includes keyword content
          || includes keyword title
          || some (λ label, includes keyword (toLowerCase label)) labels)
       criticalKeywords.

(** The sort comparator of [extractCriticalIssues]. *)
Definition bySeverityThenRecency (rt : JsRuntime) (a b : FeedbackItem) : Z :=
  let aSeverity := calculateSeverity a in
  let bSeverity := calculateSeverity b in
  if bool_decide (aSeverity ≠ bSeverity) then bSeverity - aSeverity
  else timeDiff rt (created_at b) (created_at a).

(** [`${f.title} (${f.source_type})`] *)
Definition renderIssue (f : FeedbackItem) : string :=
  title f +:+ " (" +:+ source_type f +:+ ")".

(** The records behind the rendered list of [extractCriticalIssues]. *)
Definition criticalRecords (rt : JsRuntime) (feedback : list FeedbackItem)
    : list FeedbackItem :=
  slice0 8 (sort (bySeverityThenRecency rt) (List.filter isCriticalFeedback feedback)).

Definition extractCriticalIssues (rt : JsRuntime) (feedback : list FeedbackItem)
    : list string :=
  map renderIssue (criticalRecords rt feedback).

(** [categories[key] = (categories[key] || 0) + 1] on an object whose keys
    are listed in order of creation (no key names a property that objects
    inherit, such as [constructor]). *)
Fixpoint bump (key : string) (categories : list (string * Z)) : list (string * Z) :=
  match categories with
  | [] => [(key, 1)]
  | (k, n) :: rest =>
      if String.eqb k key then (k, n + 1) :: rest else (k, n) :: bump key rest
  end.

Definition bumpIf (b : bool) (key : string) (categories : list (string * Z))
    : list (string * Z) :=
  if b then bump key categories else categories.

Definition categorizeOne (categories : list (string * Z)) (f : FeedbackItem)
    : list (string * Z) :=
  (* Categorize by labels first *)
  let categories :=
    match labels (metadata f) with
    | Some ls => foldl (λ cs label, bump label cs) categories ls
    | None => categories
    end in
  (* Categorize by content keywords *)
  let content := toLowerCase (content f) in
  let categories :=
    bumpIf (includes "docker" content || includes "container" content)
           "docker" categories in
  let categories :=
    bumpIf (includes "performance" content || includes "cpu" content
            || includes "memory" content) "performance" categories in
  let categories :=
    bumpIf (includes "security" content || includes "vulnerability" content)
           "security" categories in
  let categories :=
    bumpIf (includes "feature" content || includes "enhancement" content)
           "features" categories in
  bumpIf (includes "network" content || includes "connectivity" content)
         "network" categories.

Definition categorizeFeedback (feedback : list FeedbackItem) : list (string * Z) :=
  sort (λ a b, b.2 - a.2) (entries (foldl categorizeOne [] feedback)).

(** [feedback.filter(p).length] *)
Definition countIf {A} (p : A → bool) (l : list A) : Z :=
  Z.of_nat (length (List.filter p l)).

Definition isCriticalForSummary (f : FeedbackItem) : bool :=
  labels_include "security" f
  || labels_include "critical" f
  || includes "vulnerability" (toLowerCase (content f))
  || includes "crash" (toLowerCase (content f)).

Definition isFeatureRequest (f : FeedbackItem) : bool :=
  (bool_decide (source_type f = "github")
   && bool_decide (state (metadata f) = Some "open")
   && labels_include "enhancement" f)
  || includes "feature request" (toLowerCase (content f))
  || includes "would be great" (toLowerCase (content f)).

(** The [dateRange] of the summary; [toISOString] throws a RangeError on
    an invalid date. *)
Definition computeDateRange (rt : JsRuntime) (feedback : list FeedbackItem)
    : Outcome string :=
  let dates :=
    sort (λ a b : option Z,
            match a, b with Some x, Some y => x - y | _, _ => 0 end)
         (map (λ f, Date_getTime rt (created_at f)) feedback) in
  match head dates, last dates with
  | Some first, Some final =>
      match first, final with
      | Some x, Some y => Ok (Date_isoDay rt x +:+ " to " +:+ Date_isoDay rt y)
      | _, _ => Throw "RangeError: Invalid time value"
      end
  | _, _ => Ok "No data"
  end.

(** *** Priority matrix *)

Fixpoint addToCategory (rt : JsRuntime) (categories : list Category)
    (category : string) (feedback : FeedbackItem) (priority : string)
    : list Category :=
  match categories with
  | [] =>
      [ {| cat_name := category; cat_priority := priority; cat_count := 0 + 1;
           cat_items := [title feedback];
           cat_latestUpdate := created_at feedback |} ]
  | c :: rest =>
      if String.eqb (cat_name c) category then
        {| cat_name := cat_name c; cat_priority := cat_priority c;
           cat_count := cat_count c + 1;
           cat_items := (cat_items c ++ [title feedback])%list;
           cat_latestUpdate :=
             if laterThan rt (created_at feedback) (cat_latestUpdate c)
             then created_at feedback else cat_latestUpdate c |} :: rest
      else c :: addToCategory rt rest category feedback priority
  end.

Definition addIf (rt : JsRuntime) (b : bool) (categories : list Category)
    (category : string) (f : FeedbackItem) (priority : string) : list Category :=
  if b then addToCategory rt categories category f priority else categories.

Definition categorizeAdvancedOne (rt : JsRuntime) (categories : list Category)
    (f : FeedbackItem) : list Category :=
  let content := toLowerCase (content f) in
  let labels := labels_or_empty f in
  let categories :=
    addIf rt (includes "security" content || includes "vulnerability" content
              || Array_includes "security" labels)
          categories "security" f "urgent" in
  let categories :=
    addIf rt (includes "performance" content || includes "slow" content
              || includes "cpu" content || Array_includes "performance" labels)
          categories "performance" f "high" in
  let categories :=
    addIf rt (includes "docker" content || includes "arm64" content
              || includes "ipv6" content || Array_includes "compatibility" labels)
          categories "compatibility" f "medium" in
  let categories :=
    addIf rt (includes "feature" content || includes "enhancement" content
              || Array_includes "enhancement" labels)
          categories "features" f "medium" in
  addIf rt (includes "usability" content || includes "ui" content
            || includes "dashboard" content || Array_includes "usability" labels)
        categories "usability" f "low".

Definition categorizeFeedbackAdvanced (rt : JsRuntime)
    (feedback : list FeedbackItem) : list Category :=
  foldl (categorizeAdvancedOne rt) [] feedback.

Definition generatePriorityMatrix (rt : JsRuntime) (feedback : list FeedbackItem)
    : PriorityMatrix :=
  let categories := categorizeFeedbackAdvanced rt feedback in
  {| pm_urgent := List.filter (λ c, String.eqb (cat_priority c) "urgent") categories;
     pm_high := List.filter (λ c, String.eqb (cat_priority c) "high") categories;
     pm_medium := List.filter (λ c, String.eqb (cat_priority c) "medium") categories;
     pm_low := List.filter (λ c, String.eqb (cat_priority c) "low") categories |}.

(** *** User journeys *)

Definition contentHas (word : string) (f : FeedbackItem) : bool :=
  includes word (toLowerCase (content f)).

Definition calculateJourneySatisfaction (feedback : list FeedbackItem) : string :=
  let positiveWords :=
    ["great"; "excellent"; "love"; "amazing"; "perfect"; "smooth"; "easy"] in
  let negativeWords :=
    ["frustrating"; "slow"; "confusing"; "broken"; "terrible"; "difficult"; "complex"] in
  let positive := countIf (λ f, some (λ word, contentHas word f) positiveWords) feedback in
  let negative := countIf (λ f, some (λ word, contentHas word f) negativeWords) feedback in
  if negative * 2 <? positive then "high"
  else if positive * 2 <? negative then "low"
  else "medium".

Definition painPointPatterns : list string :=
  [ "slow"; "crashing"; "confusing"; "broken"; "missing"; "inconsistent";
    "unreliable"; "complex"; "difficult"; "frustrating"; "blocking"; "error" ].

Definition identifyPainPoints (feedback : list FeedbackItem) : list string :=
  let painPoints :=
    foldl (λ acc f,
             foldl (λ acc pattern, bumpIf (contentHas pattern f) pattern acc)
                   acc painPointPatterns)
          [] feedback in
  map (λ pc : string * Z, pc.1 +:+ " (" +:+ pretty pc.2 +:+ " mentions)")
      (slice0 6 (sort (λ a b : string * Z, b.2 - a.2) painPoints)).

Definition calculateFeatureSentiment (feedback : list FeedbackItem)
    (feature : string) : string :=
  let featureFeedback := List.filter (contentHas feature) feedback in
  let positive :=
    countIf (λ f, contentHas "love" f || contentHas "great" f
                  || contentHas "excellent" f || contentHas "perfect" f)
            featureFeedback in
  let negative :=
    countIf (λ f, contentHas "broken" f || contentHas "slow" f
                  || contentHas "confusing" f || contentHas "missing" f)
            featureFeedback in
  if negative <? positive then "positive"
  else if positive <? negative then "negative"
  else "neutral".

Definition analyzeFeatureAdoption (feedback : list FeedbackItem)
    : list FeatureAdoption :=
  let features :=
    [ "prometheus"; "snmp"; "dashboard"; "api"; "alerting"; "reporting";
      "docker"; "kubernetes" ] in
  sort (λ a b, fa_mentions b - fa_mentions a)
    (List.filter (λ f, 0 <? fa_mentions f)
       (map (λ feature,
               {| fa_feature := feature;
                  fa_mentions := countIf (contentHas feature) feedback;
                  fa_sentiment := calculateFeatureSentiment feedback feature |})
            features)).

Definition analyzeUserJourneys (feedback : list FeedbackItem) : UserJourneyInsights :=
  let journeyMap :=
    [ ("First Time Setup",
       List.filter (λ f, contentHas "setup" f || contentHas "install" f
                         || contentHas "deploy" f) feedback);
      ("Daily Usage",
       List.filter (λ f, contentHas "dashboard" f || contentHas "monitoring" f
                         || contentHas "daily" f) feedback);
      ("Troubleshooting",
       List.filter (λ f, contentHas "error" f || contentHas "issue" f
                         || contentHas "problem" f) feedback);
      ("Advanced Features",
       List.filter (λ f, contentHas "prometheus" f || contentHas "integration" f
                         || contentHas "api" f) feedback) ] in
  {| journeyStages :=
       map (λ entry : string * list FeedbackItem,
              {| js_stage := entry.1;
                 js_feedbackCount := Z.of_nat (length entry.2);
                 js_satisfaction := calculateJourneySatisfaction entry.2 |})
           journeyMap;
     painPoints := identifyPainPoints feedback;
     featureAdoption := analyzeFeatureAdoption feedback |}.

(** *** Priority actions *)

Definition generateDynamicPriorityActions (feedback : list FeedbackItem)
    (priorityMatrix : PriorityMatrix) : list string :=
  let urgentCount := Z.of_nat (length (pm_urgent priorityMatrix)) in
  let highCount := Z.of_nat (length (pm_high priorityMatrix)) in
  let securityIssues :=
    countIf (λ f, contentHas "security" f || contentHas "vulnerability" f) feedback in
  let actions : list string := [] in
  (* Critical security actions *)
  let actions :=
    if 0 <? securityIssues then
      (actions ++ [ "🚨 CRITICAL: Address SQL injection and security vulnerabilities immediately";
                    "🔒 Implement OAuth 2.0 authentication and authorization" ])%list
    else actions in
  (* Performance actions *)
  let actions :=
    if 2 <? highCount then
      (actions ++ [ "⚡ Optimize performance for large network monitoring (>1000 devices)";
                    "🧠 Fix memory leaks in SNMP polling processes" ])%list
    else actions in
  (* Compatibility actions *)
  let compatibilityIssues :=
    countIf (λ f, contentHas "docker" f || contentHas "arm64" f || contentHas "ipv6" f)
            feedback in
  let actions :=
    if 1 <? compatibilityIssues then
      (actions ++ [ "🐳 Add ARM64 Docker container support";
                    "🌐 Implement IPv6 support for network discovery" ])%list
    else actions in
  (* Feature requests *)
  let featureRequests :=
    countIf (λ f, contentHas "prometheus" f || contentHas "integration" f) feedback in
  let actions :=
    if 1 <? featureRequests then
      (actions ++ [ "📊 Add native Prometheus metrics export";
                    "🔗 Develop ServiceNow bidirectional integration" ])%list
    else actions in
  (* Default actions if no specific issues *)
  let actions :=
    if (length actions <? 3)%nat then
      (actions ++ [ "📈 Enhance dashboard usability and navigation";
                    "📱 Develop mobile application for network monitoring";
                    "🔧 Implement NetFlow v9 export capabilities" ])%list
    else actions in
  slice0 6 actions.

(** *** The seed dataset *)

Definition mkItem (id source_type source_id title content author created_at : string)
    (labels : option (list string)) (priority : option string) : FeedbackItem :=
  {| id := id; source_type := source_type; source_id := source_id;
     title := title; content := content; author := author;
     created_at := created_at;
     metadata := {| labels := labels; priority := priority; state := None |} |}.

Definition mockFeedback : list FeedbackItem :=
  [ mkItem "github_001" "github" "issues/456"
      "Docker container fails to start on ARM64 architecture"
      "When trying to run PlexNet in a Docker container on ARM64 systems, the container fails to start with exec format error. This is blocking deployment on modern Apple Silicon Macs and ARM-based servers."
      "dev-arm64-user" "2024-11-25T13:20:00Z"
      (Some ["bug"; "docker"; "arm64"; "critical"]) None;
    mkItem "github_002" "github" "issues/457"
      "Feature request: Prometheus metrics export"
      "Add native Prometheus metrics export capability for integration with existing monitoring stacks. Need /metrics endpoint with proper exposition format and configurable collection intervals."
      "k8s-monitoring" "2024-11-26T16:45:00Z"
      (Some ["enhancement"; "prometheus"; "kubernetes"]) None;
    mkItem "github_003" "github" "issues/458"
      "High CPU usage when monitoring large networks (>1000 devices)"
      "Server process consumes excessive CPU resources when monitoring networks with more than 1000 devices. Performance degrades significantly with SNMP polling becoming slow and unreliable."
      "enterprise-user" "2024-11-27T11:10:00Z"
      (Some ["performance"; "scalability"; "snmp"]) None;
    mkItem "github_004" "github" "pull/234"
      "Add IPv6 support for network discovery"
      "Implement comprehensive IPv6 support including ICMPv6 neighbor discovery, IPv6 subnet scanning, and dual-stack device detection. Closes IPv6 compatibility issues."
      "ipv6-contributor" "2024-11-28T15:30:00Z"
      (Some ["enhancement"; "ipv6"; "network-discovery"]) None;
    mkItem "github_005" "github" "issues/459"
      "Security vulnerability: SQL injection in device search API"
      "Critical SQL injection vulnerability in /api/devices/search endpoint. Query parameters are not properly sanitized before SQL execution. Affects all versions prior to 2.3.2."
      "security-researcher" "2024-11-29T08:00:00Z"
      (Some ["security"; "vulnerability"; "sql-injection"; "critical"]) None;
    mkItem "slack_001" "slack" "C1234567890_1643723400.001"
      "Customer reporting dashboard login issues"
      "@support-team We just got a call from a customer at MegaCorp reporting 'Invalid token' errors when logging into the dashboard after the latest update. They're using SSO with Azure AD."
      "customer-success" "2024-12-01T09:30:00Z" None None;
    mkItem "slack_002" "slack" "C2345678901_1643724000.001"
      "New feature idea: Network topology visualization"
      "@product-team What if we added an interactive network topology map showing devices, connections, and traffic flows in real-time? Could help with troubleshooting connectivity issues."
      "network-engineer" "2024-12-01T10:45:00Z" None None;
    mkItem "slack_003" "slack" "C3456789012_1643725000.001"
      "Performance issue with large network scans"
      "@engineering-team Network scans are taking 15+ minutes for networks with 500+ devices. Customers are complaining about slow discovery times. Need optimization for large-scale deployments."
      "field-engineer" "2024-12-01T11:30:00Z" None None;
    mkItem "jira_001" "jira" "NET-123"
      "Network monitoring performance degradation"
      "Users reporting slow response times when accessing network monitoring dashboard during peak hours. Memory usage spikes to 2-3GB during high load periods."
      "network-team" "2024-11-28T10:15:00Z" None (Some "high");
    mkItem "jira_002" "jira" "SEC-456"
      "Implement OAuth 2.0 authentication"
      "Replace basic authentication with OAuth 2.0 for improved security and integration capabilities with enterprise identity providers like Okta and Azure AD."
      "security-team" "2024-11-30T14:20:00Z" None (Some "medium");
    mkItem "email_001" "email" "ticket_789"
      "Cannot access historical data after upgrade"
      "After upgrading to v2.3.0, users cannot access historical monitoring data from before the upgrade. Database migration issue suspected. Critical for compliance reporting."
      "support@enterprise-customer.com" "2024-12-02T08:45:00Z" None (Some "high");
    mkItem "bug_001" "bug-report" "BR-101"
      "Memory leak in SNMP polling process"
      "Memory usage continuously increases during SNMP polling operations. Process must be restarted every 24 hours to prevent system crashes. Affects reliability in production."
      "qa-team" "2024-12-03T13:15:00Z" None None;
    mkItem "teams_001" "teams" "thread_abc123"
      "Integration with ServiceNow requested"
      "Customer is asking for bidirectional integration with ServiceNow for automated incident creation and resolution tracking. This would streamline IT operations workflows."
      "sales-engineer" "2024-12-04T09:00:00Z" None None;
    mkItem "form_001" "dashboard-form" "feedback_001"
      "Dashboard usability feedback"
      "The new dashboard layout is confusing. Users can't find the device list easily. Navigation needs improvement. The search functionality is also slow with large device counts."
      "power-user" "2024-12-05T16:30:00Z" None None;
    mkItem "github_006" "github" "issues/460"
      "Add support for NetFlow v9 export"
      "Implement NetFlow v9 export capability for integration with network traffic analysis tools like SolarWinds and PRTG. This is a common enterprise requirement."
      "netflow-user" "2024-12-06T10:00:00Z"
      (Some ["enhancement"; "netflow"; "export"]) None;
    mkItem "slack_004" "slack" "C4567890123_1643726000.001"
      "Mobile app feature request"
      "@product-team Can we get a mobile app for on-the-go network monitoring? Critical alerts and basic device status would be very useful for network admins."
      "mobile-user" "2024-12-06T14:15:00Z" None None ].

(** *** Fixed fallbacks of the enrichment stages *)

Definition defaultTrendingTopics : list string :=
  [ "Performance & Scalability Issues"; "Security Vulnerabilities";
    "Multi-Platform Compatibility"; "Integration Capabilities";
    "User Experience Improvements" ].

Definition defaultRecommendations : list string :=
  [ "Address critical security vulnerabilities immediately";
    "Implement performance optimizations for large-scale deployments";
    "Add comprehensive multi-platform support (ARM64, IPv6)";
    "Enhance user experience with improved dashboard usability";
    "Develop native integrations with popular monitoring platforms" ].

(** The [catch] defaults of [generateInsights]. *)
Definition caughtTrendingTopics : list string :=
  [ "Performance & Scalability Issues"; "Security Vulnerabilities";
    "Multi-Platform Compatibility" ].

Definition caughtRecommendations : list string :=
  [ "Address critical security vulnerabilities immediately";
    "Implement performance optimizations for large-scale deployments";
    "Add comprehensive multi-platform support (ARM64, IPv6)" ].

Definition caughtPriorityActions : list string :=
  [ "Address SQL injection vulnerability immediately";
    "Implement multi-arch Docker support for ARM64";
    "Optimize performance for large network monitoring" ].

Definition emptyPriorityMatrix : PriorityMatrix :=
  {| pm_urgent := []; pm_high := []; pm_medium := []; pm_low := [] |}.

Definition emptyJourneyInsights : UserJourneyInsights :=
  {| journeyStages := []; painPoints := []; featureAdoption := [] |}.

(** [sentimentAnalysis.overall] and [sentimentAnalysis.urgency_level] *)
Definition sentimentOverall (s : SentimentAnalysis) : Outcome (option string) :=
  match s with
  | SentimentDefaults | SentimentBlocked => Ok (Some "neutral")
  | SentimentFromAI SNullish => Throw "TypeError: cannot read properties of null"
  | SentimentFromAI (SObject o _) => Ok o
  end.

Definition sentimentUrgency (s : SentimentAnalysis) : Outcome (option string) :=
  match s with
  | SentimentDefaults => Ok (Some "medium")
  | SentimentBlocked => Ok None
  | SentimentFromAI SNullish => Throw "TypeError: cannot read properties of null"
  | SentimentFromAI (SObject _ u) => Ok u
  end.

(** The lines of an answer that start, once trimmed, with a bullet. *)
Definition bulletLines (response : string) : list string :=
  List.filter (λ line, startsWith "•" (trim line) || startsWith "-" (trim line))
              (split newline response).

(** *** The write path and the enrichment stages *)

Section Enrichment.
Import Async Gateway.
Local Open Scope async_scope.
Context (rt : JsRuntime) (out : Outside).

Definition rowOfItem (processedAt : string) (item : FeedbackItem) : Row :=
  {| row_id := id item; row_source_type := source_type item;
     row_source_id := source_id item; row_title := title item;
     row_content := content item; row_author := author item;
     row_created_at := created_at item;
     row_metadata := Some (JSON_stringify rt (metadata item));
     row_processed_at := processedAt |}.

Fixpoint storeAll (processedAt : string) (batch : list FeedbackItem) : M unit :=
  match batch with
  | [] => ret tt
  | item :: rest =>
      DB_insertOrReplace out (rowOfItem processedAt item) ;;;
      storeAll processedAt rest
  end.

Definition processFeedbackDirectly (feedbackBatch : list FeedbackItem) : M unit :=
  (* Store feedback in D1 directly (no queue) *)
  processedAt <- nowISO out ;;
  storeAll processedAt feedbackBatch ;;;
  (* Invalidate caches *)
  CACHE_delete out "feedback:summary" ;;;
  CACHE_delete out "feedback:insights".

Definition analyzeSentiment (feedback : list FeedbackItem) : M string :=
  let sample := slice0 5 feedback in
  let titles := join ". " (map title sample) in
  let truncatedTitles := truncateForAI titles 1000 in
  let estimatedTokens := estimateTokens truncatedTitles in
  allowed <- canMakeAIRequest out estimatedTokens ;;
  if negb allowed then ret "Neutral"  (* Fallback when limits exceeded *)
  else
    try_catch
      (let model := getModelForTask "sentiment" in
       response <- AI_call out model
         [ {| role := "system";
              message := "Analyze the sentiment of these feedback titles. Return only: positive, negative, or neutral." |};
           {| role := "user";
              message := "Analyze sentiment: " +:+ truncatedTitles |} ]
         10 ;;
       (* Record token usage *)
       recordAITokensUsed out estimatedTokens ;;;
       ret (match response with
            | Some r =>
                if includes "positive" (toLowerCase r) then "Positive"
                else if includes "negative" (toLowerCase r) then "Negative"
                else "Neutral"
            | None => "Neutral"
            end))
      (λ _, ret "Neutral").

Definition analyzeFeedbackSummary (feedback : list FeedbackItem) : M FeedbackSummary :=
  let sources := unique (map source_type feedback) in
  dateRange <- lift (computeDateRange rt feedback) ;;
  (* Categorize feedback *)
  let categories := categorizeFeedback feedback in
  (* Sentiment analysis using Workers AI *)
  averageSentiment <- analyzeSentiment feedback ;;
  (* Count critical issues and feature requests *)
  let criticalIssues := countIf isCriticalForSummary feedback in
  let featureRequests := countIf isFeatureRequest feedback in
  ret {| totalItems := Z.of_nat (length feedback);
         sources := sources;
         dateRange := dateRange;
         topCategories :=
           map (λ cc : string * Z, cc.1 +:+ " (" +:+ pretty cc.2 +:+ ")")
               (slice0 5 categories);
         averageSentiment := averageSentiment;
         criticalIssueCount := criticalIssues;
         featureRequests := featureRequests |}.

Definition extractAdvancedTrendingTopics (feedback : list FeedbackItem)
    : M (list string) :=
  let recentFeedback := sliceLast 15 feedback in
  let content :=
    join " | " (map (λ f, source_type f +:+ ": " +:+ title f +:+ " - "
                          +:+ substring 0 100 (content f)) recentFeedback) in
  let truncatedContent := truncateForAI content 1200 in
  let estimatedTokens := estimateTokens truncatedContent in
  allowed <- canMakeAIRequest out estimatedTokens ;;
  if negb allowed then ret defaultTrendingTopics
  else
    try_catch
      (let model := getModelForTask "summary" in
       response <- AI_call out model
         [ {| role := "system";
              message := "Extract 5 key trending topics from network infrastructure feedback. Focus on themes, patterns, and emerging issues. Return as concise bullet points." |};
           {| role := "user";
              message := "Extract trending topics from this feedback data: " +:+ truncatedContent |} ]
         100 ;;
       recordAITokensUsed out estimatedTokens ;;;
       let response := default EmptyString response in
       let topics := slice0 5 (bulletLines response) in
       ret (if (0 <? length topics)%nat then topics else defaultTrendingTopics))
      (λ _, ret defaultTrendingTopics).

Definition analyzeSentimentTrends (feedback : list FeedbackItem)
    : M SentimentAnalysis :=
  allowed <- canMakeAIRequest out 2000 ;;
  if negb allowed then ret SentimentBlocked
  else
    try_catch
      (let recentFeedback := sliceLast 12 feedback in
       let contentSample :=
         join "; " (map (λ f, source_type f +:+ ": " +:+ title f) recentFeedback) in
       response <- AI_call out "@cf/meta/llama-3.1-8b-instruct"
         [ {| role := "system";
              message := "Analyze sentiment trends in network infrastructure feedback. Return JSON with: overall_sentiment (positive/negative/neutral), key_concerns (array), positive_signals (array), urgency_level (high/medium/low)." |};
           {| role := "user";
              message := "Analyze sentiment in: " +:+ contentSample |} ]
         150 ;;
       recordAITokensUsed out 2000 ;;;
       ret (match response with
            | Some r =>
                if bool_decide (r = EmptyString) then SentimentDefaults
                else match JSON_parse_sentiment rt r with
                     | Some j => SentimentFromAI j
                     | None => SentimentDefaults
                     end
            | None => SentimentDefaults
            end))
      (λ _, ret SentimentDefaults).

Definition generateAdvancedRecommendations (feedback : list FeedbackItem)
    (sentimentAnalysis : SentimentAnalysis) : M (list string) :=
  let feedbackSummary :=
    join "; " (map (λ f, source_type f +:+ ": " +:+ title f +:+ " ("
                         +:+ or_default (priority (metadata f)) "medium" +:+ ")")
                   (slice0 10 feedback)) in
  overall <- lift (sentimentOverall sentimentAnalysis) ;;
  urgency <- lift (sentimentUrgency sentimentAnalysis) ;;
  let context :=
    "Sentiment: " +:+ or_default overall "neutral" +:+ ", Urgency: "
    +:+ or_default urgency "medium" in
  let combinedInput := context +:+ ". Feedback: " +:+ feedbackSummary in
  let truncatedInput := truncateForAI combinedInput 800 in
  let estimatedTokens := estimateTokens truncatedInput in
  allowed <- canMakeAIRequest out estimatedTokens ;;
  if negb allowed then ret defaultRecommendations
  else
    try_catch
      (let model := getModelForTask "summary" in
       response <- AI_call out model
         [ {| role := "system";
              message := "Generate 5 strategic recommendations for network infrastructure improvements based on user feedback, sentiment, and priority analysis. Focus on actionable, high-impact changes. Return as concise bullet points." |};
           {| role := "user";
              message := "Generate strategic recommendations from: " +:+ truncatedInput |} ]
         120 ;;
       recordAITokensUsed out estimatedTokens ;;;
       let response := default EmptyString response in
       let recommendations := slice0 5 (bulletLines response) in
       ret (if (3 <=? length recommendations)%nat then recommendations
            else defaultRecommendations))
      (λ _, ret defaultRecommendations).

Definition generateInsights (feedback : list FeedbackItem) : M FeedbackInsights :=
  (* Extract critical issues with enhanced filtering *)
  let criticalIssues := extractCriticalIssues rt feedback in
  (* Advanced AI-powered analysis (with fallbacks) *)
  sentimentAnalysis <-
    try_catch (analyzeSentimentTrends feedback) (λ _, ret SentimentDefaults) ;;
  priorityMatrix <-
    try_catch (ret (generatePriorityMatrix rt feedback))
              (λ _, ret emptyPriorityMatrix) ;;
  userJourneyInsights <-
    try_catch (ret (analyzeUserJourneys feedback))
              (λ _, ret emptyJourneyInsights) ;;
  (* Find trending topics using enhanced AI (with fallback) *)
  trendingTopics <-
    try_catch (extractAdvancedTrendingTopics feedback)
              (λ _, ret caughtTrendingTopics) ;;
  (* Generate sophisticated recommendations (with fallback) *)
  recommendations <-
    try_catch (generateAdvancedRecommendations feedback sentimentAnalysis)
              (λ _, ret caughtRecommendations) ;;
  (* Dynamic priority actions based on analysis (with fallback) *)
  priorityActions <-
    try_catch (ret (generateDynamicPriorityActions feedback priorityMatrix))
              (λ _, ret caughtPriorityActions) ;;
  ret {| criticalIssues := criticalIssues;
         trendingTopics := trendingTopics;
         recommendations := recommendations;
         priorityActions := priorityActions;
         sentimentAnalysis := sentimentAnalysis;
         priorityMatrix := priorityMatrix;
         userJourneyInsights := userJourneyInsights |}.

End Enrichment.

(** *** The classifier on records of any shape

    The functions above read [metadata] at its declared shape.  These are
    the same functions on what the store may hand back: where the typed
    reading has a value, a [TypeError] may be thrown instead. *)

Module Raw.
Import Dynamic.
Local Open Scope outcome_scope.

(** [feedback.metadata.labels || []] *)
Definition labels_or_empty (f : RawItem) : Outcome Json :=
  labels <~ get "labels" (raw_metadata f) ;;
  Ok (or_else labels (JArray [])).

(** [f.metadata.labels?.includes(x)]; the [undefined] that [?.] gives is
    falsy where it is used. *)
Definition labels_include (x : string) (f : RawItem) : Outcome bool :=
  labels <~ get "labels" (raw_metadata f) ;;
  match labels with
  | Some v => if nullish labels then Ok false else includes_of v x
  | None => Ok false
  end.

Definition calculateSeverity (feedback : RawItem) : Outcome Z :=
  let severity := 1 in
  let content := toLowerCase (raw_content feedback +:+ raw_title feedback) in
  labels <~ labels_or_empty feedback ;;
  (* Critical indicators *)
  critical <~ includes_of labels "critical" ;;
  let severity :=
    if critical || includes "security" content || includes "vulnerability" content
    then severity + 3 else severity in
  let severity :=
    if includes "crash" content || includes "data loss" content
    then severity + 2 else severity in
  blocking <~ includes_of labels "blocking" ;;
  let severity :=
    if blocking || includes "blocking" content
    then severity + 2 else severity in
  priority <~ get "priority" (raw_metadata feedback) ;;
  high <~ (if equals "high" priority then Ok true else includes_of labels "high") ;;
  let severity := if high then severity + 1 else severity in
  (* Source-based weighting *)
  let severity :=
    if bool_decide (raw_source_type feedback = "bug-report")
    then severity + 1 else severity in
  let severity :=
    if bool_decide (raw_source_type feedback = "security-researcher")
    then severity + 2 else severity in
  Ok (Z.min severity 5).

(** The filter predicate of [extractCriticalIssues]. *)
Definition isCriticalFeedback (f : RawItem) : Outcome bool :=
  let content := toLowerCase (raw_content f) in
  let title := toLowerCase (raw_title f) in
  labels <~ labels_or_empty f ;;
  someM (λ keyword,
           if includes keyword content || includes keyword title then Ok true
           else some_of labels
                  (λ label, lower <~ toLowerCase_of label ;;
                            Ok (includes keyword lower)))
        criticalKeywords.

(** The sort comparator of [extractCriticalIssues]. *)
Definition bySeverityThenRecency (rt : JsRuntime) (a b : RawItem) : Outcome Z :=
  aSeverity <~ calculateSeverity a ;;
  bSeverity <~ calculateSeverity b ;;
  Ok (if bool_decide (aSeverity ≠ bSeverity) then bSeverity - aSeverity
      else timeDiff rt (raw_created_at b) (raw_created_at a)).

Definition extractCriticalIssues (rt : JsRuntime) (feedback : list RawItem)
    : Outcome (list string) :=
  critical <~ filterM isCriticalFeedback feedback ;;
  sorted <~ sortM (bySeverityThenRecency rt) critical ;;
  Ok (map (λ f, renderIssue (asDeclared f)) (slice0 8 sorted)).

Definition categorizeOne (categories : list (string * Z)) (f : RawItem)
    : Outcome (list (string * Z)) :=
  (* Categorize by labels first *)
  labels <~ get "labels" (raw_metadata f) ;;
  categories <~
    match labels with
    | Some v =>
        if truthy labels
        then forEach_of v (λ cs label, bump (toString label) cs) categories
        else Ok categories
    | None => Ok categories
    end ;;
  (* Categorize by content keywords *)
  let content := toLowerCase (raw_content f) in
  let categories :=
    bumpIf (includes "docker" content || includes "container" content)
           "docker" categories in
  let categories :=
    bumpIf (includes "performance" content || includes "cpu" content
            || includes "memory" content) "performance" categories in
  let categories :=
    bumpIf (includes "security" content || includes "vulnerability" content)
           "security" categories in
  let categories :=
    bumpIf (includes "feature" content || includes "enhancement" content)
           "features" categories in
  Ok (bumpIf (includes "network" content || includes "connectivity" content)
             "network" categories).

Definition categorizeFeedback (feedback : list RawItem)
    : Outcome (list (string * Z)) :=
  categories <~ foldM categorizeOne [] feedback ;;
  Ok (sort (λ a b : string * Z, b.2 - a.2) (entries categories)).

(** [feedback.filter(p).length] *)
Definition countIf {A} (p : A → Outcome bool) (l : list A) : Outcome Z :=
  kept <~ filterM p l ;; Ok (Z.of_nat (length kept)).

Definition isCriticalForSummary (f : RawItem) : Outcome bool :=
  security <~ labels_include "security" f ;;
  if security then Ok true
  else
    critical <~ labels_include "critical" f ;;
    Ok (critical
        || includes "vulnerability" (toLowerCase (raw_content f))
        || includes "crash" (toLowerCase (raw_content f))).

Definition isFeatureRequest (f : RawItem) : Outcome bool :=
  openEnhancement <~
    (if bool_decide (raw_source_type f = "github") then
       state <~ get "state" (raw_metadata f) ;;
       if equals "open" state then labels_include "enhancement" f else Ok false
     else Ok false) ;;
  Ok (openEnhancement
      || includes "feature request" (toLowerCase (raw_content f))
      || includes "would be great" (toLowerCase (raw_content f))).

(** [contentMatch || labels.includes(x)]: the labels are only asked when
    the content does not decide. *)
Definition contentOrLabel (contentMatch : bool) (labels : Json) (x : string)
    : Outcome bool :=
  if contentMatch then Ok true else includes_of labels x.

Definition categorizeAdvancedOne (rt : JsRuntime) (categories : list Category)
    (f : RawItem) : Outcome (list Category) :=
  let content := toLowerCase (raw_content f) in
  labels <~ labels_or_empty f ;;
  security <~
    contentOrLabel (includes "security" content || includes "vulnerability" content)
                   labels "security" ;;
  let categories := addIf rt security categories "security" (asDeclared f) "urgent" in
  performance <~
    contentOrLabel (includes "performance" content || includes "slow" content
                    || includes "cpu" content) labels "performance" ;;
  let categories := addIf rt performance categories "performance" (asDeclared f) "high" in
  compatibility <~
    contentOrLabel (includes "docker" content || includes "arm64" content
                    || includes "ipv6" content) labels "compatibility" ;;
  let categories :=
    addIf rt compatibility categories "compatibility" (asDeclared f) "medium" in
  features <~
    contentOrLabel (includes "feature" content || includes "enhancement" content)
                   labels "enhancement" ;;
  let categories := addIf rt features categories "features" (asDeclared f) "medium" in
  usability <~
    contentOrLabel (includes "usability" content || includes "ui" content
                    || includes "dashboard" content) labels "usability" ;;
  Ok (addIf rt usability categories "usability" (asDeclared f) "low").

Definition categorizeFeedbackAdvanced (rt : JsRuntime) (feedback : list RawItem)
    : Outcome (list Category) :=
  foldM (categorizeAdvancedOne rt) [] feedback.

Definition generatePriorityMatrix (rt : JsRuntime) (feedback : list RawItem)
    : Outcome PriorityMatrix :=
  categories <~ categorizeFeedbackAdvanced rt feedback ;;
  Ok {| pm_urgent := List.filter (λ c, String.eqb (cat_priority c) "urgent") categories;
        pm_high := List.filter (λ c, String.eqb (cat_priority c) "high") categories;
        pm_medium := List.filter (λ c, String.eqb (cat_priority c) "medium") categories;
        pm_low := List.filter (λ c, String.eqb (cat_priority c) "low") categories |}.

(** [`${f.source_type}: ${f.title} (${f.metadata.priority || 'medium'})`] *)
Definition describe (f : RawItem) : Outcome string :=
  priority <~ get "priority" (raw_metadata f) ;;
  Ok (raw_source_type f +:+ ": " +:+ raw_title f +:+ " ("
      +:+ toString (or_else priority (JString "medium")) +:+ ")").

Section Enrichment.
Import Async Gateway.
Local Open Scope async_scope.
Context (rt : JsRuntime) (out : Outside).

Definition analyzeFeedbackSummary (feedback : list RawItem) : M FeedbackSummary :=
  let sources := unique (map raw_source_type feedback) in
  dateRange <- lift (computeDateRange rt (map asDeclared feedback)) ;;
  (* Categorize feedback *)
  categories <- lift (categorizeFeedback feedback) ;;
  (* Sentiment analysis using Workers AI *)
  averageSentiment <- analyzeSentiment out (map asDeclared feedback) ;;
  (* Count critical issues and feature requests *)
  criticalIssues <- lift (countIf isCriticalForSummary feedback) ;;
  featureRequests <- lift (countIf isFeatureRequest feedback) ;;
  ret {| totalItems := Z.of_nat (length feedback);
         sources := sources;
         dateRange := dateRange;
         topCategories :=
           map (λ cc : string * Z, cc.1 +:+ " (" +:+ pretty cc.2 +:+ ")")
               (slice0 5 categories);
         averageSentiment := averageSentiment;
         criticalIssueCount := criticalIssues;
         featureRequests := featureRequests |}.

Definition generateAdvancedRecommendations (feedback : list RawItem)
    (sentimentAnalysis : SentimentAnalysis) : M (list string) :=
  described <- lift (mapM describe (slice0 10 feedback)) ;;
  let feedbackSummary := join "; " described in
  overall <- lift (sentimentOverall sentimentAnalysis) ;;
  urgency <- lift (sentimentUrgency sentimentAnalysis) ;;
  let context :=
    "Sentiment: " +:+ or_default overall "neutral" +:+ ", Urgency: "
    +:+ or_default urgency "medium" in
  let combinedInput := context +:+ ". Feedback: " +:+ feedbackSummary in
  let truncatedInput := truncateForAI combinedInput 800 in
  let estimatedTokens := estimateTokens truncatedInput in
  allowed <- canMakeAIRequest out estimatedTokens ;;
  if negb allowed then ret defaultRecommendations
  else
    try_catch
      (let model := getModelForTask "summary" in
       response <- AI_call out model
         [ {| role := "system";
              message := "Generate 5 strategic recommendations for network infrastructure improvements based on user feedback, sentiment, and priority analysis. Focus on actionable, high-impact changes. Return as concise bullet points." |};
           {| role := "user";
              message := "Generate strategic recommendations from: " +:+ truncatedInput |} ]
         120 ;;
       recordAITokensUsed out estimatedTokens ;;;
       let response := default EmptyString response in
       let recommendations := slice0 5 (bulletLines response) in
       ret (if (3 <=? length recommendations)%nat then recommendations
            else defaultRecommendations))
      (λ _, ret defaultRecommendations).

Definition generateInsights (feedback : list RawItem) : M FeedbackInsights :=
  (* Extract critical issues with enhanced filtering *)
  criticalIssues <- lift (extractCriticalIssues rt feedback) ;;
  (* Advanced AI-powered analysis (with fallbacks) *)
  sentimentAnalysis <-
    try_catch (analyzeSentimentTrends rt out (map asDeclared feedback))
              (λ _, ret SentimentDefaults) ;;
  priorityMatrix <-
    try_catch (lift (generatePriorityMatrix rt feedback))
              (λ _, ret emptyPriorityMatrix) ;;
  userJourneyInsights <-
    try_catch (ret (analyzeUserJourneys (map asDeclared feedback)))
              (λ _, ret emptyJourneyInsights) ;;
  (* Find trending topics using enhanced AI (with fallback) *)
  trendingTopics <-
    try_catch (extractAdvancedTrendingTopics out (map asDeclared feedback))
              (λ _, ret caughtTrendingTopics) ;;
  (* Generate sophisticated recommendations (with fallback) *)
  recommendations <-
    try_catch (generateAdvancedRecommendations feedback sentimentAnalysis)
              (λ _, ret caughtRecommendations) ;;
  (* Dynamic priority actions based on analysis (with fallback) *)
  priorityActions <-
    try_catch (ret (generateDynamicPriorityActions (map asDeclared feedback)
                      priorityMatrix))
              (λ _, ret caughtPriorityActions) ;;
  ret {| criticalIssues := criticalIssues;
         trendingTopics := trendingTopics;
         recommendations := recommendations;
         priorityActions := priorityActions;
         sentimentAnalysis := sentimentAnalysis;
         priorityMatrix := priorityMatrix;
         userJourneyInsights := userJourneyInsights |}.
End Enrichment.

End Raw.

(** *** The orchestration: cache and store *)

Section Orchestration.
Import Async Gateway Dynamic.
Local Open Scope async_scope.
Context (rt : JsRuntime) (out : Outside).

(** One row of the result set, with [JSON.parse(row.metadata || '{}')]. *)
Definition itemOfRow (row : Row) : Outcome RawItem :=
  match JSON_parse rt (or_default (row_metadata row) "{}") with
  | Some m =>
      Ok {| raw_id := row_id row; raw_source_type := row_source_type row;
            raw_source_id := row_source_id row; raw_title := row_title row;
            raw_content := row_content row; raw_author := row_author row;
            raw_created_at := row_created_at row; raw_metadata := m |}
  | None => Throw "SyntaxError: JSON.parse"
  end.

Fixpoint itemsOfRows (rows : list Row) : Outcome (list RawItem) :=
  match rows with
  | [] => Ok []
  | row :: rest =>
      match itemOfRow row with
      | Ok item =>
          match itemsOfRows rest with
          | Ok items => Ok (item :: items)
          | Throw e => Throw e
          end
      | Throw e => Throw e
      end
  end.

Definition getFeedbackFromDB : M (list RawItem) :=
  try_catch
    (rows <- DB_selectAll out ;; lift (itemsOfRows rows))
    (λ _, (* Return mock data if table doesn't exist yet *) ret []).

Definition aggregateAllFeedback : M (list RawItem) :=
  (* Check if we have data in D1 first *)
  dbFeedback <- getFeedbackFromDB ;;
  if (0 <? length dbFeedback)%nat then ret dbFeedback
  else
    try_catch
      ((if (0 <? length mockFeedback)%nat
        then try_catch (processFeedbackDirectly rt out mockFeedback) (λ _, ret tt)
        else ret tt) ;;;
       ret (map rawOfItem mockFeedback))
      (λ _, ret []).

Definition getSummary : M Payload :=
  (* Check cache first *)
  let cacheKey := "feedback:summary" in
  cached <- CACHE_get out cacheKey ;;
  match cached with
  | Some hit => ret hit
  | None =>
      (* Aggregate data from all sources *)
      allFeedback <- aggregateAllFeedback ;;
      (* Analyze feedback *)
      summary <- Raw.analyzeFeedbackSummary rt out allFeedback ;;
      (* Cache result *)
      CACHE_put out cacheKey (PSummary summary) summaryTTL ;;;
      ret (PSummary summary)
  end.

Definition getInsights : M Payload :=
  (* Check cache first *)
  let cacheKey := "feedback:insights:v2" in
  cached <- CACHE_get out cacheKey ;;
  match cached with
  | Some hit => ret hit
  | None =>
      allFeedback <- aggregateAllFeedback ;;
      insights <- Raw.generateInsights rt out allFeedback ;;
      (* Cache result *)
      CACHE_put out cacheKey (PInsights insights) insightsTTL ;;;
      ret (PInsights insights)
  end.
End Orchestration.

End Aggregator.

(** ** The layer health scorer [NetworkVisualizer] *)

Module Visualizer.
Import Js.

Global Instance Status_eq_dec : EqDecision Status.
Proof. solve_decision. Defined.

Definition CACHE_TTL : Z := 600.

(** An element of the [any[]] that [analyzeNetworkLayers] receives: a raw
    row of the table (its [metadata] is a string or NULL) or an aggregated
    item (its [metadata] is an object). *)
Inductive NetItem :=
  | OfRow (r : Row)
  | OfItem (f : RawItem).

(** [(item.content || item.title || '')] *)
Definition itemText (item : NetItem) : string :=
  let '(c, t) :=
    match item with
    | OfRow r => (row_content r, row_title r)
    | OfItem f => (raw_content f, raw_title f)
    end in
  if bool_decide (c = EmptyString) then t else c.

(** [typeof item.metadata === 'string' ? JSON.parse(item.metadata) : item.metadata];
    only whether it throws matters, the value is not used.  The metadata
    of a row is a string or NULL; that of an aggregated record is a string
    when the stored column was the JSON text of a string. *)
Definition parseItemMetadata (rt : JsRuntime) (item : NetItem) : Outcome unit :=
  let parse text :=
    match JSON_parse rt text with
    | Some _ => Ok tt
    | None => Throw "SyntaxError: JSON.parse"
    end in
  match item with
  | OfRow r =>
      match row_metadata r with
      | Some text => parse text
      | None => Ok tt
      end
  | OfItem f =>
      match raw_metadata f with
      | JString text => parse text
      | _ => Ok tt
      end
  end.

Definition initialLayers : list NetworkLayer :=
  [ {| name := "Physical Layer"; status := healthy; issueCount := 0;
       description := "Cabling, connectors, signal transmission" |};
    {| name := "Data Link Layer"; status := healthy; issueCount := 0;
       description := "MAC addresses, switches, VLANs" |};
    {| name := "Network Layer"; status := healthy; issueCount := 0;
       description := "IP addressing, routing, subnetting" |};
    {| name := "Transport Layer"; status := healthy; issueCount := 0;
       description := "TCP/UDP, port management, QoS" |};
    {| name := "Session Layer"; status := healthy; issueCount := 0;
       description := "Session management, authentication" |};
    {| name := "Presentation Layer"; status := healthy; issueCount := 0;
       description := "Data formatting, encryption" |};
    {| name := "Application Layer"; status := healthy; issueCount := 0;
       description := "HTTP, DNS, monitoring protocols" |} ].

(** [layers[key].issueCount++] *)
Definition increment (key : string) (layers : list NetworkLayer) : list NetworkLayer :=
  map (λ l, if String.eqb (name l) key
            then {| name := name l; status := status l;
                    issueCount := issueCount l + 1; description := description l |}
            else l) layers.

Definition incrementIf (b : bool) (key : string) (layers : list NetworkLayer)
    : list NetworkLayer :=
  if b then increment key layers else layers.

(** The body of the [forEach] over the feedback, after the metadata has
    been looked at. *)
Definition countItem (layers : list NetworkLayer) (item : NetItem) : list NetworkLayer :=
  let content := toLowerCase (itemText item) in
  (* Physical Layer issues *)
  let layers :=
    incrementIf (includes "cable" content || includes "connector" content
                 || includes "fiber" content || includes "physical" content
                 || includes "hardware" content) "Physical Layer" layers in
  (* Data Link Layer issues *)
  let layers :=
    incrementIf (includes "mac" content || includes "switch" content
                 || includes "vlan" content || includes "bridge" content
                 || includes "ethernet" content) "Data Link Layer" layers in
  (* Network Layer issues *)
  let layers :=
    incrementIf (includes "ip" content || includes "routing" content
                 || includes "subnet" content || includes "arp" content
                 || includes "icmp" content || includes "ipv6" content)
                "Network Layer" layers in
  (* Transport Layer issues *)
  let layers :=
    incrementIf (includes "tcp" content || includes "udp" content
                 || includes "port" content || includes "qos" content
                 || includes "congestion" content) "Transport Layer" layers in
  (* Application Layer issues *)
  let layers :=
    incrementIf (includes "http" content || includes "dns" content
                 || includes "snmp" content || includes "monitoring" content
                 || includes "prometheus" content) "Application Layer" layers in
  (* Security issues affect multiple layers *)
  if includes "security" content || includes "vulnerability" content
     || includes "injection" content || includes "attack" content
  then increment "Presentation Layer" (increment "Session Layer" layers)
  else layers.

Fixpoint countAll (rt : JsRuntime) (layers : list NetworkLayer)
    (feedback : list NetItem) : Outcome (list NetworkLayer) :=
  match feedback with
  | [] => Ok layers
  | item :: rest =>
      match parseItemMetadata rt item with
      | Ok _ => countAll rt (countItem layers item) rest
      | Throw e => Throw e
      end
  end.

(** Determine status based on issue count. *)
Definition determineStatus (layer : NetworkLayer) : NetworkLayer :=
  {| name := name layer;
     status := if 5 <=? issueCount layer then critical
               else if 2 <=? issueCount layer then warning
               else status layer;
     issueCount := issueCount layer;
     description := description layer |}.

Definition analyzeNetworkLayers (rt : JsRuntime) (feedback : list NetItem)
    : Outcome (list NetworkLayer) :=
  match countAll rt initialLayers feedback with
  | Ok layers => Ok (map determineStatus layers)
  | Throw e => Throw e
  end.

Definition hasStatus (s : Status) (l : NetworkLayer) : bool :=
  bool_decide (status l = s).

Definition calculateHealthScore (layers : list NetworkLayer) : Z :=
  let totalIssues := foldl (λ sum layer, sum + issueCount layer) 0 layers in
  let criticalCount := Z.of_nat (length (List.filter (hasStatus critical) layers)) in
  let warningCount := Z.of_nat (length (List.filter (hasStatus warning) layers)) in
  (* Health score calculation (0-100) *)
  let score := 100 - (totalIssues * 5) - (criticalCount * 15) - (warningCount * 5) in
  Z.max 0 (Z.min 100 score).

Definition statusIcon (s : Status) : string :=
  match s with
  | healthy => "🟢"
  | warning => "🟡"
  | critical => "🔴"
  end.

Definition nl : string := String newline EmptyString.

(** The layer-by-layer breakdown, with a connection line after every
    layer but the last. *)
Fixpoint layerLines (layers : list NetworkLayer) : string :=
  match layers with
  | [] => EmptyString
  | layer :: rest =>
      let issues :=
        if 0 <? issueCount layer
        then " (" +:+ pretty (issueCount layer) +:+ " issues)" else " (healthy)" in
      statusIcon (status layer) +:+ " " +:+ name layer +:+ issues +:+ nl
      +:+ match rest with
          | [] => EmptyString
          | _ => "   │" +:+ nl +:+ layerLines rest
          end
  end.

Definition generateComprehensiveVisualization (layers : list NetworkLayer)
    (localeString : string) : string :=
  let healthScore := calculateHealthScore layers in
  let overallStatus :=
    if 80 <=? healthScore then "🟢 EXCELLENT"
    else if 60 <=? healthScore then "🟡 GOOD"
    else if 40 <=? healthScore then "🟠 FAIR"
    else "🔴 POOR" in
  let criticalCount := Z.of_nat (length (List.filter (hasStatus critical) layers)) in
  let warningCount := Z.of_nat (length (List.filter (hasStatus warning) layers)) in
  let healthyCount := Z.of_nat (length (List.filter (hasStatus healthy) layers)) in
  "🏗️ *Network Stack Health Visualization*" +:+ nl
  +:+ "═══════════════════════════════════════" +:+ nl +:+ nl
  +:+ "📊 *Overall Health:* " +:+ overallStatus +:+ " (" +:+ pretty healthScore
  +:+ "/100)" +:+ nl +:+ nl
  +:+ "🔍 *Layer Analysis:*" +:+ nl
  +:+ layerLines layers
  +:+ nl +:+ "📈 *Issue Summary:*" +:+ nl
  +:+ "🔴 Critical: " +:+ pretty criticalCount +:+ " layers" +:+ nl
  +:+ "🟡 Warning: " +:+ pretty warningCount +:+ " layers" +:+ nl
  +:+ "🟢 Healthy: " +:+ pretty healthyCount +:+ " layers" +:+ nl +:+ nl
  +:+ "💡 *Recommendations:*" +:+ nl
  +:+ (if 80 <=? healthScore then
         "✅ Network stack is in excellent condition" +:+ nl
         +:+ "🔄 Continue monitoring and maintenance" +:+ nl
       else if 60 <=? healthScore then
         "⚠️ Address warning-level issues" +:+ nl
         +:+ "📈 Consider performance optimizations" +:+ nl
       else
         "🚨 Immediate attention required" +:+ nl
         +:+ "🔧 Focus on critical infrastructure issues" +:+ nl)
  +:+ nl +:+ "⏰ *Last updated:* " +:+ localeString +:+ nl.

Section Pipeline.
Import Async Gateway Dynamic.
Local Open Scope async_scope.
Context (rt : JsRuntime) (out : Outside).

(** The [filter] of the fallback branch of [getNetworkFeedback]:
    [f.metadata.labels?.some(label => label.includes('network'))] is only
    reached when the content does not decide. *)
Definition isNetworkFeedback (f : RawItem) : Outcome bool :=
  if includes "network" (toLowerCase (raw_content f))
     || includes "connectivity" (toLowerCase (raw_content f))
     || includes "interface" (toLowerCase (raw_content f))
  then Ok true
  else
    (labels <~ get "labels" (raw_metadata f) ;;
     match labels with
     | Some v =>
         if nullish labels then Ok false
         else some_of v (λ label, includes_of label "network")
     | None => Ok false
     end)%outcome.

Definition getNetworkFeedback : M (list NetItem) :=
  try_catch
    ((* Get network-related feedback from D1 *)
     rows <- DB_selectNetwork out ;;
     ret (map OfRow rows))
    (λ _,
       (* Fallback: filter from aggregated feedback *)
       allFeedback <- Aggregator.aggregateAllFeedback rt out ;;
       networkFeedback <- lift (filterM isNetworkFeedback allFeedback) ;;
       ret (map OfItem networkFeedback)).

Definition createVisualizationData (layers : list NetworkLayer)
    : M NetworkVisualization :=
  let criticalLayers :=
    map (λ layer, "🚨 " +:+ name layer +:+ ": " +:+ pretty (issueCount layer) +:+ " issues")
        (List.filter (hasStatus critical) layers) in
  let warningLayers :=
    map (λ layer, "⚠️ " +:+ name layer +:+ ": " +:+ pretty (issueCount layer) +:+ " issues")
        (List.filter (hasStatus warning) layers) in
  let issueDistribution :=
    join ", " (map (λ layer, name layer +:+ ": " +:+ pretty (issueCount layer)) layers) in
  (* Generate comprehensive visualization directly in Slack *)
  localeString <- nowLocale out ;;
  let comprehensiveVisualization :=
    generateComprehensiveVisualization layers localeString in
  lastUpdated <- nowISO out ;;
  ret {| layerStatus := layers;
         criticalLayers :=
           if (0 <? length criticalLayers)%nat then criticalLayers
           else ["✅ No critical issues detected"];
         warningLayers :=
           if (0 <? length warningLayers)%nat then warningLayers
           else ["✅ No warnings detected"];
         issueDistribution := issueDistribution;
         visualization := comprehensiveVisualization;
         lastUpdated := lastUpdated;
         healthScore := calculateHealthScore layers |}.

Definition generateVisualization : M Payload :=
  (* Check cache first *)
  let cacheKey := "network:visualization:v2" in
  cached <- CACHE_get out cacheKey ;;
  match cached with
  | Some hit => ret hit
  | None =>
      (* Get feedback data *)
      feedback <- getNetworkFeedback ;;
      (* Analyze network layers *)
      layers <- lift (analyzeNetworkLayers rt feedback) ;;
      (* Generate visualization data *)
      visualization <- createVisualizationData layers ;;
      (* Cache result *)
      CACHE_put out cacheKey (PVisualization visualization) CACHE_TTL ;;;
      ret (PVisualization visualization)
  end.
End Pipeline.

End Visualizer.

(** ** Reference notions that the properties are stated against *)

Module Reference.
Import Js FreeTier.

(** The usage that counts for the window starting at [start]: the stored
    count when the stored window is that one, zero after a rollover. *)
Definition usedInWindow (start : Z) (m : gmap string UsageEntry) : Z :=
  match m !! ai_key with
  | Some e => if bool_decide (resetTime e = start) then count e else 0
  | None => 0
  end.

(** The stored AI window, if any, is the one starting at [start]. *)
Definition inWindow (start : Z) (m : gmap string UsageEntry) : Prop :=
  match m !! ai_key with
  | Some e => resetTime e = start
  | None => True
  end.

(** A call made within the day starting at [start], recording no negative
    amount. *)
Definition callInWindow (start : Z) (c : Clock * Call) : Prop :=
  dayStart c.1 = start ∧
  match c.2 with
  | RecordAITokensUsed tokens => 0 ≤ tokens
  | _ => True
  end.

Definition weight (b : bool) (w : Z) : Z := if b then w else 0.

(** The severity rules in the words of the specification, with the rule
    for the +1 band left open. *)
Definition severityByRules (highPriority : FeedbackItem → bool)
    (f : FeedbackItem) : Z :=
  let text := toLowerCase (content f +:+ title f) in
  let labelled x := Array_includes x (default [] (labels (metadata f))) in
  Z.min 5
    (1
     + weight (labelled "critical" || includes "security" text
               || includes "vulnerability" text) 3
     + weight (includes "crash" text || includes "data loss" text) 2
     + weight (labelled "blocking" || includes "blocking" text) 2
     + weight (highPriority f) 1
     + weight (bool_decide (source_type f = "bug-report")) 1
     + weight (bool_decide (source_type f = "security-researcher")) 2).

(** "add 1 if priority is high" *)
Definition severityBySpec : FeedbackItem → Z :=
  severityByRules (λ f, bool_decide (priority (metadata f) = Some "high")).

(** "add 1 if priority is high or the record carries a [high] label" *)
Definition severityAmended : FeedbackItem → Z :=
  severityByRules (λ f, bool_decide (priority (metadata f) = Some "high")
                        || Array_includes "high" (default [] (labels (metadata f)))).


Definition validDate (rt : JsRuntime) (f : FeedbackItem) : Prop :=
  is_Some (Date_getTime rt (created_at f)).


(** The comparator puts [x] in front of [y], or lets it stay there. *)
Definition before {A} (cmp : A → A → Z) (x y : A) : Prop := cmp x y ≤ 0.

(** The Transport layer sits at index 3, with [n] issues and status [s]. *)
Definition transportAt (layers : list NetworkLayer) (n : Z) (s : Status) : Prop :=
  ∃ layer, layers !! 3%nat = Some layer ∧ name layer = "Transport Layer"
           ∧ issueCount layer = n ∧ status layer = s.

(** The sum of the issue counts and the number of layers of a status. *)
Definition totalIssues (layers : list NetworkLayer) : Z :=
  foldr (λ layer total, issueCount layer + total) 0 layers.

Definition layersWithStatus (s : Status) (layers : list NetworkLayer) : Z :=
  Z.of_nat (length (filter (λ layer, status layer = s) layers)).

Definition clamp (x lo hi : Z) : Z := Z.max lo (Z.min hi x).

Definition layerNamed (key : string) (layers : list NetworkLayer)
    : option NetworkLayer :=
  List.find (λ layer, String.eqb (name layer) key) layers.

(** The issue count and status of the Transport layer in the outcome of
    the visualization pipeline. *)
Definition transportOf (r : Outcome Payload * World) : option (Z * Status) :=
  match r.1 with
  | Ok (PVisualization v) =>
      (λ layer, (issueCount layer, status layer))
        <$> layerNamed "Transport Layer" (layerStatus v)
  | _ => None
  end.

(** The column of a stored row can be read back by [JSON.parse]. *)
Definition metadataReadable (rt : JsRuntime) (r : Row) : Prop :=
  match row_metadata r with
  | Some text => is_Some (JSON_parse rt text)
  | None => True
  end.

(** Six stored rows that mention tcp, that the query of the visualizer
    selects, and whose metadata can be read. *)
Definition tcpRows (rt : JsRuntime) (rows : list Row) : Prop :=
  length rows = 6%nat
  ∧ Forall (λ r, includes "tcp" (row_content r) = true
                 ∧ Gateway.networkWhere r = true
                 ∧ metadataReadable rt r) rows.

(** *** Outcomes of asynchronous code *)

(** From a world satisfying [Pre], the computation either returns a value
    and a world satisfying [Post], or throws in a world satisfying
    [Caught]. *)
Definition triple {A} (Pre : World → Prop) (m : Async.M A)
    (Post : A → World → Prop) (Caught : string → World → Prop) : Prop :=
  ∀ w, Pre w →
    match m w with
    | (Ok a, w') => Post a w'
    | (Throw e, w') => Caught e w'
    end.

(** A computation that answers in every world. *)
Definition safe {A} (m : Async.M A) : Prop :=
  triple (λ _, True) m (λ _ _, True) (λ _ _, False).

(** The computation returns a result (it does not throw). *)
Definition returns {A} (m : Async.M A) (w : World) : Prop :=
  ∃ a w', m w = (Ok a, w').

(** The world after one more outside interaction. *)
Definition ticked (w : World) : World :=
  {| CACHE := CACHE w; FEEDBACK_DB := FEEDBACK_DB w;
     usageCache := usageCache w; steps := S (steps w) |}.

(** The AI budget of the current day is used up, and it stays that day. *)
Definition quotaExhausted (out : Outside) (w : World) : Prop :=
  ∃ e, usageCache w !! FreeTier.ai_key = Some e
       ∧ FreeTier.CLOUDFLARE_LIMITS.AI_TOKENS_PER_DAY
         - FreeTier.CLOUDFLARE_LIMITS.AI_RESERVED_TOKENS ≤ FreeTier.count e
       ∧ ∀ t, FreeTier.dayStart (clockAt out t) = FreeTier.resetTime e.

(** What the insights are made of when every enrichment stage falls back. *)
Definition blockedInsights (rt : JsRuntime) (feedback : list FeedbackItem)
    : FeedbackInsights :=
  {| criticalIssues := Aggregator.extractCriticalIssues rt feedback;
     trendingTopics := Aggregator.defaultTrendingTopics;
     recommendations := Aggregator.defaultRecommendations;
     priorityActions :=
       Aggregator.generateDynamicPriorityActions feedback
         (Aggregator.generatePriorityMatrix rt feedback);
     sentimentAnalysis := SentimentBlocked;
     priorityMatrix := Aggregator.generatePriorityMatrix rt feedback;
     userJourneyInsights := Aggregator.analyzeUserJourneys feedback |}.

(** What [getFeedbackFromDB] reads from the column of the row is a
    metadata object of the declared shape. *)
Definition metadataShaped (rt : JsRuntime) (r : Row) : Prop :=
  ∃ value, JSON_parse rt (or_default (row_metadata r) "{}") = Some value
           ∧ is_Some (Dynamic.metadataOfJson value).

(** The stored rows carry a valid date and a readable metadata object of
    the declared shape. *)
Definition rowWellFormed (rt : JsRuntime) (r : Row) : Prop :=
  is_Some (Date_getTime rt (row_created_at r)) ∧ metadataReadable rt r
  ∧ metadataShaped rt r.

Definition storeWellFormed (rt : JsRuntime) (w : World) : Prop :=
  Forall (rowWellFormed rt) (FEEDBACK_DB w).

(** The metadata of the record has the declared shape. *)
Definition shaped (f : RawItem) : Prop := is_Some (Dynamic.metadataOfJson (raw_metadata f)).

(** A batch of records of the declared shape with valid dates. *)
Definition wellFormedBatch (rt : JsRuntime) (feedback : list RawItem) : Prop :=
  Forall shaped feedback ∧ Forall (validDate rt) (map Dynamic.asDeclared feedback).

(** The exception is the failure of a get or a put of the Cache Gateway,
    and that call was the last interaction with the outside. *)
Definition cacheFailure (out : Outside) (e : string) (w : World) : Prop :=
  (e = "KV get failed" ∨ e = "KV put failed")
  ∧ cacheFault out (pred (steps w)) = true.

(** The run returned a result, or what it threw is the failure of a get
    or a put of the Cache Gateway. *)
Definition returnsUnlessCacheFails {A} (out : Outside) (r : Outcome A * World) : Prop :=
  match r.1 with
  | Ok _ => True
  | Throw e => cacheFailure out e r.2
  end.

End Reference.

(** ** Sample inputs *)

Module Samples.
Import Js.

(** *** A sample runtime

    Dates are read in the form [YYYY-MM-DDTHH:MM:SSZ] that the records of
    the repository use; metadata is written as a JSON object with the
    fields [labels], [priority] and [state]; JSON texts are read when they
    have no white space, and their strings no quotes or escapes. *)

Definition digit (c : ascii) : option Z :=
  let n := Z.of_nat (nat_of_ascii c) in
  if (48 <=? n) && (n <=? 57) then Some (n - 48) else None.

Fixpoint digits (acc : Z) (s : string) : option Z :=
  match s with
  | EmptyString => Some acc
  | String c s' =>
      match digit c with
      | Some d => digits (acc * 10 + d) s'
      | None => None
      end
  end.

(** Days from 1970-01-01 to the given civil date. *)
Definition daysFromCivil (y m d : Z) : Z :=
  let y := if m <=? 2 then y - 1 else y in
  let era := y `div` 400 in
  let yoe := y - era * 400 in
  let doy := (153 * (m + (if 2 <? m then -3 else 9)) + 2) `div` 5 + d - 1 in
  let doe := yoe * 365 + yoe `div` 4 - yoe `div` 100 + doy in
  era * 146097 + doe - 719468.

Definition isoTime (s : string) : option Z :=
  if negb (Nat.eqb (String.length s) 20) then None
  else if negb (String.eqb (substring 4 1 s) "-" && String.eqb (substring 7 1 s) "-"
                && String.eqb (substring 10 1 s) "T" && String.eqb (substring 13 1 s) ":"
                && String.eqb (substring 16 1 s) ":" && String.eqb (substring 19 1 s) "Z")
  then None
  else
    match digits 0 (substring 0 4 s), digits 0 (substring 5 2 s),
          digits 0 (substring 8 2 s), digits 0 (substring 11 2 s),
          digits 0 (substring 14 2 s), digits 0 (substring 17 2 s) with
    | Some y, Some mo, Some d, Some h, Some mi, Some sec =>
        if (1 <=? mo) && (mo <=? 12) && (1 <=? d) && (d <=? 31)
           && (h <=? 23) && (mi <=? 59) && (sec <=? 59)
        then Some ((((daysFromCivil y mo d * 24 + h) * 60 + mi) * 60 + sec) * 1000)
        else None
    | _, _, _, _, _, _ => None
    end.

Definition pad (width : nat) (n : Z) : string :=
  let text := pretty n in
  String.concat EmptyString (replicate (width - String.length text) "0") +:+ text.

(** The civil date of a time value, as [YYYY-MM-DD]. *)
Definition isoDay (ms : Z) : string :=
  let z := ms `div` 86400000 + 719468 in
  let era := z `div` 146097 in
  let doe := z - era * 146097 in
  let yoe := (doe - doe `div` 1460 + doe `div` 36524 - doe `div` 146096) `div` 365 in
  let doy := doe - (365 * yoe + yoe `div` 4 - yoe `div` 100) in
  let mp := (5 * doy + 2) `div` 153 in
  let d := doy - (153 * mp + 2) `div` 5 + 1 in
  let m := if mp <? 10 then mp + 3 else mp - 9 in
  let y := yoe + era * 400 + (if m <=? 2 then 1 else 0) in
  pad 4 y +:+ "-" +:+ pad 2 m +:+ "-" +:+ pad 2 d.

Definition quote : string := String (ascii_of_nat 34) EmptyString.

Definition quoted (s : string) : string := quote +:+ s +:+ quote.

Definition field (key : string) (value : option string) : list string :=
  match value with
  | Some v => [quoted key +:+ ":" +:+ v]
  | None => []
  end.

Definition stringifyMetadata (m : Metadata) : string :=
  "{"
  +:+ join ","
        (field "labels"
           ((λ ls, "[" +:+ join "," (map quoted ls) +:+ "]") <$> labels m)
         ++ field "priority" (quoted <$> priority m)
         ++ field "state" (quoted <$> state m))%list
  +:+ "}".

(** Reads a quoted string; yields it and the rest of the text. *)
Fixpoint untilQuote (s : string) : option (string * string) :=
  match s with
  | EmptyString => None
  | String c s' =>
      if Ascii.eqb c (ascii_of_nat 34) then Some (EmptyString, s')
      else match untilQuote s' with
           | Some (word, rest) => Some (String c word, rest)
           | None => None
           end
  end.

Definition readString (s : string) : option (string * string) :=
  match s with
  | String c s' => if Ascii.eqb c (ascii_of_nat 34) then untilQuote s' else None
  | EmptyString => None
  end.

Definition dropPrefix (prefix s : string) : option string :=
  if startsWith prefix s
  then Some (substring (String.length prefix) (String.length s - String.length prefix) s)
  else None.

(** Reads a run of decimal digits. *)
Fixpoint readDigits (s : string) : string * string :=
  match s with
  | String c s' =>
      match digit c with
      | Some _ => let '(ds, rest) := readDigits s' in (String c ds, rest)
      | None => (EmptyString, s)
      end
  | EmptyString => (EmptyString, s)
  end.

Definition readNumber (s : string) : option (Json * string) :=
  let '(sign, s') :=
    match s with
    | String "-" s' => ("-", s')
    | _ => (EmptyString, s)
    end in
  let '(ds, rest) := readDigits s' in
  if String.eqb ds EmptyString then None
  else if String.eqb ds "0" then Some (JNumber "0", rest)
  else Some (JNumber (sign +:+ ds), rest).

(** A later member of the same name replaces an earlier one. *)
Definition addMember (key : string) (value : Json) (later : list (string * Json))
    : list (string * Json) :=
  if existsb (λ p : string * Json, String.eqb p.1 key) later then later
  else (key, value) :: later.

(** JSON texts without white space, escapes, fractions or exponents. *)
Fixpoint parseValue (fuel : nat) (s : string) : option (Json * string) :=
  match fuel with
  | O => None
  | S fuel =>
      match s with
      | EmptyString => None
      | String "n" _ => rest ← dropPrefix "null" s; Some (JNull, rest)
      | String "t" _ => rest ← dropPrefix "true" s; Some (JBool true, rest)
      | String "f" _ => rest ← dropPrefix "false" s; Some (JBool false, rest)
      | String "[" (String "]" rest) => Some (JArray [], rest)
      | String "[" rest =>
          '(elements, rest) ← parseElements fuel rest; Some (JArray elements, rest)
      | String "{" (String "}" rest) => Some (JObject [], rest)
      | String "{" rest =>
          '(members, rest) ← parseMembers fuel rest; Some (JObject members, rest)
      | String c rest =>
          if Ascii.eqb c (ascii_of_nat 34)
          then '(word, rest) ← untilQuote rest; Some (JString word, rest)
          else readNumber s
      end
  end
with parseElements (fuel : nat) (s : string) : option (list Json * string) :=
  match fuel with
  | O => None
  | S fuel =>
      '(value, rest) ← parseValue fuel s;
      match rest with
      | String "," rest =>
          '(values, rest) ← parseElements fuel rest; Some (value :: values, rest)
      | String "]" rest => Some ([value], rest)
      | _ => None
      end
  end
with parseMembers (fuel : nat) (s : string) : option (list (string * Json) * string) :=
  match fuel with
  | O => None
  | S fuel =>
      '(key, rest) ← readString s;
      match rest with
      | String ":" rest =>
          '(value, rest) ← parseValue fuel rest;
          match rest with
          | String "," rest =>
              '(members, rest) ← parseMembers fuel rest;
              Some (addMember key value members, rest)
          | String "}" rest => Some ([(key, value)], rest)
          | _ => None
          end
      | _ => None
      end
  end.

Definition parseJson (text : string) : option Json :=
  match parseValue (S (String.length text)) text with
  | Some (value, EmptyString) => Some value
  | _ => None
  end.

(** Of the sentiment answers only the texts [null] and the empty object
    are read; anything else counts as malformed. *)
Definition parseSentiment (text : string) : option SentimentJson :=
  if String.eqb text "null" then Some SNullish
  else if String.eqb text "{}" then Some (SObject None None)
  else None.

Definition runtime : JsRuntime :=
  {| Date_getTime := isoTime;
     Date_isoDay := isoDay;
     JSON_stringify := stringifyMetadata;
     JSON_parse := parseJson;
     JSON_parse_sentiment := parseSentiment |}.


Definition plainItem (id title content : string) (labels : option (list string))
    (created_at : string) : FeedbackItem :=
  {| id := id; source_type := "github"; source_id := id; title := title;
     content := content; author := "reporter"; created_at := created_at;
     metadata := {| labels := labels; priority := None; state := None |} |}.

(** A record whose only mark is a [high] label. *)
Definition highLabelRecord : FeedbackItem :=
  plainItem "r1" "Slow export" "Export takes a while" (Some ["high"])
            "2024-12-01T09:30:00Z".

(** A record with the [critical] label whose content mentions security. *)
Definition criticalSecurityRecord : FeedbackItem :=
  plainItem "r2" "Login form" "Possible security hole in the login form"
            (Some ["critical"]) "2024-12-02T10:00:00Z".




(** *** Sample worlds *)

(** Every gateway answers; the AI answers with [reply]; it is the day
    that starts at 0. *)
Definition calmOutside (reply : option string) : Outside :=
  {| cacheFault := λ _, false;
     dbFault := λ _, false;
     AI_run := λ _ _ _ _, Some reply;
     clockAt := λ _, {| FreeTier.now := 3600000; FreeTier.dayStart := 0 |};
     isoNow := λ _, "2024-12-07T01:00:00.000Z";
     localeNow := λ _, "12/7/2024, 1:00:00 AM" |}.

(** The Cache Gateway throws on every call; everything else answers. *)
Definition cacheDownOutside : Outside :=
  {| cacheFault := λ _, true;
     dbFault := λ _, false;
     AI_run := λ _ _ _ _, Some None;
     clockAt := λ _, {| FreeTier.now := 3600000; FreeTier.dayStart := 0 |};
     isoNow := λ _, "2024-12-07T01:00:00.000Z";
     localeNow := λ _, "12/7/2024, 1:00:00 AM" |}.

Definition emptyWorld : World :=
  {| CACHE := ∅; FEEDBACK_DB := []; usageCache := ∅; steps := 0 |}.

Definition tcpRow (id content : string) : Row :=
  {| row_id := id; row_source_type := "github"; row_source_id := id;
     row_title := "Connection report"; row_content := content;
     row_author := "reporter"; row_created_at := "2024-12-01T09:30:00Z";
     row_metadata := Some "{}"; row_processed_at := "2024-12-01T09:31:00.000Z" |}.

(** Six distinct records that mention tcp and none of the words that the
    query of the visualizer selects. *)
Definition tcpOnlyWorld : World :=
  {| CACHE := ∅;
     FEEDBACK_DB :=
       [ tcpRow "t1" "tcp handshake times out";
         tcpRow "t2" "tcp resets under load";
         tcpRow "t3" "tcp retransmits spike at night";
         tcpRow "t4" "tcp window stays small";
         tcpRow "t5" "tcp keepalive is ignored";
         tcpRow "t6" "tcp sessions pile up" ];
     usageCache := ∅; steps := 0 |}.

(** Six distinct records that mention tcp and the network. *)
Definition tcpNetworkWorld : World :=
  {| CACHE := ∅;
     FEEDBACK_DB :=
       [ tcpRow "n1" "network tcp handshake times out";
         tcpRow "n2" "network tcp resets under load";
         tcpRow "n3" "network tcp retransmits spike at night";
         tcpRow "n4" "network tcp window stays small";
         tcpRow "n5" "network tcp keepalive is ignored";
         tcpRow "n6" "network tcp sessions pile up" ];
     usageCache := ∅; steps := 0 |}.

(** Usage of the AI budget within the day that starts at 0. *)
Definition someUsage : gmap string FreeTier.UsageEntry :=
  {[ FreeTier.ai_key := {| FreeTier.count := 500; FreeTier.resetTime := 0 |} ]}.

Definition noon : FreeTier.Clock :=
  {| FreeTier.now := 43200000; FreeTier.dayStart := 0 |}.

(** The Data Gateway and the AI Gateway throw on every call; the Cache
    Gateway answers. *)
Definition gatewaysDownOutside : Outside :=
  {| cacheFault := λ _, false;
     dbFault := λ _, true;
     AI_run := λ _ _ _ _, None;
     clockAt := λ _, {| FreeTier.now := 3600000; FreeTier.dayStart := 0 |};
     isoNow := λ _, "2024-12-07T01:00:00.000Z";
     localeNow := λ _, "12/7/2024, 1:00:00 AM" |}.

(** Every gateway answers but for the interaction number 19: from an
    empty store and an empty cache that is the first delete of the seed
    write-back (after the cache get, the select, the clock reading and the
    16 inserts). *)
Definition deleteFailsOutside : Outside :=
  {| cacheFault := λ t, Nat.eqb t 19;
     dbFault := λ _, false;
     AI_run := λ _ _ _ _, Some None;
     clockAt := λ _, {| FreeTier.now := 3600000; FreeTier.dayStart := 0 |};
     isoNow := λ _, "2024-12-07T01:00:00.000Z";
     localeNow := λ _, "12/7/2024, 1:00:00 AM" |}.

(** The budget of the day that starts at 0 is used up. *)
Definition exhaustedWorld : World :=
  {| CACHE := ∅; FEEDBACK_DB := [];
     usageCache :=
       {[ FreeTier.ai_key := {| FreeTier.count := 95000; FreeTier.resetTime := 0 |} ]};
     steps := 0 |}.

Definition staleInsights : FeedbackInsights :=
  {| criticalIssues := ["Old issue (github)"];
     trendingTopics := []; recommendations := []; priorityActions := [];
     sentimentAnalysis := SentimentDefaults;
     priorityMatrix := Aggregator.emptyPriorityMatrix;
     userJourneyInsights := Aggregator.emptyJourneyInsights |}.

Definition staleEntry : CacheEntry :=
  {| payload := PInsights staleInsights; expirationTtl := 600 |}.

(** Insights were cached before the write. *)
Definition cachedWorld : World :=
  {| CACHE := {[ "feedback:insights:v2" := staleEntry ]};
     FEEDBACK_DB := []; usageCache := ∅; steps := 0 |}.

End Samples.

Module MoreSamples.

(** A store with one row whose metadata is not JSON. *)
Definition brokenWorld : World :=
  {| CACHE := ∅;
     FEEDBACK_DB :=
       [ Samples.tcpRow "ok1" "network tcp handshake times out";
         {| row_id := "bad1"; row_source_type := "email"; row_source_id := "m1";
            row_title := "Broken record"; row_content := "network is down";
            row_author := "reporter"; row_created_at := "2024-12-02T09:30:00Z";
            row_metadata := Some "{labels"; row_processed_at := "2024-12-02T09:31:00.000Z" |} ];
     usageCache := ∅; steps := 0 |}.


(** A store whose second row carries the JSON text [null] as metadata. *)
Definition nullMetadataWorld : World :=
  {| CACHE := ∅;
     FEEDBACK_DB :=
       [ Samples.tcpRow "ok1" "network tcp handshake times out";
         {| row_id := "null1"; row_source_type := "email"; row_source_id := "m2";
            row_title := "Imported record"; row_content := "network is down";
            row_author := "importer"; row_created_at := "2024-12-02T09:30:00Z";
            row_metadata := Some "null"; row_processed_at := "2024-12-02T09:31:00.000Z" |} ];
     usageCache := ∅; steps := 0 |}.

End MoreSamples.

(** ** Further notions for the properties of the remaining code *)

Module Notions.
Import Js FreeTier.

(** The key of [usageCache] that a call of the manager may write. *)
Definition touchedKey (c : Call) : option string :=
  match c with
  | CanMakeAIRequest _ | RecordAITokensUsed _ => Some ai_key
  | CanReadFromD1 _ => Some d1_reads_key
  | CanWriteToD1 _ => Some d1_writes_key
  | CanReadFromKV => Some kv_reads_key
  | CanWriteToKV => Some kv_writes_key
  | GetUsageStats => None
  end.

(** The classes that no method of the manager ever records. *)
Definition unrecorded (m : gmap string UsageEntry) : Prop :=
  usage d1_reads_key m = 0 ∧ usage d1_writes_key m = 0
  ∧ usage kv_reads_key m = 0 ∧ usage kv_writes_key m = 0.

(** The length of the 30-day window, in milliseconds. *)
Definition thirtyDays : Z := 30 * 24 * 60 * 60 * 1000.

(** The fixed table of topic categories and their priorities. *)
Definition priorityTable : list (string * string) :=
  [ ("security", "urgent"); ("performance", "high"); ("compatibility", "medium");
    ("features", "medium"); ("usability", "low") ].

(** A category object as [addToCategory] keeps it: listed in the table,
    counting exactly its items, of which there is at least one. *)
Definition categoryOk (c : Category) : Prop :=
  (cat_name c, cat_priority c) ∈ priorityTable
  ∧ cat_count c = Z.of_nat (length (cat_items c))
  ∧ 1 ≤ cat_count c.


Definition sentimentLabels : list string := ["Positive"; "Negative"; "Neutral"].

Definition satisfactionLabels : list string := ["high"; "low"; "medium"].

Definition stageNames : list string :=
  ["First Time Setup"; "Daily Usage"; "Troubleshooting"; "Advanced Features"].

Definition layerNames : list string :=
  [ "Physical Layer"; "Data Link Layer"; "Network Layer"; "Transport Layer";
    "Session Layer"; "Presentation Layer"; "Application Layer" ].

(** The status that the issue count of a layer calls for. *)
Definition statusFor (n : Z) : Status :=
  if 5 <=? n then critical else if 2 <=? n then warning else healthy.

(** The value of the [metadata] column that [getFeedbackFromDB] hands to
    [JSON.parse] cannot be parsed. *)
Definition unreadableRow (rt : JsRuntime) (r : Row) : Prop :=
  JSON_parse rt (or_default (row_metadata r) "{}") = None.


(** The token estimate of the prompt of [analyzeSentiment]. *)
Definition sentimentEstimate (feedback : list FeedbackItem) : Z :=
  estimateTokens (truncateForAI (join ". " (map title (slice0 5 feedback))) 1000).

(** The lists of the insights have their bounded lengths. *)
Definition insightsBounded (i : FeedbackInsights) : Prop :=
  (length (criticalIssues i) ≤ 8)%nat
  ∧ (1 ≤ length (trendingTopics i) ≤ 5)%nat
  ∧ (3 ≤ length (recommendations i) ≤ 5)%nat
  ∧ (3 ≤ length (priorityActions i) ≤ 6)%nat.

(** The payload is cached under the key, with the given time to live
    whenever the key was not cached in [before]. *)
Definition cachedAs (before : World) (key : string) (ttl : Z) (p : Payload)
    (w : World) : Prop :=
  ∃ e, CACHE w !! key = Some e ∧ payload e = p
       ∧ (CACHE before !! key = None → expirationTtl e = ttl).

(** What a summary of the batch looks like. *)
Definition summaryShape (feedback : list FeedbackItem) (s : FeedbackSummary) : Prop :=
  totalItems s = Z.of_nat (length feedback)
  ∧ NoDup (sources s)
  ∧ (∀ x, x ∈ sources s ↔ x ∈ map source_type feedback)
  ∧ (length (topCategories s) ≤ 5)%nat
  ∧ 0 ≤ criticalIssueCount s ≤ totalItems s
  ∧ 0 ≤ featureRequests s ≤ totalItems s
  ∧ averageSentiment s ∈ sentimentLabels
  ∧ (feedback = [] → dateRange s = "No data" ∧ topCategories s = []).

(** The seven layers after [n] records were counted: the fixed names,
    counts between 0 and [n], and Session level with Presentation. *)
Definition layersCounted (check : NetworkLayer → Prop) (n : Z)
    (layers : list NetworkLayer) : Prop :=
  map name layers = layerNames
  ∧ Forall (λ layer, 0 ≤ issueCount layer ≤ n ∧ check layer) layers
  ∧ ∃ session presentation,
      layers !! 4%nat = Some session ∧ layers !! 5%nat = Some presentation
      ∧ issueCount session = issueCount presentation.

(** The exception is one of the [TypeError]s of a value of the wrong
    shape. *)
Definition typeError (e : string) : Prop :=
  e = Dynamic.nullRead ∨ e = Dynamic.notFunction.


End Notions.

(** * Properties *)

(** ** Strings and sorting *)

Module JsFacts.
Import Js Reference.

Lemma append_nil_l (s : string) : EmptyString +:+ s = s.
Proof. reflexivity. Qed.

Lemma append_cons (c : ascii) (a b : string) :
  String c a +:+ b = String c (a +:+ b).
Proof. reflexivity. Qed.

Lemma startsWith_app (n t : string) : startsWith n (n +:+ t) = true.
Proof.
  induction n as [|c n IH]; [done|].
  rewrite append_cons. simpl. by rewrite Ascii.eqb_refl.
Qed.

Lemma startsWith_inv (n h : string) :
  startsWith n h = true → ∃ t, h = n +:+ t.
Proof.
  revert h. induction n as [|c n IH]; intros h Hs.
  - by exists h.
  - destruct h as [|d h]; simpl in Hs; [done|].
    destruct (Ascii.eqb c d) eqn:Hcd; [|done].
    apply Ascii.eqb_eq in Hcd as ->.
    destruct (IH _ Hs) as [t ->]. by exists t.
Qed.

Lemma includes_startsWith (n h : string) :
  startsWith n h = true → includes n h = true.
Proof. intros Hs. destruct h; simpl; by rewrite Hs. Qed.

Lemma includes_intro (n a b : string) : includes n (a +:+ n +:+ b) = true.
Proof.
  induction a as [|c a IH].
  - rewrite append_nil_l. apply includes_startsWith, startsWith_app.
  - rewrite append_cons. simpl. rewrite IH. by rewrite orb_true_r.
Qed.

Lemma includes_inv (n h : string) :
  includes n h = true → ∃ a b, h = a +:+ n +:+ b.
Proof.
  induction h as [|c h IH]; simpl; intros Hi.
  - rewrite orb_false_r in Hi. apply startsWith_inv in Hi as [t ->].
    by exists EmptyString, t.
  - apply orb_true_iff in Hi as [Hs|Hi].
    + apply startsWith_inv in Hs as [t Ht]. by exists EmptyString, t.
    + destruct (IH Hi) as (a & b & ->). by exists (String c a), b.
Qed.

Lemma append_assoc (a b c : string) : (a +:+ b) +:+ c = a +:+ (b +:+ c).
Proof.
  induction a as [|x a IH]; [done|]. rewrite !append_cons. by rewrite IH.
Qed.

Lemma toLowerCase_app (a b : string) :
  toLowerCase (a +:+ b) = toLowerCase a +:+ toLowerCase b.
Proof.
  induction a as [|x a IH]; [done|].
  rewrite append_cons. simpl. rewrite append_cons. by rewrite IH.
Qed.

(** A text that contains the needle still contains it, lowercased, once
    the text is lowercased and something is appended to it. *)
Lemma includes_lower_app (n h t : string) :
  includes n h = true →
  includes (toLowerCase n) (toLowerCase (h +:+ t)) = true.
Proof.
  intros (a & b & ->)%includes_inv.
  rewrite !toLowerCase_app, !append_assoc. apply includes_intro.
Qed.

Lemma includes_lower (n h : string) :
  includes n h = true → includes (toLowerCase n) (toLowerCase h) = true.
Proof.
  intros (a & b & ->)%includes_inv.
  rewrite !toLowerCase_app. apply includes_intro.
Qed.

Lemma includes_nonempty (n h : string) :
  n ≠ EmptyString → includes n h = true → h ≠ EmptyString.
Proof. intros Hn Hi ->. simpl in Hi. destruct n; [done|]. done. Qed.

Section SortFacts.
Context {A : Type} (cmp : A → A → Z).

Lemma sort_insert_perm (x : A) (l : list A) : sort_insert cmp x l ≡ₚ x :: l.
Proof.
  induction l as [|y l IH]; simpl; [done|].
  destruct (cmp x y <=? 0); [done|].
  rewrite IH. apply Permutation_swap.
Qed.

Lemma sort_perm (l : list A) : sort cmp l ≡ₚ l.
Proof.
  induction l as [|x l IH]; simpl; [done|].
  unfold sort in *. simpl. by rewrite sort_insert_perm, IH.
Qed.

Lemma sort_length (l : list A) : length (sort cmp l) = length l.
Proof. by rewrite sort_perm. Qed.

(** On a set of values where the comparator is a total preorder, the
    result is sorted: every element is [before] all later ones. *)
Context (P : A → Prop).
Context (total : ∀ x y, P x → P y → before cmp x y ∨ before cmp y x).
Context (trans : ∀ x y z, P x → P y → P z →
                  before cmp x y → before cmp y z → before cmp x z).


End SortFacts.




End JsFacts.

(** ** The quota tracker *)

Module FreeTierFacts.
Import FreeTier CLOUDFLARE_LIMITS Reference.

Lemma usage_resetIfNewWindow_same (start : Z) (m : gmap string UsageEntry) :
  usage ai_key (resetIfNewWindow ai_key start m) = usedInWindow start m.
Proof.
  unfold usage, resetIfNewWindow, usedInWindow.
  destruct (m !! ai_key) as [e|] eqn:He.
  - case_bool_decide; [by rewrite He|by rewrite lookup_insert_eq].
  - by rewrite lookup_insert_eq.
Qed.

Lemma usage_resetIfNewWindow_other (key : string) (start : Z)
    (m : gmap string UsageEntry) :
  key ≠ ai_key → usage ai_key (resetIfNewWindow key start m) = usage ai_key m.
Proof.
  intros Hne. unfold usage, resetIfNewWindow.
  destruct (m !! key) as [e|]; [case_bool_decide|]; by rewrite ?lookup_insert_ne.
Qed.

Lemma lookup_resetIfNewWindow_other (key : string) (start : Z)
    (m : gmap string UsageEntry) :
  key ≠ ai_key → resetIfNewWindow key start m !! ai_key = m !! ai_key.
Proof.
  intros Hne. unfold resetIfNewWindow.
  destruct (m !! key) as [e|]; [case_bool_decide|]; by rewrite ?lookup_insert_ne.
Qed.

Lemma usedInWindow_current (start : Z) (m : gmap string UsageEntry) :
  inWindow start m → usedInWindow start m = usage ai_key m.
Proof.
  unfold inWindow, usedInWindow, usage. destruct (m !! ai_key); [|done].
  intros ->. by rewrite bool_decide_eq_true_2.
Qed.

Lemma inWindow_resetIfNewWindow (start : Z) (m : gmap string UsageEntry) :
  inWindow start (resetIfNewWindow ai_key start m).
Proof.
  unfold inWindow, resetIfNewWindow.
  destruct (m !! ai_key) as [e|] eqn:He.
  - case_bool_decide; [by rewrite He|by rewrite lookup_insert_eq].
  - by rewrite lookup_insert_eq.
Qed.

(** Within a window, a call does not lower the usage and stays in the
    window. *)
Lemma perform_in_window (start : Z) (c : Clock * Call) (m : gmap string UsageEntry) :
  inWindow start m → callInWindow start c →
  usage ai_key m ≤ usage ai_key (perform c.1 c.2 m)
  ∧ inWindow start (perform c.1 c.2 m).
Proof.
  destruct c as [clk c]. intros Hw [Hday Hamount]. simpl in *. subst start.
  destruct c; simpl;
    try (rewrite usage_resetIfNewWindow_other by done; split; [lia|];
         unfold inWindow; by rewrite lookup_resetIfNewWindow_other).
  - rewrite usage_resetIfNewWindow_same, usedInWindow_current by done.
    split; [lia|apply inWindow_resetIfNewWindow].
  - unfold recordAITokensUsed, inWindow, usage in *.
    destruct (m !! ai_key) as [e|] eqn:He.
    + rewrite bool_decide_eq_true_2 by done.
      rewrite !lookup_insert_eq. simpl. split; [lia|done].
    + rewrite !lookup_insert_eq. simpl. split; [lia|done].
  - done.
Qed.

Lemma performAll_in_window (start : Z) (cs : list (Clock * Call))
    (m : gmap string UsageEntry) :
  inWindow start m → Forall (callInWindow start) cs →
  usage ai_key m ≤ usage ai_key (performAll cs m)
  ∧ inWindow start (performAll cs m).
Proof.
  revert m. induction cs as [|c cs IH]; intros m Hw Hcs; simpl; [split; [lia|done]|].
  apply Forall_cons in Hcs as [Hc Hcs].
  destruct (perform_in_window start c m Hw Hc) as [Hle Hw'].
  destruct (IH _ Hw' Hcs) as [Hle' Hw'']. split; [lia|done].
Qed.

Lemma performAll_app (cs1 cs2 : list (Clock * Call)) (m : gmap string UsageEntry) :
  performAll (cs1 ++ cs2) m = performAll cs2 (performAll cs1 m).
Proof. unfold performAll. by rewrite foldl_app. Qed.

(** Any call other than [recordAITokensUsed] leaves the usage as it is or
    resets it to zero. *)
Lemma perform_no_record (clk : Clock) (c : Call) (m : gmap string UsageEntry) :
  (∀ tokens, c ≠ RecordAITokensUsed tokens) →
  usage ai_key (perform clk c m) = usage ai_key m
  ∨ usage ai_key (perform clk c m) = 0.
Proof.
  intros Hc. destruct c; simpl;
    try (left; by rewrite usage_resetIfNewWindow_other by done).
  - rewrite usage_resetIfNewWindow_same. unfold usedInWindow, usage.
    destruct (m !! ai_key); [case_bool_decide|]; auto.
  - by destruct (Hc tokens).
  - by left.
Qed.

(** C2: the quota check answers true exactly when the usage of the current
    window (zero after a rollover to a new day) plus the estimate is below
    the hard limit minus the reserved margin; with the limits 100000 and
    10000, 95000 used and 3000 requested it answers false. *)
Theorem canMakeAIRequest_iff_below_budget :
  (∀ (clk : Clock) (n : Z) (m : gmap string UsageEntry),
     (canMakeAIRequest clk n m).1 = true
     ↔ usedInWindow (dayStart clk) m + n < AI_TOKENS_PER_DAY - AI_RESERVED_TOKENS)
  ∧ AI_TOKENS_PER_DAY = 100000 ∧ AI_RESERVED_TOKENS = 10000
  ∧ (∀ (clk : Clock) (others : gmap string UsageEntry),
       (canMakeAIRequest clk 3000
          (<[ai_key := {| count := 95000; resetTime := dayStart clk |}]> others)).1
       = false).
Proof.
  split; [|split; [done|split; [done|]]].
  - intros clk n m. unfold canMakeAIRequest. simpl.
    rewrite usage_resetIfNewWindow_same. apply Z.ltb_lt.
  - intros clk others. unfold canMakeAIRequest. simpl.
    rewrite usage_resetIfNewWindow_same. unfold usedInWindow.
    rewrite lookup_insert_eq. simpl. by rewrite bool_decide_eq_true_2.
Qed.

(** C10: the quota check never consumes: it leaves the usage unchanged
    within the current day and resets it to exactly zero on a new day;
    a call that raises a non-negative usage is a [recordAITokensUsed];
    and within one window the usage never decreases along any sequence of
    calls. *)
Theorem quota_check_never_consumes :
  (∀ (clk : Clock) (n : Z) (m : gmap string UsageEntry),
     (inWindow (dayStart clk) m →
      usage ai_key (canMakeAIRequest clk n m).2 = usage ai_key m)
     ∧ (¬ inWindow (dayStart clk) m →
        usage ai_key (canMakeAIRequest clk n m).2 = 0))
  ∧ (∀ (clk : Clock) (c : Call) (m : gmap string UsageEntry),
       0 ≤ usage ai_key m →
       usage ai_key m < usage ai_key (perform clk c m) →
       ∃ tokens, c = RecordAITokensUsed tokens)
  ∧ (∀ (start : Z) (cs1 cs2 : list (Clock * Call)) (m : gmap string UsageEntry),
       inWindow start m → Forall (callInWindow start) (cs1 ++ cs2) →
       usage ai_key (performAll cs1 m) ≤ usage ai_key (performAll (cs1 ++ cs2) m)).
Proof.
  split; [|split].
  - intros clk n m. unfold canMakeAIRequest. simpl.
    rewrite usage_resetIfNewWindow_same. split.
    + apply usedInWindow_current.
    + unfold inWindow, usedInWindow. destruct (m !! ai_key); [|done].
      intros Hne. by rewrite bool_decide_eq_false_2.
  - intros clk c m Hpos Hlt.
    destruct c as [n|tokens|n|n| | |]; try (by eexists);
      exfalso; (edestruct (perform_no_record clk) as [Heq|Heq];
        [|rewrite Heq in Hlt; lia..]); intros ? [=].
  - intros start cs1 cs2 m Hw [H1 H2]%Forall_app.
    rewrite performAll_app.
    destruct (performAll_in_window start cs1 m Hw H1) as [_ Hw1].
    by destruct (performAll_in_window start cs2 _ Hw1 H2).
Qed.

Lemma quota_check_never_consumes_witness :
  usage ai_key (canMakeAIRequest Samples.noon 200 Samples.someUsage).2
    = usage ai_key Samples.someUsage
  ∧ (∃ tokens, RecordAITokensUsed 200 = RecordAITokensUsed tokens)
  ∧ usage ai_key (performAll [(Samples.noon, CanMakeAIRequest 200)] Samples.someUsage)
    ≤ usage ai_key
        (performAll ([(Samples.noon, CanMakeAIRequest 200)]
                     ++ [(Samples.noon, RecordAITokensUsed 200);
                         (Samples.noon, CanReadFromKV)])
                    Samples.someUsage).
Proof.
  split; [|split].
  - apply (proj1 quota_check_never_consumes). vm_compute. reflexivity.
  - apply (proj1 (proj2 quota_check_never_consumes) Samples.noon _ Samples.someUsage);
      vm_compute; [discriminate|reflexivity].
  - apply (proj2 (proj2 quota_check_never_consumes) 0).
    + vm_compute. reflexivity.
    + repeat constructor; vm_compute; discriminate.
Defined.

End FreeTierFacts.

(** ** The rule-based classifier *)

Module AggregatorFacts.
Import Js JsFacts Aggregator Reference.

Ltac split_conditions :=
  repeat match goal with
         | |- context [if ?b then _ else _] => destruct b
         end.

Lemma calculateSeverity_rules (f : FeedbackItem) :
  calculateSeverity f = severityAmended f.
Proof.
  unfold calculateSeverity, severityAmended, severityByRules, weight,
    labels_or_empty.
  cbv zeta. split_conditions; reflexivity.
Qed.

Lemma severityByRules_bounds (rule : FeedbackItem → bool) (f : FeedbackItem) :
  1 ≤ severityByRules rule f ≤ 5.
Proof.
  unfold severityByRules, weight. cbv zeta. split_conditions; lia.
Qed.

(** C4, as amended: the severity is an integer between 1 and 5; it is 1
    plus the fixed additions (+3 critical label or security/vulnerability
    mention, +2 crash/data loss, +2 blocking, +1 when the priority is high
    or the record carries a [high] label, +1 bug-report source, +2
    security-researcher source), clamped at 5. *)
Theorem calculateSeverity_bounds_and_rules (f : FeedbackItem) :
  1 ≤ calculateSeverity f ≤ 5 ∧ calculateSeverity f = severityAmended f.
Proof.
  split; [|apply calculateSeverity_rules].
  rewrite calculateSeverity_rules. apply severityByRules_bounds.
Qed.

(** C4, as stated, fails on a record whose only mark is a [high] label:
    the rules of the specification give 1, the code gives 2. *)
Lemma calculateSeverity_high_label_differs :
  calculateSeverity Samples.highLabelRecord = 2
  ∧ severityBySpec Samples.highLabelRecord = 1.
Proof. split; vm_compute; reflexivity. Qed.

(** C8: a record labelled exactly [critical] whose content contains
    "security", and which matches no other rule, has severity 4: the +3
    band counts once. *)
Theorem critical_label_and_security_is_four (f : FeedbackItem) :
  labels (metadata f) = Some ["critical"] →
  includes "security" (content f) = true →
  includes "crash" (toLowerCase (content f +:+ title f)) = false →
  includes "data loss" (toLowerCase (content f +:+ title f)) = false →
  includes "blocking" (toLowerCase (content f +:+ title f)) = false →
  priority (metadata f) ≠ Some "high" →
  source_type f ≠ "bug-report" →
  source_type f ≠ "security-researcher" →
  calculateSeverity f = 4.
Proof.
  intros Hl Hsec Hcrash Hloss Hblock Hprio Hbug Hres.
  pose proof (includes_lower_app "security" _ (title f) Hsec) as Hsec'.
  change (toLowerCase "security") with "security" in Hsec'.
  unfold calculateSeverity, labels_or_empty. cbv zeta.
  rewrite Hl, Hsec', Hcrash, Hloss, Hblock. simpl default.
  rewrite !bool_decide_eq_false_2 by done.
  vm_compute. reflexivity.
Qed.

Lemma critical_label_and_security_is_four_witness :
  calculateSeverity Samples.criticalSecurityRecord = 4.
Proof.
  apply critical_label_and_security_is_four;
    first [reflexivity | vm_compute; discriminate].
Defined.


Section Ranking.
Context (rt : JsRuntime).




End Ranking.




End AggregatorFacts.

(** ** The layer health scorer *)

Module VisualizerFacts.
Import Js JsFacts Visualizer Reference.

Lemma foldl_issueCount (layers : list NetworkLayer) (start : Z) :
  foldl (λ sum layer, sum + issueCount layer) start layers
  = start + totalIssues layers.
Proof.
  revert start. induction layers as [|l layers IH]; intros start; simpl; [lia|].
  rewrite IH. lia.
Qed.

Lemma filter_hasStatus_length (s : Status) (layers : list NetworkLayer) :
  Z.of_nat (length (List.filter (hasStatus s) layers)) = layersWithStatus s layers.
Proof.
  unfold layersWithStatus, hasStatus. f_equal.
  induction layers as [|l layers IH]; simpl; [done|].
  rewrite filter_cons. case_bool_decide; case_decide; simpl; try done.
  by rewrite IH.
Qed.

(** C5: the health score is the clamp to [0, 100] of 100 minus 5 per
    issue, 15 per critical layer and 5 per warning layer; it therefore
    lies between 0 and 100; and the seven layers of an empty batch, all
    with zero issues, score 100. *)
Theorem calculateHealthScore_clamped :
  (∀ layers : list NetworkLayer,
     calculateHealthScore layers
     = clamp (100 - 5 * totalIssues layers
              - 15 * layersWithStatus critical layers
              - 5 * layersWithStatus warning layers) 0 100
     ∧ 0 ≤ calculateHealthScore layers ≤ 100)
  ∧ (∀ rt : JsRuntime,
       ∃ layers, analyzeNetworkLayers rt [] = Ok layers
                 ∧ length layers = 7%nat
                 ∧ Forall (λ layer, issueCount layer = 0) layers
                 ∧ calculateHealthScore layers = 100).
Proof.
  split.
  - intros layers. unfold calculateHealthScore, clamp. cbv zeta.
    rewrite foldl_issueCount, !filter_hasStatus_length. split; [f_equal; f_equal|]; lia.
  - intros rt. eexists. split; [reflexivity|].
    split; [done|]. split; [by repeat constructor|done].
Qed.

(** *** Counting into the Transport layer *)

Lemma transportAt_increment (key : string) (layers : list NetworkLayer)
    (n : Z) (s : Status) :
  transportAt layers n s →
  transportAt (increment key layers)
              (if String.eqb "Transport Layer" key then n + 1 else n) s.
Proof.
  intros (layer & Hl & Hname & Hn & Hs). unfold transportAt, increment.
  rewrite list_lookup_fmap, Hl. unfold fmap, option_fmap, option_map.
  rewrite Hname.
  destruct (String.eqb "Transport Layer" key);
    eexists; (split; [reflexivity|]); simpl; repeat split; try done; lia.
Qed.

Lemma transportAt_incrementIf_other (b : bool) (key : string)
    (layers : list NetworkLayer) (n : Z) (s : Status) :
  String.eqb "Transport Layer" key = false →
  transportAt layers n s → transportAt (incrementIf b key layers) n s.
Proof.
  intros Hkey Ht. destruct b; simpl; [|done].
  apply (transportAt_increment key) in Ht. by rewrite Hkey in Ht.
Qed.

Lemma countItem_transport (layers : list NetworkLayer) (item : NetItem)
    (n : Z) (s : Status) :
  includes "tcp" (toLowerCase (itemText item)) = true →
  transportAt layers n s → transportAt (countItem layers item) (n + 1) s.
Proof.
  intros Htcp Ht. unfold countItem. cbv zeta. rewrite Htcp. simpl orb.
  assert (∀ b ls, transportAt ls (n + 1) s →
            transportAt (incrementIf b "Application Layer" ls) (n + 1) s) as Happ
    by (intros; by apply transportAt_incrementIf_other).
  assert (∀ ls, transportAt ls (n + 1) s →
            transportAt (increment "Presentation Layer" (increment "Session Layer" ls))
                        (n + 1) s) as Hsec.
  { intros ls H. apply (transportAt_increment "Session Layer") in H.
    apply (transportAt_increment "Presentation Layer") in H. exact H. }
  assert (transportAt
            (incrementIf true "Transport Layer"
               (incrementIf
                  (includes "ip" (toLowerCase (itemText item))
                   || includes "routing" (toLowerCase (itemText item))
                   || includes "subnet" (toLowerCase (itemText item))
                   || includes "arp" (toLowerCase (itemText item))
                   || includes "icmp" (toLowerCase (itemText item))
                   || includes "ipv6" (toLowerCase (itemText item)))
                  "Network Layer"
                  (incrementIf
                     (includes "mac" (toLowerCase (itemText item))
                      || includes "switch" (toLowerCase (itemText item))
                      || includes "vlan" (toLowerCase (itemText item))
                      || includes "bridge" (toLowerCase (itemText item))
                      || includes "ethernet" (toLowerCase (itemText item)))
                     "Data Link Layer"
                     (incrementIf
                        (includes "cable" (toLowerCase (itemText item))
                         || includes "connector" (toLowerCase (itemText item))
                         || includes "fiber" (toLowerCase (itemText item))
                         || includes "physical" (toLowerCase (itemText item))
                         || includes "hardware" (toLowerCase (itemText item)))
                        "Physical Layer" layers)))) (n + 1) s) as Hcore.
  { simpl incrementIf at 1.
    apply (transportAt_increment "Transport Layer" _ n s).
    repeat (apply transportAt_incrementIf_other; [done|]). exact Ht. }
  destruct (_ || _ || _ || _) in |- * at 1; [apply Hsec|]; by apply Happ.
Qed.

Lemma countAll_transport (rt : JsRuntime) (feedback : list NetItem)
    (layers : list NetworkLayer) (n : Z) (s : Status) :
  Forall (λ item, includes "tcp" (toLowerCase (itemText item)) = true
                  ∧ parseItemMetadata rt item = Ok tt) feedback →
  transportAt layers n s →
  ∃ layers', countAll rt layers feedback = Ok layers'
             ∧ transportAt layers' (n + Z.of_nat (length feedback)) s.
Proof.
  revert layers n. induction feedback as [|item rest IH]; intros layers n Hall Ht.
  - exists layers. split; [done|]. simpl. by rewrite Z.add_0_r.
  - apply Forall_cons in Hall as [[Htcp Hparse] Hall]. simpl. rewrite Hparse.
    destruct (IH _ (n + 1) Hall (countItem_transport _ _ _ _ Htcp Ht))
      as (layers' & Hrun & Ht').
    exists layers'. split; [done|].
    replace (n + Z.of_nat (S (length rest))) with (n + 1 + Z.of_nat (length rest)) by lia.
    done.
Qed.

Lemma names_increment (key : string) (layers : list NetworkLayer) :
  map name (increment key layers) = map name layers.
Proof.
  unfold increment. rewrite map_map. apply map_ext. intros l.
  by destruct (String.eqb (name l) key).
Qed.

Lemma names_countItem (layers : list NetworkLayer) (item : NetItem) :
  map name (countItem layers item) = map name layers.
Proof.
  unfold countItem, incrementIf. cbv zeta.
  repeat match goal with
         | |- context [if ?b then _ else _] => destruct b
         end; by rewrite ?names_increment.
Qed.

Lemma names_countAll (rt : JsRuntime) (feedback : list NetItem)
    (layers layers' : list NetworkLayer) :
  countAll rt layers feedback = Ok layers' → map name layers' = map name layers.
Proof.
  revert layers. induction feedback as [|item rest IH]; intros layers; simpl.
  - by intros [= ->].
  - destruct (parseItemMetadata rt item); [|done].
    intros Hrun%IH. by rewrite Hrun, names_countItem.
Qed.

Lemma transport_determined (layers : list NetworkLayer) (n : Z) :
  map name layers = map name initialLayers →
  5 ≤ n → transportAt layers n healthy →
  ∃ layer, layerNamed "Transport Layer" (map determineStatus layers) = Some layer
           ∧ issueCount layer = n ∧ status layer = critical.
Proof.
  intros Hnames Hn (layer & Hl & _ & Hcount & _).
  do 7 (destruct layers as [|? layers]; [done|]).
  destruct layers; [|done].
  simpl in Hl. injection Hl as ->.
  injection Hnames as H0 H1 H2 H3 _ _ _.
  unfold layerNamed. simpl. rewrite H0, H1, H2, H3. simpl.
  eexists. split; [reflexivity|]. simpl. split; [done|].
  rewrite Hcount. by destruct (5 <=? n) eqn:?; [|lia].
Qed.

(** Records that all mention tcp raise the Transport layer to their
    number; from five on its status is critical. *)
Lemma analyzeNetworkLayers_transport (rt : JsRuntime) (feedback : list NetItem) :
  Forall (λ item, includes "tcp" (toLowerCase (itemText item)) = true
                  ∧ parseItemMetadata rt item = Ok tt) feedback →
  (5 ≤ length feedback)%nat →
  ∃ layers layer,
    analyzeNetworkLayers rt feedback = Ok layers
    ∧ layerNamed "Transport Layer" layers = Some layer
    ∧ issueCount layer = Z.of_nat (length feedback)
    ∧ status layer = critical.
Proof.
  intros Hall Hlen. unfold analyzeNetworkLayers.
  destruct (countAll_transport rt feedback initialLayers 0 healthy Hall)
    as (counted & Hrun & Ht).
  { eexists. by repeat split. }
  rewrite Hrun.
  destruct (transport_determined counted (0 + Z.of_nat (length feedback)))
    as (layer & Hfind & Hcount & Hstatus); [by eapply names_countAll|lia|done|].
  exists (map determineStatus counted), layer. repeat split; [done|lia|done].
Qed.

End VisualizerFacts.

(** ** Asynchronous code: a small program logic *)

Module AsyncFacts.
Import Async Gateway Reference.
Local Open Scope async_scope.

Section Rules.
Context {A B : Type}.
Implicit Types (Pre : World → Prop) (Caught : string → World → Prop).

Lemma triple_ret Pre (a : A) (Post : A → World → Prop) Caught :
  (∀ w, Pre w → Post a w) → triple Pre (ret a) Post Caught.
Proof. intros H w Hw. simpl. by apply H. Qed.

Lemma triple_lift Pre (o : Outcome A) (Post : A → World → Prop) Caught :
  (∀ w, Pre w → match o with Ok a => Post a w | Throw e => Caught e w end) →
  triple Pre (lift o) Post Caught.
Proof. intros H w Hw. unfold lift. specialize (H w Hw). by destruct o. Qed.

Lemma triple_bind Pre (m : M A) (k : A → M B) (Mid : A → World → Prop)
    (Post : B → World → Prop) Caught :
  triple Pre m Mid Caught →
  (∀ a, triple (Mid a) (k a) Post Caught) →
  triple Pre (bind m k) Post Caught.
Proof.
  intros Hm Hk w Hw. unfold bind. specialize (Hm w Hw).
  destruct (m w) as [[a|e] w']; [by apply Hk|done].
Qed.

Lemma triple_try_catch Pre (m : M A) (h : string → M A)
    (Post : A → World → Prop) (Mid : string → World → Prop) Caught :
  triple Pre m Post Mid →
  (∀ e, triple (Mid e) (h e) Post Caught) →
  triple Pre (try_catch m h) Post Caught.
Proof.
  intros Hm Hh w Hw. unfold try_catch. specialize (Hm w Hw).
  destruct (m w) as [[a|e] w']; [done|by apply Hh].
Qed.

Lemma triple_weaken Pre Pre' (m : M A) (Post Post' : A → World → Prop)
    Caught Caught' :
  triple Pre m Post Caught →
  (∀ w, Pre' w → Pre w) →
  (∀ a w, Post a w → Post' a w) →
  (∀ e w, Caught e w → Caught' e w) →
  triple Pre' m Post' Caught'.
Proof.
  intros Hm HP HQ HC w Hw. specialize (Hm w (HP w Hw)).
  destruct (m w) as [[a|e] w']; auto.
Qed.

Lemma triple_any Pre (m : M A) : triple Pre m (λ _ _, True) (λ _ _, True).
Proof. intros w _. by destruct (m w) as [[a|e] w']. Qed.

Lemma triple_returns Pre (m : M A) (Post : A → World → Prop) (w : World) :
  triple Pre m Post (λ _ _, False) → Pre w →
  ∃ a w', m w = (Ok a, w') ∧ Post a w'.
Proof.
  intros Hm Hw. specialize (Hm w Hw).
  destruct (m w) as [[a|e] w']; [by exists a, w'|done].
Qed.
End Rules.

Lemma safe_ret {A} (a : A) : safe (ret a).
Proof. by apply triple_ret. Qed.

Lemma safe_bind {A B} (m : M A) (k : A → M B) :
  safe m → (∀ a, safe (k a)) → safe (bind m k).
Proof. intros Hm Hk. eapply triple_bind; [exact Hm|]. intros a. apply Hk. Qed.

Lemma safe_try_catch {A} (m : M A) (h : string → M A) :
  (∀ e, safe (h e)) → safe (try_catch m h).
Proof.
  intros Hh. eapply triple_try_catch; [apply triple_any|]. intros e. apply Hh.
Qed.

Lemma safe_if {A} (b : bool) (m1 m2 : M A) :
  safe m1 → safe m2 → safe (if b then m1 else m2).
Proof. by destruct b. Qed.

Lemma safe_triple {A} (Pre : World → Prop) (m : M A) :
  safe m → triple Pre m (λ _ _, True) (λ _ _, False).
Proof. intros Hm. eapply triple_weaken; [exact Hm|done..]. Qed.

Lemma safe_tick : safe tick.
Proof. by intros w _. Qed.

Lemma safe_get : safe get.
Proof. by intros w _. Qed.

Lemma safe_setUsage u : safe (setUsage u).
Proof. by intros w _. Qed.

Section GatewayFacts.
Context (out : Outside).

Lemma safe_canMakeAIRequest n : safe (canMakeAIRequest out n).
Proof. by intros w _. Qed.

Lemma safe_recordAITokensUsed n : safe (recordAITokensUsed out n).
Proof. by intros w _. Qed.

Lemma safe_nowISO : safe (nowISO out).
Proof. by intros w _. Qed.

Lemma safe_nowLocale : safe (nowLocale out).
Proof. by intros w _. Qed.

(** Run equations of the gateway calls. *)
Lemma CACHE_get_run key w :
  CACHE_get out key w
  = (if cacheFault out (steps w) then Throw "KV get failed"
     else Ok (payload <$> CACHE w !! key), ticked w).
Proof. unfold CACHE_get, bind, tick, get. simpl. by destruct (cacheFault _ _). Qed.

Lemma CACHE_put_run key value ttl w :
  CACHE_put out key value ttl w
  = if cacheFault out (steps w) then (Throw "KV put failed", ticked w)
    else (Ok tt,
          {| CACHE := <[key := {| payload := value; expirationTtl := ttl |}]> (CACHE w);
             FEEDBACK_DB := FEEDBACK_DB w; usageCache := usageCache w;
             steps := S (steps w) |}).
Proof. unfold CACHE_put, bind, tick, get. simpl. by destruct (cacheFault _ _). Qed.

Lemma CACHE_delete_run key w :
  CACHE_delete out key w
  = if cacheFault out (steps w) then (Throw "KV delete failed", ticked w)
    else (Ok tt,
          {| CACHE := delete key (CACHE w);
             FEEDBACK_DB := FEEDBACK_DB w; usageCache := usageCache w;
             steps := S (steps w) |}).
Proof. unfold CACHE_delete, bind, tick, get. simpl. by destruct (cacheFault _ _). Qed.

Lemma DB_insertOrReplace_run r w :
  DB_insertOrReplace out r w
  = if dbFault out (steps w) then (Throw "D1 write failed", ticked w)
    else (Ok tt,
          {| CACHE := CACHE w; FEEDBACK_DB := upsert r (FEEDBACK_DB w);
             usageCache := usageCache w; steps := S (steps w) |}).
Proof. unfold DB_insertOrReplace, bind, tick, get. simpl. by destruct (dbFault _ _). Qed.

Lemma DB_selectAll_run w :
  DB_selectAll out w
  = (if dbFault out (steps w) then Throw "D1 query failed"
     else Ok (Js.sort byCreatedAtDesc (FEEDBACK_DB w)), ticked w).
Proof. unfold DB_selectAll, bind, tick, get. simpl. by destruct (dbFault _ _). Qed.

Lemma DB_selectNetwork_run w :
  DB_selectNetwork out w
  = (if dbFault out (steps w) then Throw "D1 query failed"
     else Ok (Js.sort byCreatedAtDesc (List.filter networkWhere (FEEDBACK_DB w))),
     ticked w).
Proof. unfold DB_selectNetwork, bind, tick, get. simpl. by destruct (dbFault _ _). Qed.

Lemma canMakeAIRequest_run n w :
  canMakeAIRequest out n w
  = (Ok (FreeTier.canMakeAIRequest (clockAt out (steps w)) n (usageCache w)).1,
     {| CACHE := CACHE w; FEEDBACK_DB := FEEDBACK_DB w;
        usageCache :=
          (FreeTier.canMakeAIRequest (clockAt out (steps w)) n (usageCache w)).2;
        steps := S (steps w) |}).
Proof. reflexivity. Qed.

(** With the Cache Gateway up, its calls answer and leave the store
    alone. *)
Lemma CACHE_get_up (Inv : list Row → Prop) key :
  (∀ t, cacheFault out t = false) →
  triple (λ w, Inv (FEEDBACK_DB w)) (CACHE_get out key)
         (λ _ w, Inv (FEEDBACK_DB w)) (λ _ _, False).
Proof. intros Hup w Hw. rewrite CACHE_get_run, Hup. done. Qed.

Lemma CACHE_put_up key value ttl :
  (∀ t, cacheFault out t = false) → safe (CACHE_put out key value ttl).
Proof. intros Hup w _. rewrite CACHE_put_run, Hup. done. Qed.
End GatewayFacts.

Create HintDb safe discriminated.
#[export] Hint Resolve safe_ret safe_bind safe_try_catch safe_if safe_tick
  safe_get safe_setUsage safe_canMakeAIRequest safe_recordAITokensUsed
  safe_nowISO safe_nowLocale : safe.

End AsyncFacts.

(** ** Records of any shape and records of the declared shape *)

Module RawFacts.
Import Js JsFacts Async Gateway Dynamic Aggregator Reference AsyncFacts.

(** *** Outcomes of list operations whose callbacks do not throw *)

Lemma filterM_ok {A} (p : A → Outcome bool) (q : A → bool) (l : list A) :
  Forall (λ x, p x = Ok (q x)) l → filterM p l = Ok (List.filter q l).
Proof.
  induction 1 as [|x l Hx Hl IH]; simpl; [done|].
  rewrite Hx, IH. simpl. by destruct (q x).
Qed.

Lemma someM_ok {A} (p : A → Outcome bool) (q : A → bool) (l : list A) :
  Forall (λ x, p x = Ok (q x)) l → someM p l = Ok (some q l).
Proof.
  induction 1 as [|x l Hx Hl IH]; simpl; [done|].
  rewrite Hx. simpl. by destruct (q x).
Qed.

Lemma someM_map_ok {A B} (g : A → B) (p : B → Outcome bool) (q : A → bool)
    (l : list A) :
  (∀ x, p (g x) = Ok (q x)) → someM p (map g l) = Ok (some q l).
Proof.
  intros Hp. induction l as [|x l IH]; simpl; [done|].
  rewrite Hp. simpl. by destruct (q x).
Qed.

Lemma mapM_ok {A B} (f : A → Outcome B) (g : A → B) (l : list A) :
  Forall (λ x, f x = Ok (g x)) l → mapM f l = Ok (map g l).
Proof.
  induction 1 as [|x l Hx Hl IH]; simpl; [done|]. by rewrite Hx, IH.
Qed.

Lemma foldM_ok {A B} (step : B → A → Outcome B) (pure : B → A → B)
    (init : B) (l : list A) :
  Forall (λ x, ∀ acc, step acc x = Ok (pure acc x)) l →
  foldM step init l = Ok (foldl pure init l).
Proof.
  intros Hl. revert init. induction Hl as [|x l Hx Hl IH]; intros init; simpl; [done|].
  rewrite Hx. simpl. apply IH.
Qed.

Lemma sort_insertM_ok {A} (cmpM : A → A → Outcome Z) (cmp : A → A → Z)
    (x : A) (l : list A) :
  Forall (λ y, cmpM x y = Ok (cmp x y)) l →
  sort_insertM cmpM x l = Ok (sort_insert cmp x l).
Proof.
  induction 1 as [|y l Hy Hl IH]; simpl; [done|].
  rewrite Hy. simpl. destruct (cmp x y <=? 0); [done|]. by rewrite IH.
Qed.

Lemma sortM_ok {A} (cmpM : A → A → Outcome Z) (cmp : A → A → Z) (l : list A) :
  (∀ x y, x ∈ l → y ∈ l → cmpM x y = Ok (cmp x y)) →
  sortM cmpM l = Ok (sort cmp l).
Proof.
  induction l as [|x l IH]; intros Hcmp; simpl; [done|].
  rewrite IH by (intros; apply Hcmp; by apply list_elem_of_further).
  simpl. apply sort_insertM_ok. apply Forall_forall. intros y Hy.
  apply Hcmp; [apply list_elem_of_here|].
  apply list_elem_of_further. by rewrite sort_perm in Hy.
Qed.

(** Sorting and filtering commute with a change of representation. *)
Lemma sort_insert_map {A B} (g : A → B) (cmp : B → B → Z) (x : A) (l : list A) :
  map g (sort_insert (λ a b, cmp (g a) (g b)) x l) = sort_insert cmp (g x) (map g l).
Proof.
  induction l as [|y l IH]; simpl; [done|].
  destruct (cmp (g x) (g y) <=? 0); simpl; [done|]. by rewrite IH.
Qed.

Lemma sort_map {A B} (g : A → B) (cmp : B → B → Z) (l : list A) :
  map g (sort (λ a b, cmp (g a) (g b)) l) = sort cmp (map g l).
Proof.
  induction l as [|x l IH]; [done|].
  unfold sort in *. simpl. by rewrite sort_insert_map, IH.
Qed.

Lemma filter_map {A B} (g : A → B) (q : B → bool) (l : list A) :
  map g (List.filter (λ a, q (g a)) l) = List.filter q (map g l).
Proof.
  induction l as [|x l IH]; simpl; [done|].
  destruct (q (g x)); simpl; by rewrite IH.
Qed.

Lemma foldl_map {A B C} (g : A → B) (step : C → B → C) (init : C) (l : list A) :
  foldl (λ acc x, step acc (g x)) init l = foldl step init (map g l).
Proof. revert init. induction l as [|x l IH]; intros init; simpl; [done|]. apply IH. Qed.

(** *** The declared shape *)

Lemma stringsOf_map (elements : list Json) (l : list string) :
  stringsOf elements = Some l → elements = map JString l.
Proof.
  revert l. induction elements as [|e elements IH]; intros l; simpl.
  - by intros [= <-].
  - destruct e; try done. destruct (stringsOf elements) as [l'|]; [|done].
    intros [= <-]. simpl. by rewrite (IH l').
Qed.

Lemma stringsOf_strings (l : list string) : stringsOf (map JString l) = Some l.
Proof. induction l as [|x l IH]; simpl; [done|]. by rewrite IH. Qed.

Lemma existsb_isString (x : string) (l : list string) :
  existsb (isString x) (map JString l) = Array_includes x l.
Proof.
  unfold Array_includes. induction l as [|y l IH]; simpl; [done|].
  rewrite IH. destruct (String.eqb_spec y x) as [->|Hne].
  - simpl. symmetry. apply bool_decide_eq_true_2, list_elem_of_here.
  - simpl. apply bool_decide_ext. rewrite elem_of_cons.
    split; [by right|]. by intros [->|?].
Qed.

Lemma optionalStrings_inv (value : option Json) (o : option (list string)) :
  optionalStrings value = Some o →
  (o = None ∧ nullish value = true ∧ truthy value = false)
  ∨ (∃ l, o = Some l ∧ value = Some (JArray (map JString l))).
Proof.
  destruct value as [[]|]; simpl; try done; try (intros [= <-]; by left).
  destruct (stringsOf elements) as [l|] eqn:Hl; [|done].
  intros [= <-]. right. exists l. by rewrite (stringsOf_map _ _ Hl).
Qed.

Lemma optionalString_inv (value : option Json) (o : option string) :
  optionalString value = Some o →
  (o = None ∧ nullish value = true ∧ truthy value = false)
  ∨ (∃ s, o = Some s ∧ value = Some (JString s)).
Proof.
  destruct value as [[]|]; simpl; try done; intros [= <-]; (by left) || (right; by eexists).
Qed.

Lemma metadataOfJson_inv (value : Json) (m : Metadata) :
  metadataOfJson value = Some m →
  ∃ properties, value = JObject properties
    ∧ optionalStrings (lookup "labels" properties) = Some (labels m)
    ∧ optionalString (lookup "priority" properties) = Some (priority m)
    ∧ optionalString (lookup "state" properties) = Some (state m).
Proof.
  destruct value; simpl; try done.
  destruct (optionalStrings _) as [ls|] eqn:Hls; [|done].
  destruct (optionalString (lookup "priority" _)) as [p|] eqn:Hp; [|done].
  destruct (optionalString (lookup "state" _)) as [st|] eqn:Hst; [|done].
  simpl. intros [= <-]. by exists properties.
Qed.

Lemma metadataOfJson_jsonOfMetadata (m : Metadata) :
  metadataOfJson (jsonOfMetadata m) = Some m.
Proof.
  destruct m as [[ls|] [p|] [st|]]; simpl; rewrite ?stringsOf_strings; done.
Qed.

Lemma typed_rawOfItem (f : FeedbackItem) : typed (rawOfItem f) = Some f.
Proof.
  unfold typed.
  change (raw_metadata (rawOfItem f)) with (jsonOfMetadata (metadata f)).
  rewrite metadataOfJson_jsonOfMetadata. by destruct f.
Qed.

Lemma asDeclared_typed (f : RawItem) (t : FeedbackItem) :
  typed f = Some t → asDeclared f = t.
Proof.
  unfold typed, asDeclared. destruct (metadataOfJson _) as [m|]; [|done].
  by intros [= <-].
Qed.

Lemma shaped_typed (f : RawItem) : shaped f → typed f = Some (asDeclared f).
Proof.
  unfold shaped, typed, asDeclared. by intros [m ->].
Qed.

Lemma asDeclared_rawOfItem (f : FeedbackItem) : asDeclared (rawOfItem f) = f.
Proof. apply asDeclared_typed, typed_rawOfItem. Qed.

Lemma shaped_rawOfItem (f : FeedbackItem) : shaped (rawOfItem f).
Proof.
  unfold shaped.
  change (raw_metadata (rawOfItem f)) with (jsonOfMetadata (metadata f)).
  by rewrite metadataOfJson_jsonOfMetadata.
Qed.

Lemma map_asDeclared_rawOfItem (l : list FeedbackItem) :
  map asDeclared (map rawOfItem l) = l.
Proof.
  induction l as [|f l IH]; simpl; [done|]. by rewrite asDeclared_rawOfItem, IH.
Qed.


(** *** The classifier agrees with the typed reading on the declared shape *)

Lemma typed_inv (f : RawItem) (t : FeedbackItem) :
  typed f = Some t →
  t = {| id := raw_id f; source_type := raw_source_type f;
         source_id := raw_source_id f; title := raw_title f;
         content := raw_content f; author := raw_author f;
         created_at := raw_created_at f; metadata := metadata t |}
  ∧ ∃ properties, raw_metadata f = JObject properties
      ∧ optionalStrings (lookup "labels" properties) = Some (labels (metadata t))
      ∧ optionalString (lookup "priority" properties) = Some (priority (metadata t))
      ∧ optionalString (lookup "state" properties) = Some (state (metadata t)).
Proof.
  unfold typed. destruct (metadataOfJson _) as [m|] eqn:Hm; [|done].
  intros [= <-]. split; [done|]. by apply metadataOfJson_inv.
Qed.

Lemma or_else_falsy (value : option Json) (fallback : Json) :
  truthy value = false → or_else value fallback = fallback.
Proof. unfold or_else. destruct value; [|done]. by intros ->. Qed.

Lemma includes_of_strings (l : list string) (x : string) :
  includes_of (JArray (map JString l)) x = Ok (Array_includes x l).
Proof. simpl. by rewrite existsb_isString. Qed.

Lemma equals_typed (value : option Json) (o : option string) (x : string) :
  optionalString value = Some o → equals x value = bool_decide (o = Some x).
Proof.
  intros [(-> & Hn & _)|(s & -> & ->)]%optionalString_inv.
  - destruct value as [[]|]; done.
  - simpl. destruct (String.eqb_spec s x) as [->|Hne].
    + by rewrite bool_decide_eq_true_2.
    + rewrite bool_decide_eq_false_2; [done|]. by intros [= ->].
Qed.

Lemma labels_or_empty_typed (f : RawItem) (t : FeedbackItem) :
  typed f = Some t →
  Raw.labels_or_empty f = Ok (JArray (map JString (labels_or_empty t))).
Proof.
  intros (_ & properties & Hmeta & Hls & _)%typed_inv.
  unfold Raw.labels_or_empty, labels_or_empty. rewrite Hmeta. simpl.
  apply optionalStrings_inv in Hls as [(-> & _ & Hfalsy)|(l & -> & ->)].
  - by rewrite or_else_falsy.
  - done.
Qed.

Lemma labels_include_typed (x : string) (f : RawItem) (t : FeedbackItem) :
  typed f = Some t → Raw.labels_include x f = Ok (labels_include x t).
Proof.
  intros (_ & properties & Hmeta & Hls & _)%typed_inv.
  unfold Raw.labels_include, labels_include. rewrite Hmeta. simpl.
  apply optionalStrings_inv in Hls as [(-> & Hn & _)|(l & -> & ->)].
  - destruct (lookup "labels" properties); [by rewrite Hn|done].
  - simpl. by rewrite existsb_isString.
Qed.

Lemma calculateSeverity_typed (f : RawItem) (t : FeedbackItem) :
  typed f = Some t → Raw.calculateSeverity f = Ok (calculateSeverity t).
Proof.
  intros Ht. unfold Raw.calculateSeverity, calculateSeverity. cbv zeta.
  rewrite (labels_or_empty_typed f t Ht).
  destruct (typed_inv f t Ht) as (Hfields & properties & Hmeta & _ & Hp & _).
  rewrite Hmeta. unfold andThen at 1. rewrite !includes_of_strings.
  simpl. rewrite (equals_typed _ _ "high" Hp).
  destruct (bool_decide (priority (metadata t) = Some "high")); simpl;
    rewrite Hfields; simpl; done.
Qed.

Lemma isCriticalFeedback_typed (f : RawItem) (t : FeedbackItem) :
  typed f = Some t → Raw.isCriticalFeedback f = Ok (isCriticalFeedback t).
Proof.
  intros Ht. unfold Raw.isCriticalFeedback, isCriticalFeedback. cbv zeta.
  rewrite (labels_or_empty_typed f t Ht).
  destruct (typed_inv f t Ht) as (Hfields & _).
  unfold andThen at 1.
  assert (content t = raw_content f ∧ title t = raw_title f) as [-> ->]
    by (rewrite Hfields; done).
  apply someM_ok, Forall_forall. intros keyword _.
  destruct (includes keyword (toLowerCase (raw_content f))
            || includes keyword (toLowerCase (raw_title f))); [done|].
  simpl. by apply someM_map_ok.
Qed.


Lemma categorizeOne_typed (f : RawItem) (t : FeedbackItem)
    (categories : list (string * Z)) :
  typed f = Some t → Raw.categorizeOne categories f = Ok (categorizeOne categories t).
Proof.
  intros Ht.
  destruct (typed_inv f t Ht) as (Hfields & properties & Hmeta & Hls & _).
  unfold Raw.categorizeOne, categorizeOne. cbv zeta. rewrite Hmeta. simpl get.
  unfold andThen at 1.
  assert (content t = raw_content f) as -> by (rewrite Hfields; done).
  apply optionalStrings_inv in Hls as [(-> & _ & Hfalsy)|(l & -> & ->)].
  - destruct (lookup "labels" properties); [by rewrite Hfalsy|done].
  - simpl truthy. cbv iota. simpl forEach_of.
    by rewrite <-(foldl_map JString (λ cs label, bump (toString label) cs)).
Qed.

Lemma isCriticalForSummary_typed (f : RawItem) (t : FeedbackItem) :
  typed f = Some t → Raw.isCriticalForSummary f = Ok (isCriticalForSummary t).
Proof.
  intros Ht. unfold Raw.isCriticalForSummary, isCriticalForSummary.
  rewrite !(labels_include_typed _ f t Ht).
  destruct (typed_inv f t Ht) as (Hfields & _).
  assert (content t = raw_content f) as -> by (rewrite Hfields; done).
  simpl. by destruct (labels_include "security" t).
Qed.

Lemma isFeatureRequest_typed (f : RawItem) (t : FeedbackItem) :
  typed f = Some t → Raw.isFeatureRequest f = Ok (isFeatureRequest t).
Proof.
  intros Ht. unfold Raw.isFeatureRequest, isFeatureRequest.
  rewrite (labels_include_typed _ f t Ht).
  destruct (typed_inv f t Ht) as (Hfields & properties & Hmeta & _ & _ & Hst).
  assert (content t = raw_content f ∧ source_type t = raw_source_type f) as [-> ->]
    by (rewrite Hfields; done).
  rewrite Hmeta. simpl get. unfold andThen at 2.
  rewrite (equals_typed _ _ "open" Hst).
  destruct (bool_decide (raw_source_type f = "github")); [|done].
  by destruct (bool_decide (state (metadata t) = Some "open")).
Qed.

Lemma contentOrLabel_typed (b : bool) (l : list string) (x : string) :
  Raw.contentOrLabel b (JArray (map JString l)) x = Ok (b || Array_includes x l).
Proof.
  unfold Raw.contentOrLabel. destruct b; [done|]. apply includes_of_strings.
Qed.

Lemma categorizeAdvancedOne_typed (rt : JsRuntime) (f : RawItem) (t : FeedbackItem)
    (categories : list Category) :
  typed f = Some t →
  Raw.categorizeAdvancedOne rt categories f = Ok (categorizeAdvancedOne rt categories t).
Proof.
  intros Ht. unfold Raw.categorizeAdvancedOne, categorizeAdvancedOne. cbv zeta.
  rewrite (labels_or_empty_typed f t Ht), (asDeclared_typed f t Ht).
  destruct (typed_inv f t Ht) as (Hfields & _).
  assert (content t = raw_content f) as -> by (rewrite Hfields; done).
  unfold andThen at 1. by rewrite !contentOrLabel_typed.
Qed.

Lemma toString_or_else_typed (value : option Json) (o : option string)
    (fallback : string) :
  optionalString value = Some o →
  toString (or_else value (JString fallback)) = or_default o fallback.
Proof.
  intros [(-> & _ & Hfalsy)|(s & -> & ->)]%optionalString_inv.
  - by rewrite or_else_falsy.
  - unfold or_else, or_default. simpl.
    destruct (String.eqb_spec s EmptyString) as [->|Hne]; simpl.
    + done.
    + by rewrite bool_decide_eq_false_2.
Qed.

Lemma describe_typed (f : RawItem) (t : FeedbackItem) :
  typed f = Some t →
  Raw.describe f
  = Ok (source_type t +:+ ": " +:+ title t +:+ " ("
        +:+ or_default (priority (metadata t)) "medium" +:+ ")").
Proof.
  intros Ht.
  destruct (typed_inv f t Ht) as (Hfields & properties & Hmeta & _ & Hp & _).
  unfold Raw.describe. rewrite Hmeta. simpl.
  rewrite (toString_or_else_typed _ _ "medium" Hp).
  assert (title t = raw_title f ∧ source_type t = raw_source_type f) as [-> ->]
    by (rewrite Hfields; done).
  done.
Qed.

(** *** Batches of the declared shape *)

Section Batches.
Context (rt : JsRuntime) (feedback : list RawItem).
Context (Hshaped : Forall shaped feedback).

Lemma typed_elem (f : RawItem) : f ∈ feedback → typed f = Some (asDeclared f).
Proof.
  intros Hf. apply shaped_typed. by apply (proj1 (Forall_forall _ _) Hshaped).
Qed.

Lemma extractCriticalIssues_typed :
  Raw.extractCriticalIssues rt feedback
  = Ok (extractCriticalIssues rt (map asDeclared feedback)).
Proof.
  unfold Raw.extractCriticalIssues, extractCriticalIssues, criticalRecords.
  rewrite (filterM_ok _ (λ f, isCriticalFeedback (asDeclared f))).
  2:{ apply Forall_forall. intros f Hf.
      by apply isCriticalFeedback_typed, typed_elem. }
  unfold andThen at 1.
  rewrite (sortM_ok _ (λ a b, bySeverityThenRecency rt (asDeclared a) (asDeclared b))).
  2:{ intros a b Ha%list_elem_of_In%filter_In Hb%list_elem_of_In%filter_In.
      destruct Ha as [Ha%list_elem_of_In _], Hb as [Hb%list_elem_of_In _].
      unfold Raw.bySeverityThenRecency, bySeverityThenRecency.
      rewrite (calculateSeverity_typed a _ (typed_elem a Ha)).
      rewrite (calculateSeverity_typed b _ (typed_elem b Hb)). done. }
  unfold andThen, slice0. f_equal.
  by rewrite <-filter_map, <-sort_map, firstn_map, map_map.
Qed.

Lemma categorizeFeedback_typed :
  Raw.categorizeFeedback feedback = Ok (categorizeFeedback (map asDeclared feedback)).
Proof.
  unfold Raw.categorizeFeedback, categorizeFeedback.
  rewrite (foldM_ok _ (λ cs f, categorizeOne cs (asDeclared f))).
  2:{ apply Forall_forall. intros f Hf cs.
      by apply categorizeOne_typed, typed_elem. }
  simpl. by rewrite foldl_map.
Qed.

Lemma countIf_typed (p : RawItem → Outcome bool) (q : FeedbackItem → bool) :
  (∀ f t, typed f = Some t → p f = Ok (q t)) →
  Raw.countIf p feedback = Ok (countIf q (map asDeclared feedback)).
Proof.
  intros Hp. unfold Raw.countIf, countIf.
  rewrite (filterM_ok _ (λ f, q (asDeclared f))).
  2:{ apply Forall_forall. intros f Hf. by apply Hp, typed_elem. }
  simpl. by rewrite <-filter_map, length_map.
Qed.

Lemma generatePriorityMatrix_typed :
  Raw.generatePriorityMatrix rt feedback
  = Ok (generatePriorityMatrix rt (map asDeclared feedback)).
Proof.
  unfold Raw.generatePriorityMatrix, generatePriorityMatrix,
    Raw.categorizeFeedbackAdvanced, categorizeFeedbackAdvanced.
  rewrite (foldM_ok _ (λ cs f, categorizeAdvancedOne rt cs (asDeclared f))).
  2:{ apply Forall_forall. intros f Hf cs.
      by apply categorizeAdvancedOne_typed, typed_elem. }
  simpl. by rewrite foldl_map.
Qed.

Lemma describe_batch_typed (n : nat) :
  mapM Raw.describe (slice0 n feedback)
  = Ok (map (λ f, source_type f +:+ ": " +:+ title f +:+ " ("
                  +:+ or_default (priority (metadata f)) "medium" +:+ ")")
            (slice0 n (map asDeclared feedback))).
Proof.
  unfold slice0. rewrite firstn_map, map_map.
  apply mapM_ok, Forall_forall. intros f Hf.
  apply describe_typed, typed_elem.
  rewrite <-(take_drop n feedback). apply elem_of_app. by left.
Qed.
End Batches.


Lemma bind_cong {A B} (m m' : M A) (k k' : A → M B) (w : World) :
  (∀ w, m w = m' w) → (∀ a w, k a w = k' a w) → bind m k w = bind m' k' w.
Proof.
  intros Hm Hk. unfold bind. rewrite Hm.
  destruct (m' w) as [[a|e] w']; [apply Hk|done].
Qed.

Lemma try_catch_cong {A} (m m' : M A) (h : string → M A) (w : World) :
  (∀ w, m w = m' w) → try_catch m h w = try_catch m' h w.
Proof. intros Hm. unfold try_catch. by rewrite Hm. Qed.

Section Enrichment.
Context (rt : JsRuntime) (out : Outside) (feedback : list RawItem).
Context (Hshaped : Forall shaped feedback).

Lemma analyzeFeedbackSummary_typed (w : World) :
  Raw.analyzeFeedbackSummary rt out feedback w
  = analyzeFeedbackSummary rt out (map asDeclared feedback) w.
Proof.
  unfold Raw.analyzeFeedbackSummary, analyzeFeedbackSummary. cbv zeta.
  rewrite (categorizeFeedback_typed feedback Hshaped).
  rewrite (countIf_typed feedback Hshaped _ _ isCriticalForSummary_typed).
  rewrite (countIf_typed feedback Hshaped _ _ isFeatureRequest_typed).
  rewrite length_map, map_map. reflexivity.
Qed.

Lemma generateAdvancedRecommendations_typed (sentimentAnalysis : SentimentAnalysis)
    (w : World) :
  Raw.generateAdvancedRecommendations out feedback sentimentAnalysis w
  = generateAdvancedRecommendations out (map asDeclared feedback) sentimentAnalysis w.
Proof.
  unfold Raw.generateAdvancedRecommendations, generateAdvancedRecommendations.
  cbv zeta. rewrite (describe_batch_typed feedback Hshaped). reflexivity.
Qed.

Lemma generateInsights_typed (w : World) :
  Raw.generateInsights rt out feedback w
  = generateInsights rt out (map asDeclared feedback) w.
Proof.
  unfold Raw.generateInsights, generateInsights. cbv zeta.
  rewrite (extractCriticalIssues_typed rt feedback Hshaped).
  rewrite (generatePriorityMatrix_typed rt feedback Hshaped).
  change (bind (lift (Ok ?a)) ?k w) with (k a w). cbv beta.
  apply bind_cong; [done|]. intros sentiment w1.
  apply bind_cong; [done|]. intros matrix w2.
  apply bind_cong; [done|]. intros journeys w3.
  apply bind_cong; [done|]. intros topics w4.
  apply bind_cong; [|done]. intros w5.
  apply try_catch_cong. apply generateAdvancedRecommendations_typed.
Qed.
End Enrichment.

End RawFacts.

(** ** The aggregator's orchestration *)

Module OrchestrationFacts.
Import Js JsFacts FreeTier Async Gateway Dynamic Aggregator Reference AsyncFacts RawFacts.
Local Open Scope async_scope.

Lemma triple_pure {A} (φ : Prop) (Pre : World → Prop) (m : M A)
    (Post : A → World → Prop) (Caught : string → World → Prop) :
  (φ → triple Pre m Post Caught) → triple (λ w, φ ∧ Pre w) m Post Caught.
Proof. intros Hm w [Hφ Hw]. by apply Hm. Qed.

Lemma triple_lift_ok {A} (Pre : World → Prop) (a : A)
    (Caught : string → World → Prop) :
  triple Pre (lift (Ok a)) (λ _ w, Pre w) Caught.
Proof. by apply triple_lift. Qed.

Lemma triple_try_ret {A} (Pre : World → Prop) (a : A) (h : string → M A)
    (Post : A → World → Prop) (Caught : string → World → Prop) :
  (∀ w, Pre w → Post a w) → triple Pre (try_catch (ret a) h) Post Caught.
Proof. intros H w Hw. simpl. by apply H. Qed.

(** A fact about the value alone can be taken out of a precondition. *)
Lemma triple_pure_post {A} (φ : Prop) (m : M A)
    (Post : A → World → Prop) (Caught : string → World → Prop) :
  (φ → triple (λ _, True) m Post Caught) → triple (λ _, φ) m Post Caught.
Proof. intros Hm w Hφ. by apply Hm. Qed.

Lemma estimateTokens_nonneg (text : string) : 0 ≤ estimateTokens text.
Proof. unfold estimateTokens. apply Z.div_pos; lia. Qed.

Section Blocked.
Context (rt : JsRuntime) (out : Outside).

(** With the budget used up, the check denies and changes nothing but
    the count of interactions. *)
Lemma canMakeAIRequest_blocked (n : Z) :
  0 ≤ n →
  triple (quotaExhausted out) (canMakeAIRequest out n)
         (λ allowed w, allowed = false ∧ quotaExhausted out w) (λ _ _, False).
Proof.
  intros Hn w (e & He & Hcount & Hday). rewrite canMakeAIRequest_run.
  unfold FreeTier.canMakeAIRequest, resetIfNewWindow, usage. simpl.
  rewrite He, bool_decide_eq_true_2 by done. rewrite He. simpl. split.
  - apply Z.ltb_ge. lia.
  - by exists e.
Qed.

Lemma analyzeSentimentTrends_blocked (feedback : list FeedbackItem) :
  triple (quotaExhausted out) (analyzeSentimentTrends rt out feedback)
         (λ a w, a = SentimentBlocked ∧ quotaExhausted out w) (λ _ _, False).
Proof.
  unfold analyzeSentimentTrends.
  eapply triple_bind; [by apply canMakeAIRequest_blocked|].
  intros allowed. apply triple_pure. intros ->. simpl. by apply triple_ret.
Qed.

Lemma extractAdvancedTrendingTopics_blocked (feedback : list FeedbackItem) :
  triple (quotaExhausted out) (extractAdvancedTrendingTopics out feedback)
         (λ a w, a = defaultTrendingTopics ∧ quotaExhausted out w) (λ _ _, False).
Proof.
  unfold extractAdvancedTrendingTopics. cbv zeta.
  eapply triple_bind; [apply canMakeAIRequest_blocked, estimateTokens_nonneg|].
  intros allowed. apply triple_pure. intros ->. simpl. by apply triple_ret.
Qed.

Lemma generateAdvancedRecommendations_blocked (feedback : list FeedbackItem) :
  triple (quotaExhausted out)
         (generateAdvancedRecommendations out feedback SentimentBlocked)
         (λ a w, a = defaultRecommendations ∧ quotaExhausted out w) (λ _ _, False).
Proof.
  unfold generateAdvancedRecommendations. cbv zeta.
  eapply triple_bind; [apply (triple_lift_ok (quotaExhausted out))|]. intros overall.
  eapply triple_bind; [apply (triple_lift_ok (quotaExhausted out))|]. intros urgency.
  eapply triple_bind; [apply canMakeAIRequest_blocked, estimateTokens_nonneg|].
  intros allowed. apply triple_pure. intros ->. simpl. by apply triple_ret.
Qed.

Lemma generateInsights_blocked (feedback : list FeedbackItem) :
  triple (quotaExhausted out) (generateInsights rt out feedback)
         (λ a w, a = blockedInsights rt feedback ∧ quotaExhausted out w)
         (λ _ _, False).
Proof.
  unfold generateInsights. cbv zeta.
  eapply triple_bind.
  { eapply triple_try_catch; [apply analyzeSentimentTrends_blocked|done]. }
  intros sentiment. apply triple_pure. intros ->.
  eapply triple_bind.
  { apply (triple_try_ret _ _ _ (λ a w, a = generatePriorityMatrix rt feedback
                                        ∧ quotaExhausted out w)). done. }
  intros matrix. apply triple_pure. intros ->.
  eapply triple_bind.
  { apply (triple_try_ret _ _ _ (λ a w, a = analyzeUserJourneys feedback
                                        ∧ quotaExhausted out w)). done. }
  intros journeys. apply triple_pure. intros ->.
  eapply triple_bind.
  { eapply triple_try_catch; [apply extractAdvancedTrendingTopics_blocked|done]. }
  intros topics. apply triple_pure. intros ->.
  eapply triple_bind.
  { eapply triple_try_catch; [apply generateAdvancedRecommendations_blocked|done]. }
  intros recs. apply triple_pure. intros ->.
  eapply triple_bind.
  { apply (triple_try_ret _ _ _
             (λ a w, a = generateDynamicPriorityActions feedback
                           (generatePriorityMatrix rt feedback)
                     ∧ quotaExhausted out w)). done. }
  intros actions. apply triple_pure. intros ->.
  by apply triple_ret.
Qed.
End Blocked.

(** C9: with the AI path disabled (the day's budget is used up, so every
    quota check denies), the insights computed from a batch do not depend
    on the run: any two runs, whatever the AI Gateway, the cache, the
    store or the moment, return the same insights, made of the fixed
    fallbacks and of the rule-based functions of the batch; and the
    budget is still used up afterwards. *)
Theorem generateInsights_deterministic_when_blocked
    (rt : JsRuntime) (out1 out2 : Outside) (w1 w2 : World)
    (feedback : list FeedbackItem) :
  quotaExhausted out1 w1 → quotaExhausted out2 w2 →
  (generateInsights rt out1 feedback w1).1 = (generateInsights rt out2 feedback w2).1
  ∧ (generateInsights rt out1 feedback w1).1 = Ok (blockedInsights rt feedback)
  ∧ quotaExhausted out1 (generateInsights rt out1 feedback w1).2.
Proof.
  intros H1 H2.
  destruct (triple_returns _ _ _ w1 (generateInsights_blocked rt out1 feedback) H1)
    as (a1 & w1' & Hrun1 & -> & Hq1).
  destruct (triple_returns _ _ _ w2 (generateInsights_blocked rt out2 feedback) H2)
    as (a2 & w2' & Hrun2 & -> & Hq2).
  rewrite Hrun1, Hrun2. done.
Qed.

(** *** The write path and the cache *)

Section WritePath.
Context (rt : JsRuntime) (out : Outside).

Lemma storeAll_cache (c : gmap string CacheEntry) (processedAt : string)
    (batch : list FeedbackItem) :
  triple (λ w, CACHE w = c) (storeAll rt out processedAt batch)
         (λ _ w, CACHE w = c) (λ _ w, CACHE w = c).
Proof.
  induction batch as [|item rest IH]; simpl; [by apply triple_ret|].
  eapply (triple_bind _ _ _ (λ _ w, CACHE w = c)); [|intros ?; exact IH].
  intros w Hw. rewrite DB_insertOrReplace_run. by destruct (dbFault _ _).
Qed.

Lemma CACHE_delete_cache (c : gmap string CacheEntry) (key : string) :
  triple (λ w, CACHE w = c) (CACHE_delete out key)
         (λ _ w, CACHE w = delete key c) (λ _ _, True).
Proof.
  intros w Hw. rewrite CACHE_delete_run.
  destruct (cacheFault _ _); simpl; by rewrite ?Hw.
Qed.

(** A successful [processFeedbackDirectly] removes exactly the entries
    under ["feedback:summary"] and ["feedback:insights"]. *)
Lemma processFeedbackDirectly_cache (c : gmap string CacheEntry)
    (batch : list FeedbackItem) :
  triple (λ w, CACHE w = c) (processFeedbackDirectly rt out batch)
         (λ _ w, CACHE w = delete "feedback:insights" (delete "feedback:summary" c))
         (λ _ _, True).
Proof.
  unfold processFeedbackDirectly.
  eapply (triple_bind _ _ _ (λ _ w, CACHE w = c)); [intros w Hw; exact Hw|].
  intros processedAt.
  eapply (triple_bind _ _ _ (λ _ w, CACHE w = c)).
  { eapply triple_weaken; [apply (storeAll_cache c)|done..]. }
  intros ?.
  eapply (triple_bind _ _ _ (λ _ w, CACHE w = delete "feedback:summary" c));
    [apply CACHE_delete_cache|].
  intros ?. apply CACHE_delete_cache.
Qed.

Lemma getInsights_hit (w : World) (e : CacheEntry) :
  CACHE w !! "feedback:insights:v2" = Some e →
  cacheFault out (steps w) = false →
  getInsights rt out w = (Ok (payload e), ticked w).
Proof.
  intros He Hup. unfold getInsights, bind. cbv zeta.
  rewrite CACHE_get_run, Hup, He. done.
Qed.
End WritePath.

(** C1 fails on the code: after a successful [processFeedbackDirectly]
    the summary entry is gone, but an entry that [getInsights] reads, under
    ["feedback:insights:v2"], is still there, and the next [getInsights]
    returns the payload cached before the write. *)
Theorem upsert_keeps_stale_insights
    (rt : JsRuntime) (out : Outside) (batch : list FeedbackItem)
    (w w' : World) (e : CacheEntry) :
  processFeedbackDirectly rt out batch w = (Ok tt, w') →
  CACHE w !! "feedback:insights:v2" = Some e →
  cacheFault out (steps w') = false →
  CACHE w' !! "feedback:summary" = None
  ∧ CACHE w' !! "feedback:insights:v2" = Some e
  ∧ (getInsights rt out w').1 = Ok (payload e).
Proof.
  intros Hrun He Hup.
  pose proof (processFeedbackDirectly_cache rt out (CACHE w) batch w eq_refl) as Hc.
  rewrite Hrun in Hc.
  assert (CACHE w' !! "feedback:insights:v2" = Some e) as He'.
  { rewrite Hc. by rewrite !lookup_delete_ne. }
  split; [|split; [done|]].
  - rewrite Hc. rewrite lookup_delete_ne by done. apply lookup_delete_eq.
  - by rewrite (getInsights_hit rt out w' e).
Qed.

(** *** Answers when the Data Gateway or the AI Gateway fail *)

Section Degradation.
Context (rt : JsRuntime) (out : Outside).

Lemma triple_ext {A} (Pre : World → Prop) (m m' : M A)
    (Post : A → World → Prop) (Caught : string → World → Prop) :
  (∀ w, m w = m' w) → triple Pre m' Post Caught → triple Pre m Post Caught.
Proof. intros Hm Ht w Hw. rewrite Hm. by apply Ht. Qed.

Lemma itemsOfRows_wellFormed (rows : list Row) (items : list RawItem) :
  itemsOfRows rt rows = Ok items →
  Forall (rowWellFormed rt) rows → wellFormedBatch rt items.
Proof.
  revert items. induction rows as [|row rows IH]; intros items; simpl.
  - intros [= <-] _. by split.
  - unfold itemOfRow.
    destruct (JSON_parse rt _) as [value|] eqn:Hvalue; [|done].
    destruct (itemsOfRows rt rows) as [rest|]; [|done].
    intros [= <-] [(Hdate & _ & value' & Hvalue' & Hshape) Hrows]%Forall_cons.
    destruct (IH rest eq_refl Hrows) as [Hshaped Hdates].
    rewrite Hvalue in Hvalue'. injection Hvalue' as <-.
    split; constructor; done.
Qed.

Lemma getFeedbackFromDB_wellFormed :
  triple (storeWellFormed rt) (getFeedbackFromDB rt out)
         (λ items _, wellFormedBatch rt items) (λ _ _, False).
Proof.
  unfold getFeedbackFromDB.
  eapply (triple_try_catch _ _ _ _ (λ _ _, True));
    [|intros; apply triple_ret; by split].
  eapply (triple_bind _ _ _ (λ rows _, Forall (rowWellFormed rt) rows)).
  - intros w Hw. rewrite DB_selectAll_run. destruct (dbFault _ _); [done|].
    by rewrite sort_perm.
  - intros rows. apply triple_lift. intros w Hrows.
    destruct (itemsOfRows rt rows) as [items|] eqn:Hitems; [|done].
    by eapply itemsOfRows_wellFormed.
Qed.

Lemma seed_wellFormed :
  Forall (validDate rt) mockFeedback →
  wellFormedBatch rt (map rawOfItem mockFeedback).
Proof.
  intros Hseed. split.
  - apply Forall_forall. intros f [t [-> _]]%list_elem_of_fmap.
    apply shaped_rawOfItem.
  - by rewrite map_asDeclared_rawOfItem.
Qed.

Lemma aggregateAllFeedback_wellFormed :
  Forall (validDate rt) mockFeedback →
  triple (storeWellFormed rt) (aggregateAllFeedback rt out)
         (λ items _, wellFormedBatch rt items) (λ _ _, False).
Proof.
  intros Hseed. unfold aggregateAllFeedback.
  eapply (triple_bind _ _ _ (λ items _, wellFormedBatch rt items));
    [apply getFeedbackFromDB_wellFormed|].
  intros dbFeedback. destruct (0 <? length dbFeedback)%nat.
  - by apply triple_ret.
  - eapply (triple_try_catch _ _ _ _ (λ _ _, True));
      [|intros; apply triple_ret; by split].
    eapply triple_bind; [apply triple_any|]. intros ?.
    apply triple_ret. intros _ _. by apply seed_wellFormed.
Qed.

Lemma safe_aggregateAllFeedback : safe (aggregateAllFeedback rt out).
Proof.
  unfold aggregateAllFeedback, getFeedbackFromDB. auto 6 with safe.
Qed.

Lemma safe_analyzeSentiment (feedback : list FeedbackItem) :
  safe (analyzeSentiment out feedback).
Proof.
  unfold analyzeSentiment. cbv zeta. auto 6 with safe.
Qed.

Lemma computeDateRange_valid (feedback : list FeedbackItem) :
  Forall (validDate rt) feedback → ∃ range, computeDateRange rt feedback = Ok range.
Proof.
  intros Hvalid. unfold computeDateRange. cbv zeta.
  match goal with |- context [head ?l] => set (dates := l) end.
  assert (Forall is_Some dates) as Hdates.
  { unfold dates. rewrite sort_perm. by apply Forall_fmap. }
  destruct (head dates) as [first|] eqn:Hhead; [|by eexists].
  destruct (last dates) as [final|] eqn:Hlast; [|by eexists].
  apply head_Some_elem_of in Hhead. apply last_Some_elem_of in Hlast.
  destruct (proj1 (Forall_forall _ _) Hdates _ Hhead) as [x ->].
  destruct (proj1 (Forall_forall _ _) Hdates _ Hlast) as [y ->].
  by eexists.
Qed.

Lemma analyzeFeedbackSummary_returns (feedback : list FeedbackItem) :
  Forall (validDate rt) feedback → safe (analyzeFeedbackSummary rt out feedback).
Proof.
  intros [range Hrange]%computeDateRange_valid.
  unfold analyzeFeedbackSummary. cbv zeta. rewrite Hrange.
  apply safe_bind; [by apply triple_lift|]. intros dateRange.
  apply safe_bind; [apply safe_analyzeSentiment|]. intros sentiment.
  apply safe_ret.
Qed.

(** Every stage of [generateInsights] is caught, so on records of the
    declared shape it always answers. *)
Lemma safe_generateInsights (feedback : list FeedbackItem) :
  safe (generateInsights rt out feedback).
Proof.
  unfold generateInsights. cbv zeta. auto 20 with safe.
Qed.

Lemma raw_analyzeFeedbackSummary_returns (feedback : list RawItem) :
  wellFormedBatch rt feedback → safe (Raw.analyzeFeedbackSummary rt out feedback).
Proof.
  intros [Hshaped Hdates].
  eapply triple_ext; [apply (analyzeFeedbackSummary_typed rt out feedback Hshaped)|].
  by apply analyzeFeedbackSummary_returns.
Qed.

Lemma raw_generateInsights_returns (feedback : list RawItem) :
  Forall shaped feedback → safe (Raw.generateInsights rt out feedback).
Proof.
  intros Hshaped.
  eapply triple_ext; [apply (generateInsights_typed rt out feedback Hshaped)|].
  apply safe_generateInsights.
Qed.

(** What the Cache Gateway's get and put let through. *)
Lemma CACHE_get_escapes (Inv : list Row → Prop) (key : string) :
  triple (λ w, Inv (FEEDBACK_DB w)) (CACHE_get out key)
         (λ _ w, Inv (FEEDBACK_DB w)) (cacheFailure out).
Proof.
  intros w Hw. rewrite CACHE_get_run.
  destruct (cacheFault out (steps w)) eqn:Hfault; [|done].
  split; [by left|done].
Qed.

Lemma CACHE_put_escapes (key : string) (value : Payload) (ttl : Z) :
  triple (λ _, True) (CACHE_put out key value ttl) (λ _ _, True) (cacheFailure out).
Proof.
  intros w _. rewrite CACHE_put_run.
  destruct (cacheFault out (steps w)) eqn:Hfault; [|done].
  split; [by right|done].
Qed.

Lemma safe_escapes {A} (Pre : World → Prop) (m : M A) :
  triple Pre m (λ _ _, True) (λ _ _, False) →
  triple Pre m (λ _ _, True) (cacheFailure out).
Proof. intros Hm. eapply triple_weaken; [exact Hm|done..]. Qed.

Lemma getSummary_escapes :
  Forall (validDate rt) mockFeedback →
  triple (storeWellFormed rt) (getSummary rt out) (λ _ _, True) (cacheFailure out).
Proof.
  intros Hseed. unfold getSummary. cbv zeta.
  eapply triple_bind; [apply (CACHE_get_escapes (Forall (rowWellFormed rt)))|].
  intros [hit|]; [by apply triple_ret|].
  eapply (triple_bind _ _ _ (λ items _, wellFormedBatch rt items)).
  { eapply triple_weaken; [by apply aggregateAllFeedback_wellFormed|done..]. }
  intros allFeedback.
  apply (triple_pure_post (wellFormedBatch rt allFeedback)). intros Hbatch.
  eapply triple_bind.
  { by apply safe_escapes, raw_analyzeFeedbackSummary_returns. }
  intros summary.
  eapply triple_bind; [apply CACHE_put_escapes|].
  intros ?. by apply triple_ret.
Qed.

Lemma getInsights_escapes :
  Forall (validDate rt) mockFeedback →
  triple (storeWellFormed rt) (getInsights rt out) (λ _ _, True) (cacheFailure out).
Proof.
  intros Hseed. unfold getInsights. cbv zeta.
  eapply triple_bind; [apply (CACHE_get_escapes (Forall (rowWellFormed rt)))|].
  intros [hit|]; [by apply triple_ret|].
  eapply (triple_bind _ _ _ (λ items _, wellFormedBatch rt items)).
  { eapply triple_weaken; [by apply aggregateAllFeedback_wellFormed|done..]. }
  intros allFeedback.
  apply (triple_pure_post (wellFormedBatch rt allFeedback)). intros [Hshaped _].
  eapply triple_bind.
  { by apply safe_escapes, raw_generateInsights_returns. }
  intros insights.
  eapply triple_bind; [apply CACHE_put_escapes|].
  intros ?. by apply triple_ret.
Qed.

Lemma parseItemMetadata_row (r : Row) :
  metadataReadable rt r → Visualizer.parseItemMetadata rt (Visualizer.OfRow r) = Ok tt.
Proof.
  unfold metadataReadable, Visualizer.parseItemMetadata.
  destruct (row_metadata r) as [text|]; [|done]. by intros [m ->].
Qed.

Lemma parseItemMetadata_shaped (f : RawItem) :
  shaped f → Visualizer.parseItemMetadata rt (Visualizer.OfItem f) = Ok tt.
Proof.
  unfold shaped, Visualizer.parseItemMetadata.
  destruct (raw_metadata f); simpl; by intros [m Hm].
Qed.

Lemma isNetworkFeedback_shaped (f : RawItem) :
  shaped f → ∃ b, Visualizer.isNetworkFeedback f = Ok b.
Proof.
  intros Hf%shaped_typed. unfold Visualizer.isNetworkFeedback.
  destruct (_ || _); [by eexists|].
  destruct (typed_inv _ _ Hf) as (_ & properties & -> & Hls & _). simpl.
  apply optionalStrings_inv in Hls as [(_ & Hn & _)|(l & _ & ->)].
  - destruct (lookup "labels" properties); [rewrite Hn|]; by eexists.
  - simpl. rewrite (someM_map_ok JString _ (λ label, includes "network" label));
      [by eexists|done].
Qed.

Lemma filterM_Forall {A} (P : A → Prop) (p : A → Outcome bool) (l kept : list A) :
  filterM p l = Ok kept → Forall P l → Forall P kept.
Proof.
  revert kept. induction l as [|x l IH]; intros kept; simpl.
  - by intros [= <-].
  - destruct (p x) as [keep|]; [|done]. simpl.
    destruct (filterM p l) as [rest|]; [|done]. simpl.
    intros [= <-] [Hx Hl]%Forall_cons.
    destruct keep; [constructor; [done|]|]; by apply IH.
Qed.

Lemma filterM_returns {A} (p : A → Outcome bool) (l : list A) :
  Forall (λ x, ∃ b, p x = Ok b) l → ∃ kept, filterM p l = Ok kept.
Proof.
  induction 1 as [|x l [b Hx] Hl [kept IH]]; simpl; [by eexists|].
  rewrite Hx, IH. by eexists.
Qed.

Lemma getNetworkFeedback_readable :
  Forall (validDate rt) mockFeedback →
  triple (storeWellFormed rt) (Visualizer.getNetworkFeedback rt out)
         (λ items _, Forall (λ item, Visualizer.parseItemMetadata rt item = Ok tt) items)
         (λ _ _, False).
Proof.
  intros Hseed. unfold Visualizer.getNetworkFeedback.
  eapply (triple_try_catch _ _ _ _ (λ _ w, storeWellFormed rt w)).
  - eapply (triple_bind _ _ _ (λ rows _, Forall (metadataReadable rt) rows)).
    + intros w Hw. rewrite DB_selectNetwork_run. destruct (dbFault _ _); [done|].
      rewrite sort_perm. apply Forall_forall. intros r Hr%list_elem_of_In%filter_In.
      destruct Hr as [Hr%list_elem_of_In _].
      by destruct (proj1 (Forall_forall _ _) Hw _ Hr) as (_ & ? & _).
    + intros rows. apply triple_ret. intros _ Hrows.
      apply Forall_fmap. eapply Forall_impl; [exact Hrows|].
      intros r Hr. by apply parseItemMetadata_row.
  - intros e.
    eapply (triple_bind _ _ _ (λ items _, wellFormedBatch rt items));
      [by apply aggregateAllFeedback_wellFormed|].
    intros allFeedback.
    apply (triple_pure_post (wellFormedBatch rt allFeedback)). intros [Hshaped _].
    destruct (filterM_returns Visualizer.isNetworkFeedback allFeedback) as [kept Hkept].
    { eapply Forall_impl; [exact Hshaped|]. apply isNetworkFeedback_shaped. }
    rewrite Hkept. intros w0 _. simpl.
    apply Forall_fmap. eapply Forall_impl.
    + by apply (filterM_Forall shaped _ _ _ Hkept).
    + intros f Hf. by apply parseItemMetadata_shaped.
Qed.

Lemma safe_createVisualizationData (layers : list NetworkLayer) :
  safe (Visualizer.createVisualizationData out layers).
Proof. by intros w _. Qed.

Lemma countAll_readable (feedback : list Visualizer.NetItem)
    (layers : list NetworkLayer) :
  Forall (λ item, Visualizer.parseItemMetadata rt item = Ok tt) feedback →
  ∃ layers', Visualizer.countAll rt layers feedback = Ok layers'.
Proof.
  revert layers. induction feedback as [|item rest IH]; intros layers Hall; simpl.
  - by eexists.
  - apply Forall_cons in Hall as [-> Hall]. by apply IH.
Qed.

Lemma generateVisualization_escapes :
  Forall (validDate rt) mockFeedback →
  triple (storeWellFormed rt) (Visualizer.generateVisualization rt out)
         (λ _ _, True) (cacheFailure out).
Proof.
  intros Hseed. unfold Visualizer.generateVisualization. cbv zeta.
  eapply triple_bind; [apply (CACHE_get_escapes (Forall (rowWellFormed rt)))|].
  intros [hit|]; [by apply triple_ret|].
  eapply triple_bind.
  { eapply triple_weaken; [by apply getNetworkFeedback_readable|done..]. }
  intros feedback.
  apply (triple_pure_post
           (Forall (λ item, Visualizer.parseItemMetadata rt item = Ok tt) feedback)).
  intros Hreadable.
  eapply triple_bind.
  { apply (triple_lift _ _ (λ _ _, True)). intros w0 _.
    unfold Visualizer.analyzeNetworkLayers.
    by destruct (countAll_readable feedback Visualizer.initialLayers Hreadable)
      as [layers ->]. }
  intros layers.
  eapply triple_bind; [apply safe_escapes, safe_createVisualizationData|]. intros v.
  eapply triple_bind; [apply CACHE_put_escapes|]. intros ?. by apply triple_ret.
Qed.

Lemma escapes_run {A} (m : M A) (w : World) :
  triple (storeWellFormed rt) m (λ _ _, True) (cacheFailure out) →
  storeWellFormed rt w → returnsUnlessCacheFails out (m w).
Proof.
  intros Hm Hw. specialize (Hm w Hw). unfold returnsUnlessCacheFails.
  by destruct (m w) as [[a|e] w'].
Qed.
End Degradation.

(** C3, as amended: whatever the Data Gateway and the AI Gateway do (fail
    on any call, answer anything), and whether or not the Cache Gateway's
    delete fails, [getSummary], [getInsights] and [generateVisualization]
    return a result object, unless a get or a put of the Cache Gateway
    fails: that failure is the only exception that reaches the caller.
    The stored records are well formed (a valid [created_at], metadata
    that is a JSON object of the declared shape), and the dates of the
    seed dataset are valid ones for the runtime. *)
Theorem data_and_ai_failures_degrade
    (rt : JsRuntime) (out : Outside) (w : World) :
  Forall (validDate rt) mockFeedback →
  storeWellFormed rt w →
  returnsUnlessCacheFails out (getSummary rt out w)
  ∧ returnsUnlessCacheFails out (getInsights rt out w)
  ∧ returnsUnlessCacheFails out (Visualizer.generateVisualization rt out w).
Proof.
  intros Hseed Hw. split; [|split]; apply (escapes_run rt); try done.
  - by apply getSummary_escapes.
  - by apply getInsights_escapes.
  - by apply generateVisualization_escapes.
Qed.

Lemma seed_dates_valid : Forall (validDate Samples.runtime) mockFeedback.
Proof. repeat (constructor; [vm_compute; eauto|]). constructor. Defined.

Lemma data_and_ai_failures_degrade_witness :
  returnsUnlessCacheFails Samples.gatewaysDownOutside
    (getSummary Samples.runtime Samples.gatewaysDownOutside Samples.tcpNetworkWorld)
  ∧ returnsUnlessCacheFails Samples.gatewaysDownOutside
      (getInsights Samples.runtime Samples.gatewaysDownOutside Samples.tcpNetworkWorld)
  ∧ returnsUnlessCacheFails Samples.gatewaysDownOutside
      (Visualizer.generateVisualization Samples.runtime Samples.gatewaysDownOutside
         Samples.tcpNetworkWorld).
Proof.
  apply data_and_ai_failures_degrade.
  - exact seed_dates_valid.
  - repeat (constructor; [repeat split; vm_compute; eauto|]). constructor.
Defined.

(** A failed delete of the seed write-back is caught: from an empty store
    and an empty cache, with the first delete failing, [getSummary]
    returns after 24 interactions, one less than when the delete succeeds
    and the second delete is made as well. *)
Lemma getSummary_survives_failed_delete :
  ∃ summary w',
    getSummary Samples.runtime Samples.deleteFailsOutside Samples.emptyWorld
    = (Ok summary, w')
    ∧ steps w' = 24%nat
    ∧ steps (getSummary Samples.runtime (Samples.calmOutside None)
               Samples.emptyWorld).2 = 25%nat.
Proof.
  set (r := getSummary Samples.runtime Samples.deleteFailsOutside Samples.emptyWorld).
  assert (match r.1 with Ok _ => true | Throw _ => false end = true
          ∧ steps r.2 = 24%nat) as [Hok Hsteps] by (split; vm_compute; reflexivity).
  destruct r as [[summary|e] w']; [|done].
  exists summary, w'. split; [done|]. split; [done|]. by vm_compute.
Qed.

(** C3, as stated, fails: when the Cache Gateway throws, [getSummary]
    throws. *)
Lemma getSummary_throws_when_cache_down :
  (getSummary Samples.runtime Samples.cacheDownOutside Samples.emptyWorld).1
  = Throw "KV get failed".
Proof. reflexivity. Qed.

Lemma upsert_keeps_stale_insights_witness :
  let w' := (processFeedbackDirectly Samples.runtime (Samples.calmOutside None)
               [Samples.criticalSecurityRecord] Samples.cachedWorld).2 in
  CACHE w' !! "feedback:summary" = None
  ∧ CACHE w' !! "feedback:insights:v2" = Some Samples.staleEntry
  ∧ (getInsights Samples.runtime (Samples.calmOutside None) w').1
    = Ok (PInsights Samples.staleInsights).
Proof.
  intros w'.
  apply (upsert_keeps_stale_insights Samples.runtime (Samples.calmOutside None)
           [Samples.criticalSecurityRecord] Samples.cachedWorld w' Samples.staleEntry);
    reflexivity.
Defined.

Lemma generateInsights_deterministic_when_blocked_witness :
  (generateInsights Samples.runtime (Samples.calmOutside (Some "- a topic"))
     mockFeedback Samples.exhaustedWorld).1
  = (generateInsights Samples.runtime Samples.gatewaysDownOutside
       mockFeedback Samples.exhaustedWorld).1.
Proof.
  apply generateInsights_deterministic_when_blocked;
    (eexists; split; [reflexivity|split; [vm_compute; discriminate|reflexivity]]).
Defined.

End OrchestrationFacts.

(** ** The visualization pipeline *)

Module PipelineFacts.
Import Js JsFacts Async Gateway Visualizer Reference AsyncFacts VisualizerFacts.
Local Open Scope async_scope.

Section Transport.
Context (rt : JsRuntime) (out : Outside).

Lemma filter_all {A} (p : A → bool) (l : list A) :
  Forall (λ x, p x = true) l → List.filter p l = l.
Proof.
  induction 1 as [|x l Hx Hl IH]; simpl; [done|]. by rewrite Hx, IH.
Qed.

Lemma tcp_item (r : Row) :
  includes "tcp" (row_content r) = true →
  includes "tcp" (toLowerCase (itemText (OfRow r))) = true.
Proof.
  intros Htcp. unfold itemText. case_bool_decide as Hempty.
  - by apply (includes_nonempty "tcp") in Htcp.
  - by apply (includes_lower "tcp").
Qed.

Lemma selected_tcp_rows (rows : list Row) :
  tcpRows rt rows →
  let items := map OfRow (sort byCreatedAtDesc (List.filter networkWhere rows)) in
  length items = 6%nat
  ∧ Forall (λ item, includes "tcp" (toLowerCase (itemText item)) = true
                    ∧ parseItemMetadata rt item = Ok tt) items.
Proof.
  intros [Hlen Hrows]. simpl.
  rewrite filter_all by (eapply Forall_impl; [exact Hrows|]; by intros r (_ & ? & _)).
  split; [by rewrite length_map, sort_length|].
  apply Forall_fmap. rewrite sort_perm.
  eapply Forall_impl; [exact Hrows|]. intros r (Htcp & _ & Hmeta). simpl. split.
  - by apply tcp_item.
  - unfold metadataReadable in Hmeta. destruct (row_metadata r) as [text|]; [|done].
    by destruct Hmeta as [m ->].
Qed.

Lemma generateVisualization_transport :
  (∀ t, cacheFault out t = false) → (∀ t, dbFault out t = false) →
  triple (λ w, CACHE w !! "network:visualization:v2" = None
               ∧ tcpRows rt (FEEDBACK_DB w))
         (generateVisualization rt out)
         (λ a _, ∃ v layer,
            a = PVisualization v
            ∧ layerNamed "Transport Layer" (layerStatus v) = Some layer
            ∧ issueCount layer = 6 ∧ status layer = critical)
         (λ _ _, False).
Proof.
  intros Hcache Hdb. unfold generateVisualization. cbv zeta.
  eapply (triple_bind _ _ _ (λ cached w, cached = None ∧ tcpRows rt (FEEDBACK_DB w))).
  { intros w [Hmiss Hrows]. rewrite CACHE_get_run, Hcache, Hmiss. done. }
  intros cached. apply OrchestrationFacts.triple_pure. intros ->.
  eapply (triple_bind _ _ _
            (λ items _, length items = 6%nat
                        ∧ Forall (λ item, includes "tcp" (toLowerCase (itemText item)) = true
                                          ∧ parseItemMetadata rt item = Ok tt) items)).
  { unfold getNetworkFeedback.
    eapply (triple_try_catch _ _ _ _ (λ _ _, False)); [|by intros e w []].
    intros w Hrows. unfold bind. rewrite DB_selectNetwork_run, Hdb. simpl.
    by apply selected_tcp_rows. }
  intros items.
  apply (OrchestrationFacts.triple_pure_post
           (length items = 6%nat
            ∧ Forall (λ item, includes "tcp" (toLowerCase (itemText item)) = true
                              ∧ parseItemMetadata rt item = Ok tt) items)).
  intros [Hlen Hitems].
  destruct (analyzeNetworkLayers_transport rt items Hitems)
    as (layers & layer & Hlayers & Hnamed & Hcount & Hstatus); [lia|].
  rewrite Hlayers.
  eapply (triple_bind _ _ _ (λ a _, a = layers)); [by apply triple_lift|].
  intros ?. apply (OrchestrationFacts.triple_pure_post (a = layers)). intros ->.
  eapply (triple_bind _ _ _ (λ v _, layerStatus v = layers)); [by intros w _|].
  intros v. apply (OrchestrationFacts.triple_pure_post (layerStatus v = layers)).
  intros Hv.
  eapply triple_bind; [by apply CACHE_put_up|]. intros ?.
  apply triple_ret. intros w _. exists v, layer. rewrite Hv, Hcount, Hlen. done.
Qed.
End Transport.

(** C7, as amended: six records whose content contains "tcp" and which the
    query of the visualizer selects (their content mentions network,
    connectivity or interface, or their metadata mentions network or
    interface), fed through the pipeline (nothing cached, gateways up,
    readable metadata), give the Transport layer an issue count of 6 and
    the status critical. *)
Theorem selected_tcp_records_make_transport_critical
    (rt : JsRuntime) (out : Outside) (w : World) :
  (∀ t, cacheFault out t = false) → (∀ t, dbFault out t = false) →
  CACHE w !! "network:visualization:v2" = None →
  tcpRows rt (FEEDBACK_DB w) →
  transportOf (generateVisualization rt out w) = Some (6, critical).
Proof.
  intros Hcache Hdb Hmiss Hrows.
  destruct (triple_returns _ _ _ w (generateVisualization_transport rt out Hcache Hdb))
    as (a & w' & Hrun & v & layer & -> & Hnamed & Hcount & Hstatus); [done|].
  unfold transportOf. rewrite Hrun. simpl. rewrite Hnamed. simpl.
  by rewrite Hcount, Hstatus.
Qed.

Lemma selected_tcp_records_make_transport_critical_witness :
  transportOf (generateVisualization Samples.runtime (Samples.calmOutside None)
                 Samples.tcpNetworkWorld)
  = Some (6, critical).
Proof.
  apply selected_tcp_records_make_transport_critical; try reflexivity.
  split; [reflexivity|].
  repeat (constructor; [repeat split; vm_compute; eauto|]). constructor.
Defined.

(** C7, as stated, fails: six distinct records whose content contains
    "tcp", and none of the words the query of the visualizer looks for,
    are not selected; the Transport layer stays at 0 issues, healthy. *)
Lemma unselected_tcp_records_leave_transport_healthy :
  Forall (λ r, includes "tcp" (row_content r) = true) (FEEDBACK_DB Samples.tcpOnlyWorld)
  ∧ NoDup (map row_id (FEEDBACK_DB Samples.tcpOnlyWorld))
  ∧ length (FEEDBACK_DB Samples.tcpOnlyWorld) = 6%nat
  ∧ transportOf (generateVisualization Samples.runtime (Samples.calmOutside None)
                   Samples.tcpOnlyWorld)
    = Some (0, healthy).
Proof.
  split; [by repeat constructor|]. split; [|split; [done|by vm_compute]].
  refine (bool_decide_unpack (NoDup _) _). by vm_compute.
Qed.

End PipelineFacts.

(** ** Further properties of the quota tracker *)

Module QuotaFacts.
Import Js FreeTier CLOUDFLARE_LIMITS Reference Notions FreeTierFacts.

Lemma recordAITokensUsed_usage
    (clk : Clock) (tokens : Z) (m : gmap string UsageEntry) :
  usage ai_key (recordAITokensUsed clk tokens m)
    = usedInWindow (dayStart clk) m + tokens
  ∧ inWindow (dayStart clk) (recordAITokensUsed clk tokens m).
Proof.
  unfold recordAITokensUsed, usage, usedInWindow, inWindow.
  destruct (m !! ai_key) as [e|] eqn:He.
  - case_bool_decide as Hday; rewrite lookup_insert_eq; simpl; split; (done || lia).
  - rewrite lookup_insert_eq. simpl. split; (done || lia).
Qed.

(** X1: [recordAITokensUsed] adds the amount to the usage of the current
    day, and on a new day starts the count at the amount (the count of the
    old day is dropped); afterwards the stored window is the current day. *)
Theorem recordAITokensUsed_accounts
    (clk : Clock) (tokens : Z) (m : gmap string UsageEntry) :
  usage ai_key (recordAITokensUsed clk tokens m)
    = usedInWindow (dayStart clk) m + tokens
  ∧ inWindow (dayStart clk) (recordAITokensUsed clk tokens m).
Proof. apply recordAITokensUsed_usage. Qed.

(** X2: consumption is never refused, and an overshoot shows at the next
    check: once the recorded usage of the day reaches the budget (hard
    limit minus reserve), every later check of that day denies. *)
Theorem overshoot_denies_next_check
    (clk clk' : Clock) (tokens n : Z) (m : gmap string UsageEntry) :
  dayStart clk' = dayStart clk →
  0 ≤ n →
  AI_TOKENS_PER_DAY - AI_RESERVED_TOKENS ≤ usedInWindow (dayStart clk) m + tokens →
  (canMakeAIRequest clk' n (recordAITokensUsed clk tokens m)).1 = false.
Proof.
  intros Hday Hn Hover.
  destruct (recordAITokensUsed_usage clk tokens m) as [Hused Hwin].
  unfold canMakeAIRequest. simpl.
  rewrite usage_resetIfNewWindow_same, Hday, usedInWindow_current, Hused by done.
  apply Z.ltb_ge. lia.
Qed.

Lemma overshoot_denies_next_check_witness :
  (canMakeAIRequest Samples.noon 0
     (recordAITokensUsed Samples.noon 89500 Samples.someUsage)).1 = false.
Proof.
  apply overshoot_denies_next_check; [reflexivity|lia|vm_compute; discriminate].
Defined.

Lemma lookup_resetIfNewWindow_ne (key k : string) (start : Z)
    (m : gmap string UsageEntry) :
  key ≠ k → resetIfNewWindow key start m !! k = m !! k.
Proof.
  intros Hne. unfold resetIfNewWindow.
  destruct (m !! key) as [e|]; [case_bool_decide|]; by rewrite ?lookup_insert_ne.
Qed.

Lemma perform_other_key
    (clk : Clock) (c : Call) (k : string) (m : gmap string UsageEntry) :
  touchedKey c ≠ Some k → perform clk c m !! k = m !! k.
Proof.
  intros Hk.
  assert (∀ key, touchedKey c = Some key → key ≠ k) as Hne
    by (intros key Hkey ->; congruence).
  destruct c; simpl in *;
    try (apply lookup_resetIfNewWindow_ne; by apply Hne); [|done].
  unfold recordAITokensUsed.
  destruct (m !! ai_key) as [e|]; [case_bool_decide|];
    rewrite lookup_insert_ne; try done; by apply Hne.
Qed.

(** X3: the resource classes are tracked independently: a call changes no
    entry of [usageCache] other than the one of its own class. *)
Theorem perform_touches_own_key
    (clk : Clock) (c : Call) (k : string) (m : gmap string UsageEntry) :
  touchedKey c ≠ Some k → perform clk c m !! k = m !! k.
Proof. apply perform_other_key. Qed.

Lemma perform_touches_own_key_witness :
  perform Samples.noon CanReadFromKV Samples.someUsage !! ai_key
  = Samples.someUsage !! ai_key.
Proof. apply perform_touches_own_key. discriminate. Defined.

Lemma usage_resetIfNewWindow_zero (key k : string) (start : Z)
    (m : gmap string UsageEntry) :
  usage k m = 0 → usage k (resetIfNewWindow key start m) = 0.
Proof.
  intros Hz. unfold usage in *. destruct (decide (key = k)) as [->|Hne].
  - unfold resetIfNewWindow. destruct (m !! k) as [e|] eqn:He.
    + case_bool_decide; [by rewrite He|by rewrite lookup_insert_eq].
    + by rewrite lookup_insert_eq.
  - by rewrite lookup_resetIfNewWindow_ne.
Qed.

Lemma perform_unrecorded (clk : Clock) (c : Call) (m : gmap string UsageEntry) :
  unrecorded m → unrecorded (perform clk c m).
Proof.
  intros (H1 & H2 & H3 & H4).
  destruct c; simpl; try (repeat split; by apply usage_resetIfNewWindow_zero); [|done].
  assert (∀ k, Some ai_key ≠ Some k →
            recordAITokensUsed clk tokens m !! k = m !! k) as Hother
    by (intros k; apply (perform_other_key clk (RecordAITokensUsed tokens))).
  unfold unrecorded, usage in *. by rewrite !Hother.
Qed.

Lemma performAll_unrecorded (cs : list (Clock * Call)) (m : gmap string UsageEntry) :
  unrecorded m → unrecorded (performAll cs m).
Proof.
  revert m. induction cs as [|c cs IH]; intros m Hm; simpl; [done|].
  by apply IH, perform_unrecorded.
Qed.

(** X4: only AI tokens are ever recorded.  Whatever calls were made since
    the manager was created, the KV checks answer true, and the D1 checks
    depend on the estimate alone (below 450000 rows read, 90000 rows
    written). *)
Theorem store_checks_never_count (cs : list (Clock * Call)) (clk : Clock) :
  let m := performAll cs ∅ in
  (canReadFromKV clk m).1 = true
  ∧ (canWriteToKV clk m).1 = true
  ∧ (∀ n, (canReadFromD1 clk n m).1 = true ↔ n < 450000)
  ∧ (∀ n, (canWriteToD1 clk n m).1 = true ↔ n < 90000).
Proof.
  intros m.
  assert (unrecorded m) as (H1 & H2 & H3 & H4).
  { apply performAll_unrecorded. by repeat split. }
  unfold canReadFromKV, canWriteToKV, canReadFromD1, canWriteToD1. simpl.
  rewrite !usage_resetIfNewWindow_zero by done.
  repeat split; try done; intros; apply Z.ltb_lt; unfold D1_ROWS_READ_MONTHLY,
    D1_RESERVED_READS, D1_ROWS_WRITTEN_MONTHLY, D1_RESERVED_WRITES in *; lia.
Qed.

Lemma length_substring0 (n : nat) (s : string) :
  String.length (substring 0 n s) = Nat.min n (String.length s).
Proof.
  revert n. induction s as [|c s IH]; intros [|n]; simpl; try done.
  by rewrite IH.
Qed.

Lemma length_append (a b : string) :
  String.length (a +:+ b) = (String.length a + String.length b)%nat.
Proof.
  induction a as [|c a IH]; [done|].
  rewrite JsFacts.append_cons. simpl. by rewrite IH.
Qed.

Lemma truncateForAI_length (text : string) (maxLength : nat) :
  ((String.length text ≤ maxLength)%nat → truncateForAI text maxLength = text)
  ∧ ((maxLength < String.length text)%nat →
     truncateForAI text maxLength = substring 0 maxLength text +:+ "..."
     ∧ String.length (truncateForAI text maxLength) = (maxLength + 3)%nat)
  ∧ (String.length (truncateForAI text maxLength) ≤ maxLength + 3)%nat.
Proof.
  unfold truncateForAI.
  destruct (maxLength <? String.length text)%nat eqn:Hlt.
  - apply Nat.ltb_lt in Hlt.
    assert (String.length (substring 0 maxLength text +:+ "...") = (maxLength + 3)%nat)
      as Hlen by (rewrite length_append, length_substring0; simpl; lia).
    repeat split; try done; lia.
  - apply Nat.ltb_ge in Hlt. repeat split; try done; lia.
Qed.

(** X5: [truncateForAI] leaves a text of at most [maxLength] characters as
    it is, and cuts a longer one to its first [maxLength] characters
    followed by three dots; the result never exceeds [maxLength + 3]. *)
Theorem truncateForAI_bounded (text : string) (maxLength : nat) :
  ((String.length text ≤ maxLength)%nat → truncateForAI text maxLength = text)
  ∧ ((maxLength < String.length text)%nat →
     truncateForAI text maxLength = substring 0 maxLength text +:+ "..."
     ∧ String.length (truncateForAI text maxLength) = (maxLength + 3)%nat)
  ∧ (String.length (truncateForAI text maxLength) ≤ maxLength + 3)%nat.
Proof. apply truncateForAI_length. Qed.

Lemma truncateForAI_bounded_witness :
  truncateForAI "a long feedback title" 6 = "a long..."
  ∧ String.length (truncateForAI "a long feedback title" 6) = 9%nat.
Proof.
  apply (proj1 (proj2 (truncateForAI_bounded "a long feedback title" 6))).
  vm_compute. lia.
Defined.

(** X6: [estimateTokens] is the length divided by four, rounded up; so the
    estimate of a prompt cut by [truncateForAI] is at most
    [(maxLength + 6) / 4], whatever the feedback. *)
Theorem estimateTokens_ceiling (text : string) (maxLength : nat) :
  4 * (estimateTokens text - 1) < Z.of_nat (String.length text) ≤ 4 * estimateTokens text
  ∧ estimateTokens (truncateForAI text maxLength) ≤ (Z.of_nat maxLength + 6) `div` 4.
Proof.
  unfold estimateTokens. split.
  - pose proof (Z.div_mod (Z.of_nat (String.length text) + 3) 4 ltac:(lia)).
    pose proof (Z.mod_pos_bound (Z.of_nat (String.length text) + 3) 4 ltac:(lia)).
    lia.
  - destruct (truncateForAI_length text maxLength) as (_ & _ & Hle).
    apply Z.div_le_mono; lia.
Qed.

(** X7: the monthly window starts at a multiple of 30 days since the
    epoch, and holds the present: it is not the calendar month. *)
Theorem monthStart_thirty_day_block (clk : Clock) :
  0 ≤ now clk →
  monthStart clk `mod` thirtyDays = 0
  ∧ monthStart clk ≤ now clk < monthStart clk + thirtyDays.
Proof.
  intros Hnow. unfold monthStart.
  change (30 * 24 * 60 * 60 * 1000) with thirtyDays.
  assert (0 < thirtyDays) as Hpos by done.
  pose proof (Z.mod_pos_bound (now clk) thirtyDays Hpos).
  split; [|lia].
  rewrite Zminus_mod, Z.mod_mod, Z.sub_diag by lia. done.
Qed.

Lemma monthStart_thirty_day_block_witness :
  monthStart Samples.noon `mod` thirtyDays = 0
  ∧ monthStart Samples.noon ≤ now Samples.noon < monthStart Samples.noon + thirtyDays.
Proof. apply monthStart_thirty_day_block. vm_compute. discriminate. Defined.

End QuotaFacts.

(** ** Further properties of the rule-based classifier *)

Module ClassifierFacts.
Import Js JsFacts Aggregator Reference Notions.







Lemma priority_actions_length
    (feedback : list FeedbackItem) (priorityMatrix : PriorityMatrix) :
  (3 ≤ length (generateDynamicPriorityActions feedback priorityMatrix) ≤ 6)%nat.
Proof.
  unfold generateDynamicPriorityActions, slice0. cbv zeta.
  repeat match goal with
         | |- context [if (?a <? ?b)%Z then _ else _] => destruct (a <? b)%Z
         end; simpl; lia.
Qed.

(** X9: [generateDynamicPriorityActions] always proposes between three
    and six actions. *)
Theorem priority_actions_between_three_and_six
    (feedback : list FeedbackItem) (priorityMatrix : PriorityMatrix) :
  (3 ≤ length (generateDynamicPriorityActions feedback priorityMatrix) ≤ 6)%nat.
Proof. apply priority_actions_length. Qed.

(** X20: when at most eight records of the batch mention a critical
    keyword, none of them is dropped: each is rendered in the list. *)
Theorem extractCriticalIssues_complete
    (rt : JsRuntime) (feedback : list FeedbackItem) (f : FeedbackItem) :
  (length (List.filter isCriticalFeedback feedback) ≤ 8)%nat →
  f ∈ feedback → isCriticalFeedback f = true →
  title f +:+ " (" +:+ source_type f +:+ ")" ∈ extractCriticalIssues rt feedback.
Proof.
  intros Hlen Hin Hcrit. unfold extractCriticalIssues, criticalRecords, slice0.
  rewrite take_ge by (rewrite sort_length; lia).
  apply (list_elem_of_fmap_2 renderIssue). rewrite sort_perm.
  apply list_elem_of_In, filter_In. split; [by apply list_elem_of_In|done].
Qed.

Lemma extractCriticalIssues_complete_witness :
  "Memory leak in SNMP polling process (bug-report)"
  ∈ extractCriticalIssues Samples.runtime mockFeedback.
Proof.
  apply (extractCriticalIssues_complete Samples.runtime mockFeedback
           (mkItem "bug_001" "bug-report" "BR-101"
              "Memory leak in SNMP polling process"
              "Memory usage continuously increases during SNMP polling operations. Process must be restarted every 24 hours to prevent system crashes. Affects reliability in production."
              "qa-team" "2024-12-03T13:15:00Z" None None)).
  - vm_compute. lia.
  - unfold mockFeedback. do 11 apply list_elem_of_further. apply list_elem_of_here.
  - vm_compute. reflexivity.
Defined.

(** *** The priority matrix *)

Lemma priorityTable_cases (n p : string) :
  (n, p) ∈ priorityTable →
  (n = "security" ∧ p = "urgent") ∨ (n = "performance" ∧ p = "high")
  ∨ (n = "compatibility" ∧ p = "medium") ∨ (n = "features" ∧ p = "medium")
  ∨ (n = "usability" ∧ p = "low").
Proof.
  unfold priorityTable. rewrite !elem_of_cons, elem_of_nil.
  intros [H|[H|[H|[H|[H|[]]]]]]; injection H as -> ->; auto 10.
Qed.

Ltac by_table Ht Hp :=
  destruct Ht as [[? Hq]|[[? Hq]|[[? Hq]|[[? Hq]|[? Hq]]]]];
  rewrite Hq in Hp; try discriminate Hp; auto.

Section Matrix.
Context (rt : JsRuntime).

Lemma addToCategory_names (categories : list Category) (category : string)
    (f : FeedbackItem) (priority : string) :
  map cat_name (addToCategory rt categories category f priority)
  = if bool_decide (category ∈ map cat_name categories) then map cat_name categories
    else (map cat_name categories ++ [category])%list.
Proof.
  induction categories as [|c rest IH]; simpl; [done|].
  destruct (String.eqb (cat_name c) category) eqn:Hc.
  - apply String.eqb_eq in Hc. simpl.
    by rewrite bool_decide_eq_true_2 by (rewrite Hc; constructor).
  - apply String.eqb_neq in Hc. simpl. rewrite IH.
    case_bool_decide as Hin.
    + by rewrite bool_decide_eq_true_2 by (by constructor).
    + by rewrite bool_decide_eq_false_2 by (by apply not_elem_of_cons).
Qed.

Lemma addToCategory_ok (categories : list Category) (category : string)
    (f : FeedbackItem) (priority : string) :
  (category, priority) ∈ priorityTable →
  NoDup (map cat_name categories) ∧ Forall categoryOk categories →
  NoDup (map cat_name (addToCategory rt categories category f priority))
  ∧ Forall categoryOk (addToCategory rt categories category f priority).
Proof.
  intros Htable [Hnodup Hok]. split.
  - rewrite addToCategory_names. case_bool_decide as Hin; [done|].
    apply NoDup_app. split; [done|]. split; [|apply NoDup_singleton].
    intros x Hx ->%list_elem_of_singleton. done.
  - clear Hnodup. induction Hok as [|c rest Hc Hrest IH]; simpl.
    + constructor; [|constructor]. by repeat split.
    + destruct (String.eqb (cat_name c) category); constructor; try done.
      destruct Hc as (Ht & Hcount & Hpos). repeat split; simpl; [done| |lia].
      rewrite length_app. simpl. lia.
Qed.

Lemma categorizeFeedbackAdvanced_ok (feedback : list FeedbackItem) :
  NoDup (map cat_name (categorizeFeedbackAdvanced rt feedback))
  ∧ Forall categoryOk (categorizeFeedbackAdvanced rt feedback).
Proof.
  unfold categorizeFeedbackAdvanced.
  assert (NoDup (map cat_name (@nil Category)) ∧ Forall categoryOk []) as Hnil
    by (split; constructor).
  revert Hnil. generalize (@nil Category).
  induction feedback as [|f rest IH]; intros cs Hcs; simpl; [done|].
  apply IH. unfold categorizeAdvancedOne, addIf. cbv zeta.
  repeat match goal with
         | |- context [if ?b then _ else _] => destruct b
         end;
    repeat (apply addToCategory_ok;
            [unfold priorityTable; rewrite !elem_of_cons; auto 10|]); done.
Qed.

Lemma buckets_cover (categories : list Category) :
  Forall categoryOk categories →
  (length (List.filter (λ c, String.eqb (cat_priority c) "urgent") categories)
   + length (List.filter (λ c, String.eqb (cat_priority c) "high") categories)
   + length (List.filter (λ c, String.eqb (cat_priority c) "medium") categories)
   + length (List.filter (λ c, String.eqb (cat_priority c) "low") categories)
   = length categories)%nat.
Proof.
  induction 1 as [|c rest (Ht & _) Hrest IH]; simpl; [done|].
  apply priorityTable_cases in Ht
    as [[_ ->]|[[_ ->]|[[_ ->]|[[_ ->]|[_ ->]]]]]; simpl; lia.
Qed.

(** X10: the priority matrix follows the fixed table: every category
    appears once, counts exactly its items (at least one), and sits in the
    bucket of its topic: security in urgent, performance in high,
    compatibility and features in medium, usability in low; the four
    buckets together hold every category, of which there are at most
    five. *)
Theorem priority_matrix_follows_table (feedback : list FeedbackItem) :
  let categories := categorizeFeedbackAdvanced rt feedback in
  let matrix := generatePriorityMatrix rt feedback in
  NoDup (map cat_name categories)
  ∧ Forall categoryOk categories
  ∧ Forall (λ c, cat_name c = "security") (pm_urgent matrix)
  ∧ Forall (λ c, cat_name c = "performance") (pm_high matrix)
  ∧ Forall (λ c, cat_name c = "compatibility" ∨ cat_name c = "features")
           (pm_medium matrix)
  ∧ Forall (λ c, cat_name c = "usability") (pm_low matrix)
  ∧ (length (pm_urgent matrix) + length (pm_high matrix)
     + length (pm_medium matrix) + length (pm_low matrix)
     = length categories)%nat
  ∧ (length categories ≤ 5)%nat.
Proof.
  intros categories matrix.
  destruct (categorizeFeedbackAdvanced_ok feedback) as [Hnodup Hok].
  fold categories in Hnodup, Hok.
  assert (∀ p (Q : Category → Prop),
            (∀ c, categoryOk c → cat_priority c = p → Q c) →
            Forall Q (List.filter (λ c, String.eqb (cat_priority c) p) categories))
    as Hbucket.
  { intros p Q HQ. apply Forall_forall. intros c Hc%list_elem_of_In%filter_In.
    destruct Hc as [Hc%list_elem_of_In Hp%String.eqb_eq].
    apply HQ; [|done]. by eapply Forall_forall in Hok. }
  split; [done|]. split; [done|].
  repeat split.
  - apply Hbucket. intros c (Ht%priorityTable_cases & _) Hp. by_table Ht Hp.
  - apply Hbucket. intros c (Ht%priorityTable_cases & _) Hp. by_table Ht Hp.
  - apply Hbucket. intros c (Ht%priorityTable_cases & _) Hp. by_table Ht Hp.
  - apply Hbucket. intros c (Ht%priorityTable_cases & _) Hp. by_table Ht Hp.
  - by apply buckets_cover.
  - rewrite <-(length_map cat_name).
    change 5%nat with (length (map fst priorityTable)).
    apply submseteq_length, NoDup_submseteq; [done|].
    intros n (c & -> & Hc)%list_elem_of_fmap.
    eapply Forall_forall in Hok as (Ht & _); [|done].
    apply (list_elem_of_fmap_2 fst) in Ht. done.
Qed.
End Matrix.

(** *** User journeys *)

Lemma calculateJourneySatisfaction_label (feedback : list FeedbackItem) :
  calculateJourneySatisfaction feedback ∈ satisfactionLabels.
Proof.
  unfold calculateJourneySatisfaction, satisfactionLabels. cbv zeta.
  repeat match goal with
         | |- context [if ?b then _ else _] => destruct b
         end; rewrite !elem_of_cons; auto.
Qed.

(** X11: the journey analysis always reports the four stages in their
    fixed order, each with a count that does not exceed the batch and a
    satisfaction of high, low or medium; an empty stage is rated medium;
    at most six pain points are listed, and only features that are
    mentioned. *)
Theorem analyzeUserJourneys_shape (feedback : list FeedbackItem) :
  let journeys := analyzeUserJourneys feedback in
  map js_stage (journeyStages journeys) = stageNames
  ∧ Forall (λ stage, 0 ≤ js_feedbackCount stage ≤ Z.of_nat (length feedback)
                     ∧ js_satisfaction stage ∈ satisfactionLabels
                     ∧ (js_feedbackCount stage = 0 → js_satisfaction stage = "medium"))
           (journeyStages journeys)
  ∧ (length (painPoints journeys) ≤ 6)%nat
  ∧ Forall (λ adoption, 1 ≤ fa_mentions adoption ≤ Z.of_nat (length feedback))
           (featureAdoption journeys).
Proof.
  intros journeys. split; [done|]. split; [|split].
  - assert (∀ p : FeedbackItem → bool,
              0 ≤ Z.of_nat (length (List.filter p feedback)) ≤ Z.of_nat (length feedback)
              ∧ calculateJourneySatisfaction (List.filter p feedback) ∈ satisfactionLabels
              ∧ (Z.of_nat (length (List.filter p feedback)) = 0 →
                 calculateJourneySatisfaction (List.filter p feedback) = "medium"))
      as Hstage.
    { intros p. pose proof (filter_length_le p feedback).
      split; [lia|]. split; [apply calculateJourneySatisfaction_label|].
      intros Hzero. destruct (List.filter p feedback); [done|simpl in Hzero; lia]. }
    unfold journeys, analyzeUserJourneys. cbv zeta. simpl.
    repeat (constructor; [apply Hstage|]). constructor.
  - unfold journeys, analyzeUserJourneys, identifyPainPoints, slice0. simpl.
    rewrite length_map, length_take. lia.
  - change (featureAdoption journeys) with (analyzeFeatureAdoption feedback).
    unfold analyzeFeatureAdoption. cbv zeta. rewrite sort_perm. apply Forall_forall.
    intros a Ha%list_elem_of_In%filter_In. destruct Ha as [Ha Hpos].
    apply Z.ltb_lt in Hpos. split; [lia|].
    apply in_map_iff in Ha as (feature & <- & _). simpl. unfold countIf.
    pose proof (filter_length_le (contentHas feature) feedback). lia.
Qed.

End ClassifierFacts.

(** ** Further properties of the orchestration *)

Module EnrichmentFacts.
Import Js JsFacts FreeTier Async Gateway Aggregator Reference Notions AsyncFacts
  OrchestrationFacts.
Local Open Scope async_scope.

Section Enrichment.
Context (rt : JsRuntime) (out : Outside).

Lemma AI_call_run (model : string) (messages : list Message) (k : Z) (w : World) :
  AI_call out model messages k w
  = (match AI_run out (steps w) model messages k with
     | Some response => Ok response
     | None => Throw "AI run failed"
     end, ticked w).
Proof.
  unfold AI_call, bind, tick. cbv beta iota.
  by destruct (AI_run out (steps w) model messages k).
Qed.

Lemma recordAITokensUsed_run (tokens : Z) (w : World) :
  recordAITokensUsed out tokens w
  = (Ok tt,
     {| CACHE := CACHE w; FEEDBACK_DB := FEEDBACK_DB w;
        usageCache :=
          FreeTier.recordAITokensUsed (clockAt out (steps w)) tokens (usageCache w);
        steps := S (steps w) |}).
Proof. reflexivity. Qed.

Lemma analyzeSentiment_run (feedback : list FeedbackItem) (w : World) :
  ∃ label w',
    analyzeSentiment out feedback w = (Ok label, w')
    ∧ label ∈ sentimentLabels
    ∧ CACHE w' = CACHE w ∧ FEEDBACK_DB w' = FEEDBACK_DB w
    ∧ let check := FreeTier.canMakeAIRequest (clockAt out (steps w))
                     (sentimentEstimate feedback) (usageCache w) in
      (check.1 = false ∨ (∀ model messages k,
                            AI_run out (S (steps w)) model messages k = None) →
       label = "Neutral" ∧ usageCache w' = check.2).
Proof.
  unfold analyzeSentiment, sentimentLabels. cbv zeta.
  change (estimateTokens _) with (sentimentEstimate feedback).
  unfold bind at 1. rewrite canMakeAIRequest_run.
  destruct (FreeTier.canMakeAIRequest _ _ _).1 eqn:Hallowed; cbn [negb].
  - unfold try_catch. unfold bind at 1. rewrite AI_call_run. cbn [steps].
    match goal with
    | |- context [AI_run out ?t ?model ?messages ?k] =>
        destruct (AI_run out t model messages k) as [response|] eqn:Hai
    end.
    + unfold bind at 1. rewrite recordAITokensUsed_run. unfold ret.
      eexists _, _. split; [reflexivity|]. split.
      { destruct response as [r|]; [|rewrite !elem_of_cons; auto].
        repeat match goal with
               | |- context [if ?b then _ else _] => destruct b
               end; rewrite !elem_of_cons; auto. }
      split; [done|]. split; [done|].
      intros [?|Hfail]; [done|]. by rewrite Hfail in Hai.
    + unfold ret. eexists _, _. split; [reflexivity|].
      split; [rewrite !elem_of_cons; auto|]. done.
  - unfold ret. eexists _, _. split; [reflexivity|].
    split; [rewrite !elem_of_cons; auto|]. done.
Qed.

(** X12: [analyzeSentiment] always answers, with Positive, Negative or
    Neutral, and touches neither the cache nor the store; when the quota
    check denies or the AI Gateway throws, the answer is Neutral and no
    token is recorded beyond what the check left. *)
Theorem analyzeSentiment_degrades (feedback : list FeedbackItem) (w : World) :
  ∃ label w',
    analyzeSentiment out feedback w = (Ok label, w')
    ∧ label ∈ sentimentLabels
    ∧ CACHE w' = CACHE w ∧ FEEDBACK_DB w' = FEEDBACK_DB w
    ∧ let check := FreeTier.canMakeAIRequest (clockAt out (steps w))
                     (sentimentEstimate feedback) (usageCache w) in
      (check.1 = false ∨ (∀ model messages k,
                            AI_run out (S (steps w)) model messages k = None) →
       label = "Neutral" ∧ usageCache w' = check.2).
Proof. apply analyzeSentiment_run. Qed.

Lemma analyzeSentiment_label (feedback : list FeedbackItem) :
  triple (λ _, True) (analyzeSentiment out feedback)
         (λ label _, label ∈ sentimentLabels) (λ _ _, False).
Proof.
  intros w _. destruct (analyzeSentiment_run feedback w)
    as (label & w' & -> & Hlabel & _). done.
Qed.

Lemma bullet_slice_bounded (response : string) :
  (length (slice0 5 (bulletLines response)) ≤ 5)%nat.
Proof. unfold slice0. rewrite length_take. lia. Qed.

Lemma trendingTopics_bounded (feedback : list FeedbackItem) :
  triple (λ _, True) (extractAdvancedTrendingTopics out feedback)
         (λ topics _, (1 ≤ length topics ≤ 5)%nat) (λ _ _, False).
Proof.
  unfold extractAdvancedTrendingTopics. cbv zeta.
  eapply (triple_bind _ _ _ (λ _ _, True)); [by intros w0 _|].
  intros allowed. destruct (negb allowed).
  { apply triple_ret. intros _ _. simpl. lia. }
  eapply (triple_try_catch _ _ _ _ (λ _ _, True)).
  - eapply (triple_bind _ _ _ (λ _ _, True)); [apply triple_any|]. intros response.
    eapply (triple_bind _ _ _ (λ _ _, True)); [by intros w0 _|].
    intros ?. apply triple_ret. intros _ _.
    pose proof (bullet_slice_bounded (default EmptyString response)).
    destruct (0 <? length _)%nat eqn:Hpos; [apply Nat.ltb_lt in Hpos; lia|simpl; lia].
  - intros e. apply triple_ret. intros _ _. simpl. lia.
Qed.

Lemma recommendations_bounded (feedback : list FeedbackItem)
    (sentiment : SentimentAnalysis) :
  triple (λ _, True) (generateAdvancedRecommendations out feedback sentiment)
         (λ recs _, (3 ≤ length recs ≤ 5)%nat) (λ _ _, True).
Proof.
  unfold generateAdvancedRecommendations. cbv zeta.
  eapply (triple_bind _ _ _ (λ _ _, True)); [apply triple_any|]. intros overall.
  eapply (triple_bind _ _ _ (λ _ _, True)); [apply triple_any|]. intros urgency.
  eapply (triple_bind _ _ _ (λ _ _, True)); [apply triple_any|].
  intros allowed. destruct (negb allowed).
  { apply triple_ret. intros _ _. simpl. lia. }
  eapply (triple_try_catch _ _ _ _ (λ _ _, True)).
  - eapply (triple_bind _ _ _ (λ _ _, True)); [apply triple_any|]. intros response.
    eapply (triple_bind _ _ _ (λ _ _, True)); [apply triple_any|].
    intros ?. apply triple_ret. intros _ _.
    pose proof (bullet_slice_bounded (default EmptyString response)).
    destruct (3 <=? length _)%nat eqn:Hpos; [apply Nat.leb_le in Hpos; lia|simpl; lia].
  - intros e. apply triple_ret. intros _ _. simpl. lia.
Qed.

Lemma generateInsights_bounded_triple (feedback : list FeedbackItem) :
  triple (λ _, True) (generateInsights rt out feedback)
         (λ insights _, insightsBounded insights) (λ _ _, False).
Proof.
  unfold generateInsights. cbv zeta.
  eapply (triple_bind _ _ _ (λ _ _, True)).
  { refine (safe_try_catch _ _ _). intros. apply safe_ret. }
  intros sentiment.
  eapply (triple_bind _ _ _ (λ _ _, True)); [by apply triple_try_ret|]. intros matrix.
  eapply (triple_bind _ _ _ (λ _ _, True)); [by apply triple_try_ret|]. intros journeys.
  eapply (triple_bind _ _ _ (λ topics _, (1 ≤ length topics ≤ 5)%nat)).
  { eapply triple_try_catch; [apply trendingTopics_bounded|]. by intros e w []. }
  intros topics. apply (triple_pure_post (1 ≤ length topics ≤ 5)%nat). intros Htopics.
  eapply (triple_bind _ _ _ (λ recs _, (3 ≤ length recs ≤ 5)%nat)).
  { eapply triple_try_catch; [apply recommendations_bounded|].
    intros e. apply triple_ret. intros _ _. simpl. lia. }
  intros recs. apply (triple_pure_post (3 ≤ length recs ≤ 5)%nat). intros Hrecs.
  eapply (triple_bind _ _ _
            (λ actions _, actions = generateDynamicPriorityActions feedback matrix)).
  { by apply triple_try_ret. }
  intros actions.
  apply (triple_pure_post (actions = generateDynamicPriorityActions feedback matrix)).
  intros ->. apply triple_ret. intros _ _. unfold insightsBounded. simpl.
  split; [|split; [done|split; [done|]]].
  - unfold extractCriticalIssues, criticalRecords, slice0.
    rewrite length_map, length_take. lia.
  - apply ClassifierFacts.priority_actions_length.
Qed.

(** X13: whatever the AI Gateway answers or fails with, [generateInsights]
    returns insights with at most 8 critical issues, 1 to 5 trending
    topics, 3 to 5 recommendations and 3 to 6 priority actions. *)
Theorem generateInsights_bounded (feedback : list FeedbackItem) (w : World) :
  ∃ insights w',
    generateInsights rt out feedback w = (Ok insights, w')
    ∧ insightsBounded insights.
Proof. by apply (triple_returns _ _ _ w (generateInsights_bounded_triple feedback)). Qed.
End Enrichment.

End EnrichmentFacts.

(** ** Further properties of the cache and the store *)

Module StoreFacts.
Import Js JsFacts FreeTier Async Gateway Dynamic Aggregator Reference Notions
  AsyncFacts OrchestrationFacts.
Local Open Scope async_scope.

Section Caching.
Context (rt : JsRuntime) (out : Outside).

(** A cache-or-compute operation: look the key up, on a miss compute and
    store.  When the miss branch leaves what it returns in the cache, a
    returned payload is the one cached under the key afterwards. *)
Lemma cache_or_compute_caches (key : string) (ttl : Z) (miss : M Payload)
    (w0 : World) :
  triple (λ _, True) miss
         (λ p w, CACHE w !! key = Some {| payload := p; expirationTtl := ttl |})
         (λ _ _, True) →
  triple (λ w, w = w0)
         (cached <- CACHE_get out key ;;
          match cached with
          | Some hit => ret hit
          | None => miss
          end)
         (λ p w, cachedAs w0 key ttl p w) (λ _ _, True).
Proof.
  intros Hmiss.
  eapply (triple_bind _ _ _
            (λ cached w, cached = payload <$> CACHE w !! key
                         ∧ CACHE w !! key = CACHE w0 !! key)).
  { intros w ->. rewrite CACHE_get_run. by destruct (cacheFault _ _). }
  intros [hit|].
  - apply triple_ret. intros w [Hhit Hsame].
    destruct (CACHE w !! key) as [e|] eqn:He; [|done].
    injection Hhit as ->. exists e. split; [done|]. split; [done|].
    intros Hnone. by rewrite Hnone in Hsame.
  - intros w _. specialize (Hmiss w I).
    destruct (miss w) as [[p|e] w']; [|done]. eexists. by repeat split.
Qed.

Lemma store_and_return (key : string) (ttl : Z) (p : Payload) :
  triple (λ _, True) (CACHE_put out key p ttl ;;; ret p)
         (λ p w, CACHE w !! key = Some {| payload := p; expirationTtl := ttl |})
         (λ _ _, True).
Proof.
  eapply (triple_bind _ _ _
            (λ _ w, CACHE w !! key = Some {| payload := p; expirationTtl := ttl |})).
  - intros w _. rewrite CACHE_put_run. destruct (cacheFault _ _); [done|].
    simpl. apply lookup_insert_eq.
  - intros ?. by apply triple_ret.
Qed.

Lemma cache_hit_returns (key : string) (miss : M Payload) (w : World)
    (e : CacheEntry) :
  CACHE w !! key = Some e → cacheFault out (steps w) = false →
  (cached <- CACHE_get out key ;;
   match cached with
   | Some hit => ret hit
   | None => miss
   end) w = (Ok (payload e), ticked w).
Proof.
  intros He Hup. unfold bind at 1. rewrite CACHE_get_run, Hup, He. done.
Qed.

Lemma reuse (key : string) (ttl : Z) (op : M Payload) (miss : M Payload)
    (w w' : World) (p : Payload) :
  op = (cached <- CACHE_get out key ;;
        match cached with
        | Some hit => ret hit
        | None => miss
        end) →
  triple (λ _, True) miss
         (λ p w, CACHE w !! key = Some {| payload := p; expirationTtl := ttl |})
         (λ _ _, True) →
  op w = (Ok p, w') →
  cacheFault out (steps w') = false →
  cachedAs w key ttl p w' ∧ op w' = (Ok p, ticked w').
Proof.
  intros -> Hmiss Hrun Hup.
  pose proof (cache_or_compute_caches key ttl miss w Hmiss w eq_refl) as Hcached.
  rewrite Hrun in Hcached. split; [done|].
  destruct Hcached as (e & He & <- & _). by apply cache_hit_returns.
Qed.

(** X14: a summary that [getSummary] returns is cached under
    ["feedback:summary"] (for 300 seconds when it was computed), and the
    next [getSummary] returns the same summary without touching the
    store, the AI Gateway or the quota. *)
Theorem getSummary_reuses_cache (w w' : World) (p : Payload) :
  getSummary rt out w = (Ok p, w') →
  cacheFault out (steps w') = false →
  cachedAs w "feedback:summary" 300 p w'
  ∧ getSummary rt out w' = (Ok p, ticked w').
Proof.
  eapply reuse; [reflexivity|].
  eapply (triple_bind _ _ _ (λ _ _, True)); [apply triple_any|]. intros allFeedback.
  eapply (triple_bind _ _ _ (λ _ _, True)); [apply triple_any|]. intros summary.
  apply store_and_return.
Qed.

(** X15: insights that [getInsights] returns are cached under
    ["feedback:insights:v2"] (for 600 seconds when they were computed),
    and the next [getInsights] returns the same insights without
    recomputing. *)
Theorem getInsights_reuses_cache (w w' : World) (p : Payload) :
  getInsights rt out w = (Ok p, w') →
  cacheFault out (steps w') = false →
  cachedAs w "feedback:insights:v2" 600 p w'
  ∧ getInsights rt out w' = (Ok p, ticked w').
Proof.
  eapply reuse; [reflexivity|].
  eapply (triple_bind _ _ _ (λ _ _, True)); [apply triple_any|]. intros allFeedback.
  eapply (triple_bind _ _ _ (λ _ _, True)); [apply triple_any|]. intros insights.
  apply store_and_return.
Qed.

(** X16: a visualization that [generateVisualization] returns is cached
    under ["network:visualization:v2"] (for 600 seconds when it was
    computed), and the next call returns the same visualization without
    recomputing. *)
Theorem generateVisualization_reuses_cache (w w' : World) (p : Payload) :
  Visualizer.generateVisualization rt out w = (Ok p, w') →
  cacheFault out (steps w') = false →
  cachedAs w "network:visualization:v2" 600 p w'
  ∧ Visualizer.generateVisualization rt out w' = (Ok p, ticked w').
Proof.
  eapply reuse; [reflexivity|].
  eapply (triple_bind _ _ _ (λ _ _, True)); [apply triple_any|]. intros feedback.
  eapply (triple_bind _ _ _ (λ _ _, True)); [apply triple_any|]. intros layers.
  eapply (triple_bind _ _ _ (λ _ _, True)); [apply triple_any|]. intros v.
  apply store_and_return.
Qed.
End Caching.

Ltac reuse_witness lemma :=
  match goal with
  | |- ∃ p w', ?run = _ ∧ _ =>
      let H := fresh "Hrun" in
      destruct run as [[p|e] w'] eqn:H; [|vm_compute in H; discriminate H];
      exists p, w'; split; [reflexivity|];
      apply (lemma _ _ _ _ _ H); reflexivity
  end.

Lemma getSummary_reuses_cache_witness :
  ∃ p w',
    getSummary Samples.runtime (Samples.calmOutside None) Samples.emptyWorld = (Ok p, w')
    ∧ cachedAs Samples.emptyWorld "feedback:summary" 300 p w'
    ∧ getSummary Samples.runtime (Samples.calmOutside None) w' = (Ok p, ticked w').
Proof. reuse_witness getSummary_reuses_cache. Defined.

Lemma getInsights_reuses_cache_witness :
  ∃ p w',
    getInsights Samples.runtime (Samples.calmOutside None) Samples.emptyWorld = (Ok p, w')
    ∧ cachedAs Samples.emptyWorld "feedback:insights:v2" 600 p w'
    ∧ getInsights Samples.runtime (Samples.calmOutside None) w' = (Ok p, ticked w').
Proof. reuse_witness getInsights_reuses_cache. Defined.

Lemma generateVisualization_reuses_cache_witness :
  ∃ p w',
    Visualizer.generateVisualization Samples.runtime (Samples.calmOutside None)
      Samples.tcpNetworkWorld = (Ok p, w')
    ∧ cachedAs Samples.tcpNetworkWorld "network:visualization:v2" 600 p w'
    ∧ Visualizer.generateVisualization Samples.runtime (Samples.calmOutside None) w'
      = (Ok p, ticked w').
Proof. reuse_witness generateVisualization_reuses_cache. Defined.

Section Store.
Context (rt : JsRuntime) (out : Outside).

Lemma itemsOfRows_unreadable (rows : list Row) :
  Exists (unreadableRow rt) rows → ∃ e, itemsOfRows rt rows = Throw e.
Proof.
  induction 1 as [row rows Hrow|row rows Hrows [e IH]]; simpl.
  - unfold itemOfRow. unfold unreadableRow in Hrow. rewrite Hrow. by eexists.
  - destruct (itemOfRow rt row); [rewrite IH|]; by eexists.
Qed.

(** X17: one row whose metadata cannot be parsed hides the whole store:
    [getFeedbackFromDB] then returns no record at all. *)
Theorem unreadable_row_hides_store (w : World) :
  Exists (unreadableRow rt) (FEEDBACK_DB w) →
  getFeedbackFromDB rt out w = (Ok [], ticked w).
Proof.
  intros Hrow. unfold getFeedbackFromDB, try_catch, bind.
  rewrite DB_selectAll_run. destruct (dbFault _ _); [done|].
  destruct (itemsOfRows_unreadable (sort byCreatedAtDesc (FEEDBACK_DB w))) as [e He].
  { by rewrite sort_perm. }
  unfold lift. by rewrite He.
Qed.

(** What [getFeedbackFromDB] returns: nothing, or every row of the store,
    parsed, latest first. *)
Lemma getFeedbackFromDB_cases (w : World) :
  ∃ items,
    getFeedbackFromDB rt out w = (Ok items, ticked w)
    ∧ (items = []
       ∨ (dbFault out (steps w) = false
          ∧ itemsOfRows rt (sort byCreatedAtDesc (FEEDBACK_DB w)) = Ok items)).
Proof.
  unfold getFeedbackFromDB, try_catch, bind. rewrite DB_selectAll_run.
  destruct (dbFault _ _); [by exists []; split; [|left]|].
  unfold lift. destruct (itemsOfRows rt _) as [items|e] eqn:Hitems.
  - exists items. split; [done|]. by right.
  - exists []. split; [done|]. by left.
Qed.

(** X19: [aggregateAllFeedback] never returns an empty batch and never
    throws: it returns the records of the store when it could read at
    least one, and the seed dataset otherwise. *)
Theorem aggregateAllFeedback_never_empty (w : World) :
  ∃ items w',
    aggregateAllFeedback rt out w = (Ok items, w')
    ∧ items ≠ []
    ∧ (items = map rawOfItem mockFeedback
       ∨ (dbFault out (steps w) = false
          ∧ itemsOfRows rt (sort byCreatedAtDesc (FEEDBACK_DB w)) = Ok items)).
Proof.
  destruct (getFeedbackFromDB_cases w) as (items & Hget & Hitems).
  unfold aggregateAllFeedback. unfold bind at 1. rewrite Hget.
  destruct (0 <? length items)%nat eqn:Hlen.
  - apply Nat.ltb_lt in Hlen. exists items, (ticked w). split; [done|].
    assert (items ≠ []) as Hne by (intros ->; simpl in Hlen; lia).
    split; [done|]. right. by destruct Hitems.
  - assert (triple (λ _, True)
              (try_catch
                 ((if (0 <? length mockFeedback)%nat
                   then try_catch (processFeedbackDirectly rt out mockFeedback)
                                  (λ _, ret tt)
                   else ret tt) ;;;
                  ret (map rawOfItem mockFeedback))
                 (λ _, ret []))
              (λ items _, items = map rawOfItem mockFeedback) (λ _ _, False)) as Hseed.
    { eapply (triple_try_catch _ _ _ _ (λ _ _, False)); [|by intros e w0 []].
      eapply (triple_bind _ _ _ (λ _ _, True)).
      - simpl. refine (safe_try_catch _ _ _). intros. apply safe_ret.
      - intros ?. by apply triple_ret. }
    destruct (triple_returns _ _ _ (ticked w) Hseed I) as (seed & w' & Hrun & ->).
    exists (map rawOfItem mockFeedback), w'. split; [done|]. split; [done|by left].
Qed.






End Store.


Lemma unreadable_row_hides_store_witness :
  getFeedbackFromDB Samples.runtime (Samples.calmOutside None) MoreSamples.brokenWorld
  = (Ok [], ticked MoreSamples.brokenWorld).
Proof.
  apply unreadable_row_hides_store.
  apply Exists_cons_tl, Exists_cons_hd. vm_compute. reflexivity.
Defined.

End StoreFacts.

(** ** Records of another shape *)

Module ShapeFacts.
Import Js JsFacts Async Gateway Dynamic Aggregator Reference Notions AsyncFacts
  RawFacts OrchestrationFacts.
Local Open Scope async_scope.

Lemma filterM_throws {A} (E : string → Prop) (p : A → Outcome bool) (l : list A) :
  Forall (λ x, ∀ e, p x = Throw e → E e) l →
  Exists (λ x, ∃ e, p x = Throw e) l →
  ∃ e, E e ∧ filterM p l = Throw e.
Proof.
  intros Hall Hex. induction Hex as [x l [e Hx]|x l Hex IH]; simpl.
  - apply Forall_cons in Hall as [Hhead _]. rewrite Hx. simpl.
    exists e. split; [by apply Hhead|done].
  - apply Forall_cons in Hall as [Hhead Htail].
    destruct (p x) as [keep|e] eqn:Hx; simpl.
    + destruct (IH Htail) as (e & He & ->). by exists e.
    + exists e. split; [by apply Hhead|done].
Qed.

Lemma foldM_throws {A B} (E : string → Prop) (step : B → A → Outcome B)
    (init : B) (l : list A) :
  Forall (λ x, ∀ acc e, step acc x = Throw e → E e) l →
  Exists (λ x, ∀ acc, ∃ e, step acc x = Throw e) l →
  ∃ e, E e ∧ foldM step init l = Throw e.
Proof.
  intros Hall Hex. revert init.
  induction Hex as [x l Hx|x l Hex IH]; intros init; simpl.
  - apply Forall_cons in Hall as [Hhead _]. destruct (Hx init) as [e He].
    rewrite He. simpl. exists e. split; [by eapply Hhead|done].
  - apply Forall_cons in Hall as [Hhead Htail].
    destruct (step init x) as [next|e] eqn:Hx; simpl.
    + by apply IH.
    + exists e. split; [by eapply Hhead|done].
Qed.

Lemma someM_throw_inv {A} (p : A → Outcome bool) (l : list A) (e : string) :
  someM p l = Throw e → ∃ x, x ∈ l ∧ p x = Throw e.
Proof.
  induction l as [|x l IH]; simpl; [done|].
  destruct (p x) as [[]|e'] eqn:Hx; simpl; [done| |].
  - intros (y & Hy & Hpy)%IH. exists y. split; [by apply list_elem_of_further|done].
  - intros [= <-]. exists x. split; [apply list_elem_of_here|done].
Qed.

Lemma get_throw (key : string) (value : Json) (e : string) :
  get key value = Throw e → typeError e.
Proof. destruct value; simpl; try done. intros [= <-]. by left. Qed.

Lemma includes_of_throw (value : Json) (x e : string) :
  includes_of value x = Throw e → typeError e.
Proof. destruct value; simpl; try done; intros [= <-]; by (left + right). Qed.

Lemma toLowerCase_of_throw (value : Json) (e : string) :
  toLowerCase_of value = Throw e → typeError e.
Proof. destruct value; simpl; try done; intros [= <-]; by (left + right). Qed.

Lemma labels_or_empty_throw (f : RawItem) (e : string) :
  Raw.labels_or_empty f = Throw e → typeError e.
Proof.
  unfold Raw.labels_or_empty. destruct (get "labels" (raw_metadata f)) eqn:Hget; [done|].
  simpl. intros [= <-]. by eapply get_throw.
Qed.

Lemma isCriticalFeedback_throw (f : RawItem) (e : string) :
  Raw.isCriticalFeedback f = Throw e → typeError e.
Proof.
  unfold Raw.isCriticalFeedback. cbv zeta.
  destruct (Raw.labels_or_empty f) as [labels|e'] eqn:Hlabels;
    unfold andThen at 1; cbv beta iota.
  - intros (keyword & _ & Hk)%someM_throw_inv.
    destruct (_ || _); [done|].
    destruct labels; simpl in Hk; try (injection Hk as <-; by (left + right)).
    apply someM_throw_inv in Hk as (label & _ & Hlabel).
    destruct (toLowerCase_of label) eqn:Hlower; [done|]. simpl in Hlabel.
    injection Hlabel as <-. by eapply toLowerCase_of_throw.
  - intros [= <-]. by eapply labels_or_empty_throw.
Qed.

Lemma categorizeOne_throw (categories : list (string * Z)) (f : RawItem) (e : string) :
  Raw.categorizeOne categories f = Throw e → typeError e.
Proof.
  unfold Raw.categorizeOne. cbv zeta.
  destruct (get "labels" (raw_metadata f)) as [labels|e'] eqn:Hget; simpl.
  - destruct labels as [v|]; [|done].
    destruct (truthy (Some v)); [|done].
    destruct v; simpl; try done; intros [= <-]; by (left + right).
  - intros [= <-]. by eapply get_throw.
Qed.

Lemma isCriticalFeedback_null (f : RawItem) :
  raw_metadata f = JNull → ∃ e, Raw.isCriticalFeedback f = Throw e.
Proof.
  intros Hnull. unfold Raw.isCriticalFeedback, Raw.labels_or_empty. rewrite Hnull.
  by eexists.
Qed.

Lemma categorizeOne_null (categories : list (string * Z)) (f : RawItem) :
  raw_metadata f = JNull → ∃ e, Raw.categorizeOne categories f = Throw e.
Proof.
  intros Hnull. unfold Raw.categorizeOne. rewrite Hnull. by eexists.
Qed.

Section Null.
Context (rt : JsRuntime) (out : Outside) (feedback : list RawItem).
Context (Hnull : Exists (λ f, raw_metadata f = JNull) feedback).

Lemma extractCriticalIssues_null :
  ∃ e, typeError e ∧ Raw.extractCriticalIssues rt feedback = Throw e.
Proof.
  destruct (filterM_throws typeError Raw.isCriticalFeedback feedback)
    as (e & He & Hrun).
  - apply Forall_forall. intros f _ e. apply isCriticalFeedback_throw.
  - eapply Exists_impl; [exact Hnull|]. apply isCriticalFeedback_null.
  - exists e. split; [done|]. unfold Raw.extractCriticalIssues. by rewrite Hrun.
Qed.

Lemma categorizeFeedback_null :
  ∃ e, typeError e ∧ Raw.categorizeFeedback feedback = Throw e.
Proof.
  destruct (foldM_throws typeError Raw.categorizeOne [] feedback) as (e & He & Hrun).
  - apply Forall_forall. intros f _ acc e. apply categorizeOne_throw.
  - eapply Exists_impl; [exact Hnull|]. intros f Hf acc. by apply categorizeOne_null.
  - exists e. split; [done|]. unfold Raw.categorizeFeedback. by rewrite Hrun.
Qed.

Lemma generateInsights_null (w : World) :
  ∃ e, typeError e ∧ Raw.generateInsights rt out feedback w = (Throw e, w).
Proof.
  destruct extractCriticalIssues_null as (e & He & Hrun).
  exists e. split; [done|]. unfold Raw.generateInsights, bind, lift. by rewrite Hrun.
Qed.

Lemma analyzeFeedbackSummary_null (w : World) :
  Forall (validDate rt) (map asDeclared feedback) →
  ∃ e, typeError e ∧ Raw.analyzeFeedbackSummary rt out feedback w = (Throw e, w).
Proof.
  intros [range Hrange]%(computeDateRange_valid rt).
  destruct categorizeFeedback_null as (e & He & Hrun).
  exists e. split; [done|].
  unfold Raw.analyzeFeedbackSummary, bind, lift. cbv zeta. by rewrite Hrange, Hrun.
Qed.
End Null.

(** X21: nothing catches the [TypeError] of a record whose stored metadata
    is the JSON text [null]: when the Cache Gateway answers with a miss
    and the store is read, [getSummary] and [getInsights] throw it to
    their caller. *)
Theorem null_metadata_reaches_caller
    (rt : JsRuntime) (out : Outside) (w : World) (feedback : list RawItem) :
  cacheFault out (steps w) = false →
  CACHE w !! "feedback:summary" = None →
  CACHE w !! "feedback:insights:v2" = None →
  dbFault out (S (steps w)) = false →
  itemsOfRows rt (sort byCreatedAtDesc (FEEDBACK_DB w)) = Ok feedback →
  Exists (λ f, raw_metadata f = JNull) feedback →
  Forall (validDate rt) (map asDeclared feedback) →
  (∃ e, typeError e ∧ (getSummary rt out w).1 = Throw e)
  ∧ (∃ e, typeError e ∧ (getInsights rt out w).1 = Throw e).
Proof.
  intros Hcache Hsummary Hinsights Hdb Hitems Hnull Hdates.
  assert (aggregateAllFeedback rt out (ticked w) = (Ok feedback, ticked (ticked w)))
    as Haggregate.
  { unfold aggregateAllFeedback, getFeedbackFromDB, bind at 1, try_catch, bind.
    rewrite DB_selectAll_run. simpl steps. rewrite Hdb. unfold lift.
    simpl FEEDBACK_DB. rewrite Hitems.
    destruct feedback as [|f rest]; [by apply Exists_nil in Hnull|done]. }
  split.
  - destruct (analyzeFeedbackSummary_null rt out feedback Hnull (ticked (ticked w)) Hdates)
      as (e & He & Hrun).
    exists e. split; [done|].
    unfold getSummary. cbv zeta. unfold bind at 1.
    rewrite CACHE_get_run, Hcache, Hsummary. simpl.
    unfold bind at 1. rewrite Haggregate. unfold bind at 1. by rewrite Hrun.
  - destruct (generateInsights_null rt out feedback Hnull (ticked (ticked w)))
      as (e & He & Hrun).
    exists e. split; [done|].
    unfold getInsights. cbv zeta. unfold bind at 1.
    rewrite CACHE_get_run, Hcache, Hinsights. simpl.
    unfold bind at 1. rewrite Haggregate. unfold bind at 1. by rewrite Hrun.
Qed.

Lemma null_metadata_reaches_caller_witness :
  (∃ e, typeError e
        ∧ (getSummary Samples.runtime (Samples.calmOutside None)
             MoreSamples.nullMetadataWorld).1 = Throw e)
  ∧ (∃ e, typeError e
          ∧ (getInsights Samples.runtime (Samples.calmOutside None)
               MoreSamples.nullMetadataWorld).1 = Throw e).
Proof.
  eapply (null_metadata_reaches_caller Samples.runtime (Samples.calmOutside None)
            MoreSamples.nullMetadataWorld).
  - reflexivity.
  - reflexivity.
  - reflexivity.
  - reflexivity.
  - vm_compute. reflexivity.
  - apply Exists_cons_hd. reflexivity.
  - repeat (constructor; [vm_compute; eauto|]). constructor.
Defined.

(** X24: on records whose metadata has the declared shape, the summary
    and the insights computed from what the store hands back are those of
    the typed reading of the records: no [TypeError] is thrown, and
    nothing depends on properties of the metadata other than [labels],
    [priority] and [state]. *)
Theorem declared_shape_reads_typed
    (rt : JsRuntime) (out : Outside) (feedback : list RawItem) (w : World) :
  Forall shaped feedback →
  Raw.analyzeFeedbackSummary rt out feedback w
  = analyzeFeedbackSummary rt out (map asDeclared feedback) w
  ∧ Raw.generateInsights rt out feedback w
    = generateInsights rt out (map asDeclared feedback) w.
Proof.
  intros Hshaped.
  split; [by apply analyzeFeedbackSummary_typed|by apply generateInsights_typed].
Qed.

Lemma declared_shape_reads_typed_witness :
  Raw.analyzeFeedbackSummary Samples.runtime (Samples.calmOutside None)
    [rawOfItem Samples.criticalSecurityRecord] Samples.emptyWorld
  = analyzeFeedbackSummary Samples.runtime (Samples.calmOutside None)
      (map asDeclared [rawOfItem Samples.criticalSecurityRecord]) Samples.emptyWorld
  ∧ Raw.generateInsights Samples.runtime (Samples.calmOutside None)
      [rawOfItem Samples.criticalSecurityRecord] Samples.emptyWorld
    = generateInsights Samples.runtime (Samples.calmOutside None)
        (map asDeclared [rawOfItem Samples.criticalSecurityRecord]) Samples.emptyWorld.
Proof.
  apply declared_shape_reads_typed.
  constructor; [|constructor]. vm_compute. eauto.
Defined.

End ShapeFacts.

(** ** The layers of the visualizer *)

Module LayerFacts.
Import Js JsFacts Visualizer Reference Notions.

Lemma countItem_counted (n : Z) (layers : list NetworkLayer) (item : NetItem) :
  layersCounted (λ layer, status layer = healthy) n layers →
  layersCounted (λ layer, status layer = healthy) (n + 1) (countItem layers item).
Proof.
  intros (Hnames & Hall & s & p & Hs & Hp & Heq).
  unfold countItem. cbv zeta.
  generalize (toLowerCase (itemText item)). intros content.
  repeat match goal with
         | |- context [incrementIf ?b _ _] =>
             assert_fails (is_var b); generalize b; intros ?
         end.
  match goal with
  | |- context [if ?b then increment _ _ else _] => generalize b; intros ?
  end.
  destruct layers as [|[n0 s0 c0 d0] layers]; [done|].
  destruct layers as [|[n1 s1 c1 d1] layers]; [done|].
  destruct layers as [|[n2 s2 c2 d2] layers]; [done|].
  destruct layers as [|[n3 s3 c3 d3] layers]; [done|].
  destruct layers as [|[n4 s4 c4 d4] layers]; [done|].
  destruct layers as [|[n5 s5 c5 d5] layers]; [done|].
  destruct layers as [|[n6 s6 c6 d6] layers]; [done|].
  destruct layers; [|done].
  simpl in Hs, Hp. injection Hs as <-. injection Hp as <-.
  injection Hnames as -> -> -> -> -> -> ->.
  repeat match goal with H : Forall _ (_ :: _) |- _ =>
           apply Forall_cons in H as [[? ?] H] end.
  simpl in *.
  repeat match goal with b : bool |- _ => destruct b end;
    unfold layersCounted, incrementIf, increment; simpl;
    (split; [done|]); (split; [repeat constructor; simpl; (lia || done)|]);
    eexists _, _; (split; [done|]); (split; [done|]); simpl; lia.
Qed.

Lemma countAll_counted (rt : JsRuntime) (feedback : list NetItem) (n : Z)
    (layers counted : list NetworkLayer) :
  countAll rt layers feedback = Ok counted →
  layersCounted (λ layer, status layer = healthy) n layers →
  layersCounted (λ layer, status layer = healthy)
                (n + Z.of_nat (length feedback)) counted.
Proof.
  revert n layers. induction feedback as [|item rest IH]; intros n layers; simpl.
  - intros [= <-]. by rewrite Z.add_0_r.
  - destruct (parseItemMetadata rt item); [|done].
    intros Hrest Hlayers.
    replace (n + Z.of_nat (S (length rest)))
      with ((n + 1) + Z.of_nat (length rest)) by lia.
    apply (IH (n + 1) (countItem layers item)); [exact Hrest|].
    by apply countItem_counted.
Qed.

Lemma initialLayers_counted :
  layersCounted (λ layer, status layer = healthy) 0 initialLayers.
Proof.
  split; [done|]. split; [by repeat constructor|].
  eexists _, _. by repeat split.
Qed.

Lemma countAll_throw (rt : JsRuntime) (feedback : list NetItem)
    (layers : list NetworkLayer) (e : string) :
  countAll rt layers feedback = Throw e →
  Exists (λ item, parseItemMetadata rt item = Throw e) feedback.
Proof.
  revert layers. induction feedback as [|item rest IH]; intros layers; simpl; [done|].
  destruct (parseItemMetadata rt item) as [[]|e'] eqn:Hitem.
  - intros Hrest. apply Exists_cons_tl. by eapply IH.
  - intros [= <-]. by apply Exists_cons_hd.
Qed.

(** X22: [analyzeNetworkLayers] answers with the seven layers under their
    fixed names and in their fixed order; each counts at most one issue
    per record, its status is the one its count calls for (critical from
    5, warning from 2), and the Session layer counts what the Presentation
    layer counts.  It throws only what [JSON.parse] throws on the metadata
    text of a record. *)
Theorem analyzeNetworkLayers_shape (rt : JsRuntime) (feedback : list NetItem) :
  match analyzeNetworkLayers rt feedback with
  | Ok layers =>
      layersCounted (λ layer, status layer = statusFor (issueCount layer))
                    (Z.of_nat (length feedback)) layers
  | Throw e => Exists (λ item, parseItemMetadata rt item = Throw e) feedback
  end.
Proof.
  unfold analyzeNetworkLayers.
  destruct (countAll rt initialLayers feedback) as [counted|e] eqn:Hcount;
    [|by eapply countAll_throw].
  destruct (countAll_counted rt feedback 0 _ _ Hcount initialLayers_counted)
    as (Hnames & Hall & s & p & Hs & Hp & Heq).
  split; [|split].
  - rewrite <-Hnames, map_map. done.
  - apply Forall_fmap. eapply Forall_impl; [exact Hall|].
    intros layer [Hcount' Hhealthy]. simpl. split; [lia|].
    unfold statusFor. rewrite Hhealthy. done.
  - exists (determineStatus s), (determineStatus p).
    rewrite !list_lookup_fmap, Hs, Hp. done.
Qed.

End LayerFacts.

(** ** The summary *)

Module SummaryFacts.
Import Js JsFacts Async Gateway Aggregator Reference Notions AsyncFacts
  OrchestrationFacts EnrichmentFacts.
Local Open Scope async_scope.

Lemma unique_spec (arr : list string) :
  NoDup (unique arr) ∧ ∀ x, x ∈ unique arr ↔ x ∈ arr.
Proof.
  unfold unique, Array_includes.
  assert (∀ acc, NoDup acc →
            NoDup (foldl (λ acc x, if Array_includes x acc then acc
                                   else (acc ++ [x])%list) acc arr)
            ∧ ∀ x, x ∈ foldl (λ acc x, if Array_includes x acc then acc
                                       else (acc ++ [x])%list) acc arr
                   ↔ x ∈ acc ∨ x ∈ arr) as Hgen.
  { unfold Array_includes. induction arr as [|y arr IH]; intros acc Hacc; simpl.
    - split; [done|]. intros x. split; [by left|].
      intros [H|H]; [done|destruct (not_elem_of_nil _ H)].
    - case_bool_decide as Hin.
      + destruct (IH acc Hacc) as [Hnodup Hmem]. split; [done|].
        intros x. rewrite Hmem, elem_of_cons. split; [intros [?|?]; auto|].
        intros [?|[->|?]]; auto.
      + destruct (IH (acc ++ [y])%list) as [Hnodup Hmem].
        { apply NoDup_app. split; [done|]. split; [|apply NoDup_singleton].
          intros x Hx ->%list_elem_of_singleton. done. }
        split; [done|]. intros x.
        rewrite Hmem, elem_of_app, list_elem_of_singleton, elem_of_cons.
        split; [intros [[?|?]|?]; auto|intros [?|[?|?]]; auto]. }
  destruct (Hgen [] (NoDup_nil_2)) as [Hnodup Hmem]. split; [done|].
  intros x. rewrite Hmem. split; [|by right].
  intros [H|H]; [destruct (not_elem_of_nil _ H)|done].
Qed.

Lemma countIf_bounds {A} (p : A → bool) (l : list A) :
  0 ≤ countIf p l ≤ Z.of_nat (length l).
Proof.
  unfold countIf. split; [lia|]. apply inj_le.
  induction l as [|x l IH]; simpl; [done|]. destruct (p x); simpl; lia.
Qed.

Lemma computeDateRange_throw (rt : JsRuntime) (feedback : list FeedbackItem) (e : string) :
  computeDateRange rt feedback = Throw e →
  Exists (λ f, Date_getTime rt (created_at f) = None) feedback.
Proof.
  intros Hthrow.
  destruct (decide (Forall (validDate rt) feedback)) as [Hvalid|Hinvalid].
  - destruct (computeDateRange_valid rt feedback Hvalid) as [range Hrange].
    by rewrite Hrange in Hthrow.
  - apply not_Forall_Exists in Hinvalid; [|apply _].
    eapply Exists_impl; [exact Hinvalid|].
    intros f Hf. unfold validDate in Hf. by apply eq_None_not_Some.
Qed.

(** X23: [analyzeFeedbackSummary] counts the whole batch and lists its
    sources once each; it names at most five categories, counts no more
    critical issues or feature requests than there are records, and its
    sentiment is one of the three labels; an empty batch is summarized as
    "No data".  It throws only when a record carries an invalid date. *)
Theorem analyzeFeedbackSummary_shape
    (rt : JsRuntime) (out : Outside) (feedback : list FeedbackItem) (w : World) :
  match (analyzeFeedbackSummary rt out feedback w).1 with
  | Ok summary => summaryShape feedback summary
  | Throw _ => Exists (λ f, Date_getTime rt (created_at f) = None) feedback
  end.
Proof.
  unfold analyzeFeedbackSummary. cbv zeta. unfold bind at 1, lift.
  destruct (computeDateRange rt feedback) as [range|e] eqn:Hrange;
    [|by eapply computeDateRange_throw].
  unfold bind.
  pose proof (analyzeSentiment_label out feedback w I) as Hlabel.
  destruct (analyzeSentiment out feedback w) as [[label|e] w']; [|done].
  unfold ret. cbn [fst]. unfold summaryShape.
  cbn [totalItems sources dateRange topCategories averageSentiment
       criticalIssueCount featureRequests].
  destruct (unique_spec (map source_type feedback)) as [Hnodup Hmem].
  split; [done|]. split; [done|]. split; [done|].
  split; [rewrite length_map; unfold slice0; rewrite length_take; lia|].
  split; [apply countIf_bounds|]. split; [apply countIf_bounds|].
  split; [done|]. intros ->. simpl in Hrange. by injection Hrange as <-.
Qed.

End SummaryFacts.
